(** * ftpd: configuration store and filesystem helpers

    A shallow embedding of [source/fs.cpp] and [source/ftpConfig.cpp]:
    - [fs::printSize], the human readable size formatter;
    - [fs::File::readAll] / [fs::File::writeAll], the retry loops around
      [fread] / [fwrite];
    - [FtpConfig]: construction, [load], [save] and the setters.

    Fixed-width integers are [Z] with the wrap-around written out,
    [std::string] is [string] (a NUL byte is an ordinary character),
    [std::string::npos] is [None]. *)

From Stdlib Require Import ZArith Lia Bool List Ascii String.
Import ListNotations.

Local Open Scope string_scope.
Local Open Scope Z_scope.

(* ================================================================= *)
(** ** Characters and strings *)

Module Str.

(** [std::isdigit] in the C locale. *)
Definition isdigit (c : ascii) : bool :=
  ((48 <=? Z.of_nat (nat_of_ascii c)) && (Z.of_nat (nat_of_ascii c) <=? 57))%bool.

(** [c - '0'] *)
Definition digit_value (c : ascii) : Z := Z.of_nat (nat_of_ascii c) - 48.

(** The character ['0' + d]. *)
Definition digit_char (d : Z) : ascii := ascii_of_nat (Z.to_nat (48 + d)).

Fixpoint all_digits (s : string) : bool :=
  match s with
  | "" => true
  | String c r => isdigit c && all_digits r
  end.

(** Value of a digit string read left to right, starting from [acc]. *)
Fixpoint decimal_from (acc : Z) (s : string) : Z :=
  match s with
  | "" => acc
  | String c r => decimal_from (acc * 10 + digit_value c) r
  end.

Definition decimal_value (s : string) : Z := decimal_from 0 s.

Definition is_empty (s : string) : bool :=
  match s with "" => true | _ => false end.

(** Membership of a character in a character set given as a string. *)
Fixpoint mem (c : ascii) (set : string) : bool :=
  match set with
  | "" => false
  | String d r => Ascii.eqb c d || mem c r
  end.

(** [s.find_first_of (c)]: index of the first [c], [None] for [npos]. *)
Fixpoint find_first_of (s : string) (c : ascii) : option nat :=
  match s with
  | "" => None
  | String d r =>
      if Ascii.eqb d c then Some O
      else match find_first_of r c with
           | Some i => Some (S i)
           | None => None
           end
  end.

(** [s.find_first_not_of (set)] *)
Fixpoint find_first_not_of (s set : string) : option nat :=
  match s with
  | "" => None
  | String d r =>
      if mem d set
      then match find_first_not_of r set with
           | Some i => Some (S i)
           | None => None
           end
      else Some O
  end.

(** [s.find_last_not_of (set)] *)
Fixpoint find_last_not_of (s set : string) : option nat :=
  match s with
  | "" => None
  | String d r =>
      match find_last_not_of r set with
      | Some i => Some (S i)
      | None => if mem d set then None else Some O
      end
  end.

Fixpoint take (n : nat) (s : string) : string :=
  match n, s with
  | S k, String c r => String c (take k r)
  | _, _ => ""
  end.

Fixpoint drop (n : nat) (s : string) : string :=
  match n, s with
  | S k, String _ r => drop k r
  | _, _ => s
  end.

(** [s.substr (pos, count)]; [count = None] is [npos], the default
    argument.  [std::string::substr] throws when [pos > s.size ()]; every
    call in the sources has [pos <= s.size ()] (see [find_first_of_lt]),
    where the result is the clamped range computed here. *)
Definition substr (s : string) (pos : nat) (count : option nat) : string :=
  match count with
  | None => drop pos s
  | Some n => take n (drop pos s)
  end.

(** First and last character, when there is one. *)
Definition head (s : string) : option ascii :=
  match s with "" => None | String c _ => Some c end.

Fixpoint last (s : string) : option ascii :=
  match s with
  | "" => None
  | String c "" => Some c
  | String _ r => last r
  end.

(** [s] ends with [suffix]. *)
Definition ends_with (s suffix : string) : Prop :=
  exists pre, s = pre ++ suffix.

End Str.

(* ================================================================= *)
(** ** [printf] conversions *)

Module Printf.

(** Digits of [n], least significant first, pushed in front of [acc]. *)
Fixpoint dec_loop (fuel : nat) (n : Z) (acc : string) : string :=
  match fuel with
  | O => acc
  | S k =>
      let acc' := String (Str.digit_char (n mod 10)) acc in
      if n <? 10 then acc' else dec_loop k (n / 10) acc'
  end.

(** ["%u"], ["%" PRIu64]: the decimal digits of [n], no padding.  A number
    has at most [log2 n + 1] decimal digits. *)
Definition dec (n : Z) : string :=
  dec_loop (S (Z.to_nat (Z.log2 n))) n "".

(** ["%02" PRIu64]: zero padded to at least two characters. *)
Definition dec02 (n : Z) : string :=
  if n <? 10 then String "0" (dec n) else dec n.

End Printf.

(* ================================================================= *)
(** ** fs.cpp *)

Module fs.

(** [std::uint64_t] arithmetic is modulo [2^64]. *)
Definition u64 (x : Z) : Z := x mod 2 ^ 64.

Definition KiB : Z := 1024.
Definition MiB : Z := u64 (1024 * KiB).
Definition GiB : Z := u64 (1024 * MiB).
Definition TiB : Z := u64 (1024 * GiB).
Definition PiB : Z := u64 (1024 * TiB).
Definition EiB : Z := u64 (1024 * PiB).

(** The initializer list the loop of [printSize] walks, in its order. *)
Definition units : list (string * Z) :=
  [("EiB", EiB); ("PiB", PiB); ("TiB", TiB); ("GiB", GiB); ("MiB", MiB);
   ("KiB", KiB)].

(** The [for] loop of [printSize]; [None] when no unit was selected. *)
Fixpoint printSize_loop (us : list (string * Z)) (size_ : Z) : option string :=
  match us with
  | [] => None
  | (name, bin) :: rest =>
      let whole := size_ / bin in
      if u64 (100 * bin) <=? size_ then
        Some (Printf.dec whole ++ name)
      else
        let frac := u64 (size_ - u64 (whole * bin)) in
        if u64 (10 * bin) <=? size_ then
          Some (Printf.dec whole ++ "." ++ Printf.dec (u64 (frac * 10) / bin)
                  ++ name)
        else if u64 (1000 * (bin / KiB)) <=? size_ then
          Some (Printf.dec whole ++ "." ++ Printf.dec02 (u64 (frac * 100) / bin)
                  ++ name)
        else printSize_loop rest size_
  end.

Definition printSize (size_ : Z) : string :=
  match printSize_loop units size_ with
  | Some s => s
  | None => Printf.dec size_
  end.


(** [s] shows [size_] in the unit [name] of [bin] bytes with the number of
    fractional digits that the whole part calls for: none from 100 on, one
    from 10 to 99, two below 10. *)
Definition shown_in (name : string) (bin size_ : Z) (s : string) : Prop :=
  let whole := size_ / bin in
  if 100 <=? whole then s = Printf.dec whole ++ name
  else
    exists d,
      Str.all_digits d = true /\
      String.length d = (if 10 <=? whole then 1%nat else 2%nat) /\
      s = Printf.dec whole ++ "." ++ d ++ name.

Definition fraction_digits_rule (size_ : Z) (s : string) : Prop :=
  exists name bin, In (name, bin) units /\ shown_in name bin size_ s.

(** *** [fs::File::readAll] and [fs::File::writeAll]

    The stream behind a [fs::File] is a state of type [FILE]; [fread] and
    [fwrite] of the C library are parameters that take the stream, the
    position of the buffer pointer (as an offset from [data_]) and the
    number of bytes asked for, and give the count and the new stream. *)

Section File.

(** Width of [std::size_t] and [ssize_t] on the target. *)
Variable size_bits : positive.

Definition size_t (x : Z) : Z := x mod 2 ^ Z.pos size_bits.

(** Conversion of a [std::size_t] to [ssize_t]. *)
Definition ssize_t (x : Z) : Z :=
  let m := size_t x in
  if m <? 2 ^ (Z.pos size_bits - 1) then m else m - 2 ^ Z.pos size_bits.

Variable FILE : Type.
Variable fread : FILE -> Z -> Z -> Z * FILE.
Variable fwrite : FILE -> Z -> Z -> Z * FILE.

(** [fs::File::read]: the count of [std::fread] returned as [ssize_t]. *)
Definition read (fp : FILE) (data_ size_ : Z) : Z * FILE :=
  let (n, fp') := fread fp data_ size_ in (ssize_t n, fp').

(** [fs::File::write] *)
Definition write (fp : FILE) (data_ size_ : Z) : Z * FILE :=
  let (n, fp') := fwrite fp data_ size_ in (ssize_t n, fp').

(** One call of [read] or [write] as the loop made it: where the pointer
    stood, how much was asked for, what came back. *)
Record call : Type := Call { at_ptr : Z; asked : Z; got : Z }.

(** The [while] loop of [readAll].  Next to the [bool] of the source the
    result carries the stream and the calls made, in order. *)
Fixpoint readAll_loop (fuel : nat) (fp : FILE) (p bytes size_ : Z)
  : option (bool * FILE * list call) :=
  match fuel with
  | O => None
  | S k =>
      if bytes <? size_ then
        let (rc, fp') := read fp p (size_t (size_ - bytes)) in
        let c := Call p (size_t (size_ - bytes)) rc in
        if rc <=? 0 then Some (false, fp', [c])
        else
          match readAll_loop k fp' (p + rc) (size_t (bytes + rc)) size_ with
          | Some (ok, fp'', cs) => Some (ok, fp'', c :: cs)
          | None => None
          end
      else Some (true, fp, [])
  end.

Definition readAll (fuel : nat) (fp : FILE) (size_ : Z) :=
  readAll_loop fuel fp 0 0 size_.

(** The [while] loop of [writeAll]. *)
Fixpoint writeAll_loop (fuel : nat) (fp : FILE) (p bytes size_ : Z)
  : option (bool * FILE * list call) :=
  match fuel with
  | O => None
  | S k =>
      if bytes <? size_ then
        let (rc, fp') := write fp p (size_t (size_ - bytes)) in
        let c := Call p (size_t (size_ - bytes)) rc in
        if rc <=? 0 then Some (false, fp', [c])
        else
          match writeAll_loop k fp' (p + rc) (size_t (bytes + rc)) size_ with
          | Some (ok, fp'', cs) => Some (ok, fp'', c :: cs)
          | None => None
          end
      else Some (true, fp, [])
  end.

Definition writeAll (fuel : nat) (fp : FILE) (size_ : Z) :=
  writeAll_loop fuel fp 0 0 size_.

End File.

(** Sum of the counts of a sequence of calls. *)
Definition transferred (cs : list call) : Z :=
  fold_right (fun c acc => got c + acc) 0 cs.

(** Sum of the counts of the calls that transferred something. *)
Definition accumulated (cs : list call) : Z :=
  transferred (filter (fun c => 0 <? got c) cs).

(** The calls [cs] are calls of [f] (that is [read] or [write]) made one
    after the other on the stream: the first on [fp], each later one on the
    stream the call before it left, the last one leaving [fp']; the count
    of each is what [f] returned for its pointer and its request. *)
Fixpoint made_on {FILE : Type} (f : FILE -> Z -> Z -> Z * FILE) (fp : FILE)
    (cs : list call) (fp' : FILE) : Prop :=
  match cs with
  | [] => fp' = fp
  | c :: rest =>
      exists fp1, f fp (at_ptr c) (asked c) = (got c, fp1) /\
                  made_on f fp1 rest fp'
  end.

(** What the retry loops promise about a finished run on [size_] bytes
    that returned [ok] after the calls [cs]. *)
Definition retry_contract (size_bits : positive) (size_ : Z) (ok : bool)
    (cs : list call) : Prop :=
  (* each call is made while the total is short of [size_], resumes where
     the earlier ones stopped and asks for the rest *)
  (forall i c, nth_error cs i = Some c ->
     transferred (firstn i cs) mod 2 ^ Z.pos size_bits < size_ /\
     at_ptr c = transferred (firstn i cs) /\
     asked c = size_ - transferred (firstn i cs) mod 2 ^ Z.pos size_bits) /\
  (* a call that returned zero or less is the last one *)
  (forall i c, nth_error cs i = Some c -> got c <= 0 -> S i = List.length cs) /\
  (ok = true <-> size_ <= accumulated cs mod 2 ^ Z.pos size_bits) /\
  (ok = false <-> exists c, nth_error cs (pred (List.length cs)) = Some c /\ got c <= 0).

End fs.

(* ================================================================= *)
(** ** ftpConfig.cpp *)

Module FtpConfig.

(** The values the sources store in [errno]. *)
Inductive Errno : Type := EPERM | EINVAL | EOVERFLOW.

Definition DEFAULT_PORT : Z := 5000.
Definition DEFAULT_DEFLATE_LEVEL : Z := 6.

(** [<zlib.h>] *)
Definition Z_NO_COMPRESSION : Z := 0.
Definition Z_BEST_COMPRESSION : Z := 9.

(** [std::numeric_limits<std::uint16_t>::max ()] and
    [std::numeric_limits<int>::max ()] *)
Definition UINT16_MAX : Z := 65535.
Definition INT_MAX : Z := 2147483647.

Definition NUL : ascii := Ascii.zero.
Definition LF : ascii := "010"%char.
Definition CR : ascii := "013"%char.
Definition TAB : ascii := "009"%char.

(** The character set [" \t"]. *)
Definition blanks : string := String " " (String TAB "").

Definition strip (str_ : string) : string :=
  match Str.find_first_not_of str_ blanks with
  | None => ""
  | Some start =>
      match Str.find_last_not_of str_ blanks with
      | None => Str.substr str_ start None
      | Some end_ => Str.substr str_ start (Some (S end_ - start)%nat)
      end
  end.

(** The [for] loop of [parseInt<T>], [max] being
    [std::numeric_limits<T>::max ()]: [inl val] when the loop runs to its
    end, [inr e] when it returns false with [errno = e].  The two guards
    keep [val] at or below [max] (lemma [parseInt_loop_bounded]), so the
    arithmetic of [T] never wraps and is that of [Z]. *)
Fixpoint parseInt_loop (max val : Z) (val_ : string) : Z + Errno :=
  match val_ with
  | "" => inl val
  | String c rest =>
      if negb (Str.isdigit c) then inr EINVAL
      else if max / 10 <? val then inr EOVERFLOW
      else
        let val := val * 10 in
        let v := Str.digit_value c in
        if max - v <? val then inr EOVERFLOW
        else parseInt_loop max (val + v) rest
  end.

(** [parseInt<T> (out_, val_)]: [inl val] stands for "returns true after
    [out_ = val], [errno] untouched", [inr e] for "returns false with
    [errno = e], [out_] untouched". *)
Definition parseInt (max : Z) (val_ : string) : Z + Errno :=
  if Str.is_empty val_ then inr EINVAL else parseInt_loop max 0 val_.

Record t : Type := mk {
  m_user : string;
  m_pass : string;
  m_port : Z;
  m_deflateLevel : Z;
  m_getMTime : bool  (* a member on [_3DS] builds only *)
}.

Definition user (c : t) : string := m_user c.
Definition pass (c : t) : string := m_pass c.
Definition port (c : t) : Z := m_port c.
Definition deflateLevel (c : t) : Z := m_deflateLevel c.

Definition with_user (c : t) (u : string) : t :=
  mk u (m_pass c) (m_port c) (m_deflateLevel c) (m_getMTime c).
Definition with_pass (c : t) (p : string) : t :=
  mk (m_user c) p (m_port c) (m_deflateLevel c) (m_getMTime c).
Definition with_port (c : t) (p : Z) : t :=
  mk (m_user c) (m_pass c) p (m_deflateLevel c) (m_getMTime c).
Definition with_deflateLevel (c : t) (l : Z) : t :=
  mk (m_user c) (m_pass c) (m_port c) l (m_getMTime c).
Definition with_getMTime (c : t) (b : bool) : t :=
  mk (m_user c) (m_pass c) (m_port c) (m_deflateLevel c) b.

Definition setUser (c : t) (user_ : string) : t :=
  with_user c (Str.substr user_ 0 (Str.find_first_of user_ NUL)).

Definition setPass (c : t) (pass_ : string) : t :=
  with_pass c (Str.substr pass_ 0 (Str.find_first_of pass_ NUL)).

(** [setDeflateLevel (int)]: the [bool] returned and the object after. *)
Definition setDeflateLevel (c : t) (level_ : Z) : bool * t :=
  if (level_ <? Z_NO_COMPRESSION) || (Z_BEST_COMPRESSION <? level_)
  then (false, c)
  else (true, with_deflateLevel c level_).

(** [setDeflateLevel (std::string const &)]; the third component is what
    the call stored in [errno], if anything. *)
Definition setDeflateLevel_str (c : t) (level_ : string)
  : bool * t * option Errno :=
  match parseInt INT_MAX level_ with
  | inr e => (false, c, Some e)
  | inl parsed => let (ok, c') := setDeflateLevel c parsed in (ok, c', None)
  end.

(** ["%s"] applied to [c_str ()]: the characters before the first NUL. *)
Definition c_str (s : string) : string :=
  Str.substr s 0 (Str.find_first_of s NUL).

(** [key] and [val] of a line of the configuration file, as the loop of
    [load] computes them; [None] when the line has no ['=']. *)
Definition split_line (line : string) : option (string * string) :=
  match Str.find_first_of line "="%char with
  | None => None
  | Some pos =>
      Some (strip (Str.substr line 0 (Some pos)),
            strip (Str.substr line (S pos) None))
  end.

Section Build.

(** Whether the preprocessor symbols [NDS] and [_3DS] are defined. *)
Variables NDS _3DS : bool.

(** Initial value of [m_getMTime], from the class declaration. *)
Variable getMTime_init : bool.

(** [fs::File::readLine], declared with [fs::File]: from the unread part
    of the stream, the next line and what is left unread. *)
Variable readLine : string -> string * string.

(** The constructor, and [create]. *)
Definition create : t :=
  mk "" "" DEFAULT_PORT DEFAULT_DEFLATE_LEVEL getMTime_init.

(** [setPort (std::uint16_t)] *)
Definition setPort (c : t) (port_ : Z) : bool * t * option Errno :=
  if (port_ <? 1024)
     && (if negb NDS && negb _3DS then negb (port_ =? 0) else true)
  then (false, c, Some EPERM)
  else (true, with_port c port_, None).

(** The ports [setPort] lets through on this build. *)
Definition port_allowed (p : Z) : Prop :=
  1024 <= p \/ (p = 0 /\ NDS || _3DS = false).

(** [setPort (std::string const &)] *)
Definition setPort_str (c : t) (port_ : string) : bool * t * option Errno :=
  match parseInt UINT16_MAX port_ with
  | inr e => (false, c, Some e)
  | inl parsed => setPort c parsed
  end.

(** The variables of [load] that its loop updates. *)
Record locals : Type := Locals {
  l_config : t;
  l_port : Z;
  l_deflateLevel : Z
}.

(** The chain of comparisons on [key] in the loop of [load]. *)
Definition load_assign (key val : string) (st : locals) : locals :=
  if String.eqb key "user" then
    Locals (with_user (l_config st) val) (l_port st) (l_deflateLevel st)
  else if String.eqb key "pass" then
    Locals (with_pass (l_config st) val) (l_port st) (l_deflateLevel st)
  else if String.eqb key "port" then
    match parseInt UINT16_MAX val with
    | inl p => Locals (l_config st) p (l_deflateLevel st)
    | inr _ => st
    end
  else if String.eqb key "deflateLevel" then
    match parseInt INT_MAX val with
    | inl l => Locals (l_config st) (l_port st) l
    | inr _ => st
    end
  else if _3DS && String.eqb key "mtime" then
    if String.eqb val "0" then
      Locals (with_getMTime (l_config st) false) (l_port st) (l_deflateLevel st)
    else if String.eqb val "1" then
      Locals (with_getMTime (l_config st) true) (l_port st) (l_deflateLevel st)
    else st
  else st.

(** One pass through the body of the [while] loop of [load] (the calls of
    [error] only write to the log). *)
Definition load_line (line : string) (st : locals) : locals :=
  match split_line line with
  | None => st
  | Some (key, val) =>
      if Str.is_empty key || Str.is_empty val then st
      else load_assign key val st
  end.

(** The [while] loop of [load] on the unread stream [fp]. *)
Fixpoint load_loop (fuel : nat) (fp : string) (st : locals) : option locals :=
  match fuel with
  | O => None
  | S k =>
      let (line, fp') := readLine fp in
      if Str.is_empty line then Some st
      else load_loop k fp' (load_line line st)
  end.

(** The lines the loop of [load] sees: the results of [readLine] up to the
    first empty one. *)
Fixpoint read_lines (fuel : nat) (fp : string) : option (list string) :=
  match fuel with
  | O => None
  | S k =>
      let (line, fp') := readLine fp in
      if Str.is_empty line then Some []
      else option_map (cons line) (read_lines k fp')
  end.

(** [load (path_)]; [file] is what is at [path_]: [None] when [fp.open]
    fails, the content of the file otherwise. *)
Definition load (fuel : nat) (file : option string) : option t :=
  let config := create in
  match file with
  | None => Some config
  | Some content =>
      match load_loop fuel content
              (Locals config DEFAULT_PORT DEFAULT_DEFLATE_LEVEL) with
      | None => None
      | Some st =>
          let '(_, c1, _) := setPort (l_config st) (l_port st) in
          let (_, c2) := setDeflateLevel c1 (l_deflateLevel st) in
          Some c2
      end
  end.

(** What [save] prints into the file it opened.  ["%u"] prints an [int]
    as [unsigned]. *)
Definition save_text (c : t) : string :=
  (if Str.is_empty (m_user c) then ""
   else "user=" ++ c_str (m_user c) ++ String LF "")
  ++ (if Str.is_empty (m_pass c) then ""
      else "pass=" ++ c_str (m_pass c) ++ String LF "")
  ++ "port=" ++ Printf.dec (m_port c) ++ String LF ""
  ++ "deflateLevel=" ++ Printf.dec (m_deflateLevel c mod 2 ^ 32)
  ++ (if _3DS
      then "mtime=" ++ Printf.dec (if m_getMTime c then 1 else 0)
             ++ String LF ""
      else "").

(** [save (path_)], given whether [mkdirParent] and [fp.open (path_, "wb")]
    succeed: the [bool] returned and the content of the file when it was
    opened. *)
Definition save (mkdirParent_ok open_ok : bool) (c : t)
  : bool * option string :=
  if negb mkdirParent_ok then (false, None)
  else if negb open_ok then (false, None)
  else (true, Some (save_text c)).

(** The states of a configuration that the public operations produce. *)
Inductive reachable : t -> Prop :=
| r_create : reachable create
| r_load fuel file c : load fuel file = Some c -> reachable c
| r_save a b c : reachable c -> fst (save a b c) = true -> reachable c
| r_setUser c s : reachable c -> reachable (setUser c s)
| r_setPass c s : reachable c -> reachable (setPass c s)
| r_setPort c p :
    reachable c -> 0 <= p <= UINT16_MAX -> reachable (snd (fst (setPort c p)))
| r_setPort_str c s :
    reachable c -> reachable (snd (fst (setPort_str c s)))
| r_setDeflateLevel c l :
    reachable c -> - INT_MAX - 1 <= l <= INT_MAX ->
    reachable (snd (setDeflateLevel c l))
| r_setDeflateLevel_str c s :
    reachable c -> reachable (snd (fst (setDeflateLevel_str c s))).

End Build.

(** A line of the file is a list element; [save] separates lines by line
    feeds. *)
Fixpoint join_lines (ls : list string) : string :=
  match ls with
  | [] => ""
  | [l] => l
  | l :: rest => l ++ String LF (join_lines rest)
  end.

(** A character that [strip] keeps at an end of a string. *)
Definition keeps_end (o : option ascii) : bool :=
  match o with
  | Some c => negb (Str.mem c blanks)
  | None => false
  end.

(** Strings that survive a line of the file unchanged: not empty, no line
    feed, carriage return or NUL, no space or tab at either end. *)
Definition storable (s : string) : bool :=
  negb (Str.mem LF s) && negb (Str.mem CR s) && negb (Str.mem NUL s)
  && keeps_end (Str.head s) && keeps_end (Str.last s).

(** On a [_3DS] build the last two [fprintf] of [save] land on one line;
    this is what follows ["deflateLevel="] on it. *)
Definition level_mtime (c : t) : string :=
  Printf.dec (m_deflateLevel c)
  ++ "mtime=" ++ Printf.dec (if m_getMTime c then 1 else 0).

(** A line that a line reader hands over as it is. *)
Definition plain_line (l : string) : Prop :=
  l <> "" /\ Str.mem LF l = false /\ Str.mem CR l = false.

End FtpConfig.

(* ================================================================= *)
(** ** A line reader

    An instance for the [readLine] parameter of [FtpConfig.load]: a line
    ends at the first line feed or at the end of the stream, and is
    returned without its trailing carriage returns and line feeds. *)

Module Lines.

Fixpoint getline (s : string) : string * string :=
  match s with
  | "" => ("", "")
  | String c r =>
      if Ascii.eqb c FtpConfig.LF then (String c "", r)
      else let (l, rest) := getline r in (String c l, rest)
  end.

Fixpoint chomp (s : string) : string :=
  match s with
  | "" => ""
  | String c r =>
      match chomp r with
      | "" => if Ascii.eqb c FtpConfig.LF || Ascii.eqb c FtpConfig.CR
              then "" else String c ""
      | r' => String c r'
      end
  end.

Definition readLine (s : string) : string * string :=
  let (l, rest) := getline s in (chomp l, rest).

End Lines.

(* ================================================================= *)
(** ** A stream that moves three bytes at a time

    An instance for the [fread] / [fwrite] parameters of the retry loops:
    the stream counts the calls made on it, and every call transfers what
    was asked for, but no more than three bytes. *)

Module Chunked.

Definition FILE : Type := nat.

Definition fread (fp : FILE) (data_ size_ : Z) : Z * FILE :=
  (Z.min size_ 3, S fp).

Definition fwrite (fp : FILE) (data_ size_ : Z) : Z * FILE :=
  (Z.min size_ 3, S fp).

End Chunked.

(* ================================================================= *)
(** ** More on strings

    Notions used to state what [strip], [setUser] and the loop of [load]
    do to their strings. *)

Module Text.

(** Every character of [s] is in the character set [set]. *)
Fixpoint all_in (set s : string) : bool :=
  match s with
  | "" => true
  | String c r => Str.mem c set && all_in set r
  end.

(** [s] without the characters of [set] it starts with. *)
Fixpoint trim_left (set s : string) : string :=
  match s with
  | "" => ""
  | String c r => if Str.mem c set then trim_left set r else s
  end.

(** [s] without the characters of [set] it ends with. *)
Fixpoint trim_right (set s : string) : string :=
  match s with
  | "" => ""
  | String c r =>
      match trim_right set r with
      | "" => if Str.mem c set then "" else String c ""
      | r' => String c r'
      end
  end.

(** [s.find_first_of (c, pos)] *)
Definition find_first_of_from (s : string) (c : ascii) (pos : nat)
  : option nat :=
  match Str.find_first_of (Str.drop pos s) c with
  | Some i => Some (pos + i)%nat
  | None => None
  end.

End Text.

(* ================================================================= *)
(** ** [parseInt] in the arithmetic of its type

    The loop of [parseInt<T>] with the conversion to [T] written at every
    assignment to [val]: [val *= 10] and [val += v] compute in [int] and
    store into a [T]. *)

Module Fixed.

(** Conversion to [std::uint16_t]. *)
Definition u16 (x : Z) : Z := x mod 2 ^ 16.

(** Conversion to a 32-bit [int], two's complement. *)
Definition i32 (x : Z) : Z := (x + 2 ^ 31) mod 2 ^ 32 - 2 ^ 31.

Fixpoint parseInt_loop (conv : Z -> Z) (max val : Z) (val_ : string)
  : Z + FtpConfig.Errno :=
  match val_ with
  | "" => inl val
  | String c rest =>
      if negb (Str.isdigit c) then inr FtpConfig.EINVAL
      else if max / 10 <? val then inr FtpConfig.EOVERFLOW
      else
        let val := conv (val * 10) in
        let v := Str.digit_value c in
        if max - v <? val then inr FtpConfig.EOVERFLOW
        else parseInt_loop conv max (conv (val + v)) rest
  end.

Definition parseInt (conv : Z -> Z) (max : Z) (val_ : string)
  : Z + FtpConfig.Errno :=
  if Str.is_empty val_ then inr FtpConfig.EINVAL
  else parseInt_loop conv max 0 val_.

End Fixed.

(* ================================================================= *)
(** ** [mkdirParent]

    The file system is a state of type [OS]; [::stat] and [::mkdir] are
    parameters.  [stat] only looks; of its answer the code uses whether it
    succeeded and, if not, whether [errno] is [ENOENT].  [path_] is built
    from a C string and holds no NUL, so [dir.c_str ()] is [dir]. *)

Module Mkdir.

Inductive stat_result : Type :=
| StatOk       (* rc >= 0 *)
| StatENOENT   (* rc < 0, errno == ENOENT *)
| StatError.   (* rc < 0, another errno *)

Section Parent.

Variable OS : Type.
Variable stat : OS -> string -> stat_result.
(** [::mkdir (dir, 0755)]: whether [rc >= 0], and the file system after. *)
Variable mkdir : OS -> string -> bool * OS.

(** The [while] loop of [mkdirParent]; [pos] is the position of the ['/']
    at hand, [None] for [npos]. *)
Fixpoint mkdirParent_loop (fuel : nat) (os : OS) (path_ : string)
    (pos : option nat) : option (bool * OS) :=
  match fuel with
  | O => None
  | S k =>
      match pos with
      | None => Some (true, os)
      | Some p =>
          let dir := Str.substr path_ 0 (Some p) in
          match stat os dir with
          | StatError => Some (false, os)
          | StatENOENT =>
              let (ok, os') := mkdir os dir in
              if ok
              then mkdirParent_loop k os' path_
                     (Text.find_first_of_from path_ "/" (S p))
              else Some (false, os')
          | StatOk =>
              mkdirParent_loop k os path_
                (Text.find_first_of_from path_ "/" (S p))
          end
      end
  end.

Definition mkdirParent (fuel : nat) (os : OS) (path_ : string)
  : option (bool * OS) :=
  mkdirParent_loop fuel os path_ (Str.find_first_of path_ "/").

End Parent.

End Mkdir.

(* ================================================================= *)
(** ** A file system that is a list of names

    An instance for the [stat] / [mkdir] parameters of [mkdirParent]: the
    state lists the names that exist; the empty name never exists and cannot
    be made, and [mkdir] refuses a name that exists. *)

Module ListFs.

Definition OS : Type := list string.

Definition exists_in (os : OS) (name : string) : bool :=
  existsb (String.eqb name) os.

Definition stat (os : OS) (name : string) : Mkdir.stat_result :=
  if exists_in os name then Mkdir.StatOk else Mkdir.StatENOENT.

Definition mkdir (os : OS) (name : string) : bool * OS :=
  if Str.is_empty name || exists_in os name then (false, os)
  else (true, name :: os).

(** The same file system with one name that [stat] cannot examine, as a
    directory below one that may not be searched. *)
Definition stat_but (bad : string) (os : OS) (name : string)
  : Mkdir.stat_result :=
  if String.eqb name bad then Mkdir.StatError else stat os name.

End ListFs.

(* ================================================================= *)
(** ** The lines [save] writes *)

Module SaveFile.

(** The lines of the file [save] writes on a build without [_3DS]: one for
    the user and one for the password when they are not empty, one for the
    port, one for the level. *)
Definition save_lines (c : FtpConfig.t) : list string :=
  let user_line := "user" ++ String "=" (FtpConfig.c_str (FtpConfig.m_user c)) in
  let pass_line := "pass" ++ String "=" (FtpConfig.c_str (FtpConfig.m_pass c)) in
  let port_line := "port" ++ String "=" (Printf.dec (FtpConfig.m_port c)) in
  let level_line :=
    "deflateLevel"
      ++ String "=" (Printf.dec (FtpConfig.m_deflateLevel c mod 2 ^ 32)) in
  ((if Str.is_empty (FtpConfig.m_user c) then [] else [user_line])
   ++ (if Str.is_empty (FtpConfig.m_pass c) then [] else [pass_line])
   ++ [port_line; level_line])%list.

End SaveFile.

(* ================================================================= *)
(** ** Reading a printed size *)

Module Shown.

(** [s] is [size_] in the unit [name] of [bin] bytes, cut off (not rounded)
    after the fractional digits it shows: none when the whole part has
    three digits, one when it has two, two when it has one. *)
Definition truncated (name : string) (bin size_ : Z) (s : string) : Prop :=
  let whole := size_ / bin in
  if 100 <=? whole then s = Printf.dec whole ++ name
  else
    exists (d : string) (k : nat),
      k = (if 10 <=? whole then 1%nat else 2%nat) /\
      String.length d = k /\
      Str.all_digits d = true /\
      Str.decimal_value d = (size_ mod bin) * 10 ^ Z.of_nat k / bin /\
      s = Printf.dec whole ++ "." ++ d ++ name.

End Shown.

(* ================================================================= *)
(** * Properties *)

(** ** Strings *)

Lemma append_assoc (a b c : string) : (a ++ b) ++ c = a ++ (b ++ c).
Proof. induction a as [|x a IH]; simpl; [reflexivity | now rewrite IH]. Qed.

Lemma append_nil_r (a : string) : a ++ "" = a.
Proof. induction a as [|x a IH]; simpl; [reflexivity | now rewrite IH]. Qed.

Lemma is_empty_true (s : string) : Str.is_empty s = true <-> s = "".
Proof. destruct s; simpl; split; intro H; congruence. Qed.

Lemma is_empty_false (s : string) : Str.is_empty s = false <-> s <> "".
Proof. destruct s; simpl; split; intro H; congruence. Qed.

Lemma find_first_of_lt (s : string) (c : ascii) (i : nat) :
  Str.find_first_of s c = Some i -> (i < String.length s)%nat.
Proof.
  revert i; induction s as [|d r IH]; simpl; intros i H.
  - discriminate.
  - destruct (Ascii.eqb d c).
    + injection H as <-. lia.
    + destruct (Str.find_first_of r c) as [j|]; [|discriminate].
      injection H as <-. specialize (IH j eq_refl). lia.
Qed.

Lemma take_length (s : string) : Str.take (String.length s) s = s.
Proof. induction s as [|c r IH]; simpl; [reflexivity | now rewrite IH]. Qed.

Lemma take_app (a b : string) : Str.take (String.length a) (a ++ b) = a.
Proof. induction a as [|c r IH]; simpl; [now destruct b | now rewrite IH]. Qed.

Lemma drop_app (a b : string) : Str.drop (String.length a) (a ++ b) = b.
Proof. induction a as [|c r IH]; simpl; [now destruct b | exact IH]. Qed.

Lemma find_first_of_none (s : string) (c : ascii) :
  Str.mem c s = false -> Str.find_first_of s c = None.
Proof.
  induction s as [|d r IH]; simpl; intro H; [reflexivity|].
  apply orb_false_elim in H as [Hd Hr].
  now rewrite Ascii.eqb_sym, Hd, (IH Hr).
Qed.

Lemma find_first_of_app (a b : string) (c : ascii) :
  Str.mem c a = false ->
  Str.find_first_of (a ++ String c b) c = Some (String.length a).
Proof.
  induction a as [|d a IH]; simpl; intro H.
  - now rewrite Ascii.eqb_refl.
  - apply orb_false_elim in H as [Hd Ha].
    now rewrite Ascii.eqb_sym, Hd, (IH Ha).
Qed.

Lemma drop_0 (s : string) : Str.drop 0 s = s.
Proof. now destruct s. Qed.

(** The prefix of [s] before its first [c], and all of [s] without one. *)
Lemma substr_find_first_of (s : string) (c : ascii) :
  (Str.mem c s = false ->
   Str.substr s 0 (Str.find_first_of s c) = s) /\
  (forall a b, s = a ++ String c b -> Str.mem c a = false ->
   Str.substr s 0 (Str.find_first_of s c) = a).
Proof.
  split.
  - intro H. rewrite (find_first_of_none _ _ H). apply drop_0.
  - intros a b -> H. rewrite (find_first_of_app _ _ _ H).
    unfold Str.substr. rewrite drop_0. apply take_app.
Qed.

(** ** Decimal digits *)

Lemma digit_char_ok (d : Z) :
  0 <= d <= 9 ->
  Str.isdigit (Str.digit_char d) = true /\
  Str.digit_value (Str.digit_char d) = d.
Proof.
  intro H.
  assert (E : d = 0 \/ d = 1 \/ d = 2 \/ d = 3 \/ d = 4 \/ d = 5 \/ d = 6 \/
              d = 7 \/ d = 8 \/ d = 9) by lia.
  repeat (destruct E as [-> | E]; [now vm_compute|]).
  subst d. now vm_compute.
Qed.

Lemma isdigit_value (c : ascii) :
  Str.isdigit c = true -> 0 <= Str.digit_value c <= 9.
Proof.
  unfold Str.isdigit, Str.digit_value. intro H.
  apply andb_prop in H as [H1 H2]. lia.
Qed.

Lemma decimal_from_app (a b : string) (v : Z) :
  Str.decimal_from v (a ++ b) = Str.decimal_from (Str.decimal_from v a) b.
Proof. revert v; induction a as [|c a IH]; simpl; intro v; [reflexivity | apply IH]. Qed.

Lemma all_digits_app (a b : string) :
  Str.all_digits (a ++ b) = Str.all_digits a && Str.all_digits b.
Proof.
  induction a as [|c a IH]; simpl; [reflexivity|].
  now rewrite IH, andb_assoc.
Qed.

Lemma decimal_from_ge (s : string) (v : Z) :
  Str.all_digits s = true -> 0 <= v -> v <= Str.decimal_from v s.
Proof.
  revert v; induction s as [|c s IH]; simpl; intros v H Hv; [lia|].
  apply andb_prop in H as [Hc Hs]. apply isdigit_value in Hc.
  specialize (IH (v * 10 + Str.digit_value c) Hs). lia.
Qed.

Lemma dec_loop_app (fuel : nat) (n : Z) (acc : string) :
  Printf.dec_loop fuel n acc = Printf.dec_loop fuel n "" ++ acc.
Proof.
  revert n acc; induction fuel as [|k IH]; intros n acc; simpl; [reflexivity|].
  destruct (n <? 10); [reflexivity|].
  rewrite (IH _ (String _ acc)), (IH _ (String _ "")), append_assoc.
  reflexivity.
Qed.

Lemma dec_loop_spec (fuel : nat) (n : Z) :
  0 <= n < 10 ^ Z.of_nat fuel ->
  Str.all_digits (Printf.dec_loop fuel n "") = true /\
  Str.decimal_value (Printf.dec_loop fuel n "") = n.
Proof.
  revert n; induction fuel as [|k IH]; intros n Hn.
  - simpl in Hn. assert (n = 0) by lia. subst. now split.
  - rewrite Nat2Z.inj_succ, Z.pow_succ_r in Hn by lia.
    assert (Hd : 0 <= n mod 10 <= 9) by (pose proof (Z.mod_pos_bound n 10); lia).
    destruct (digit_char_ok _ Hd) as [D1 D2].
    simpl. destruct (n <? 10) eqn:E.
    + apply Z.ltb_lt in E. simpl. rewrite D1. split; [reflexivity|].
      unfold Str.decimal_value; simpl. rewrite D2. apply Z.mod_small. lia.
    + apply Z.ltb_ge in E. rewrite dec_loop_app.
      destruct (IH (n / 10)) as [A V].
      { split; [apply Z.div_pos; lia | apply Z.div_lt_upper_bound; lia]. }
      rewrite all_digits_app, A. simpl. rewrite D1. split; [reflexivity|].
      unfold Str.decimal_value in *. rewrite decimal_from_app, V. simpl.
      rewrite D2. pose proof (Z.div_mod n 10). lia.
Qed.

Lemma dec_fuel (n : Z) : 0 <= n -> n < 10 ^ Z.of_nat (S (Z.to_nat (Z.log2 n))).
Proof.
  intro Hn. rewrite Nat2Z.inj_succ, Z2Nat.id by apply Z.log2_nonneg.
  destruct (Z.eq_dec n 0) as [->|Hz]; [now vm_compute|].
  assert (H : n < 2 ^ Z.succ (Z.log2 n)) by (apply Z.log2_spec; lia).
  eapply Z.lt_le_trans; [exact H|].
  apply Z.pow_le_mono_l. lia.
Qed.

Lemma dec_digits (n : Z) : 0 <= n -> Str.all_digits (Printf.dec n) = true.
Proof. intro H. apply dec_loop_spec. split; [lia | now apply dec_fuel]. Qed.

Lemma dec_value (n : Z) : 0 <= n -> Str.decimal_value (Printf.dec n) = n.
Proof. intro H. apply dec_loop_spec. split; [lia | now apply dec_fuel]. Qed.

Lemma dec_not_empty (n : Z) : Printf.dec n <> "".
Proof.
  unfold Printf.dec. simpl. destruct (n <? 10); [discriminate|].
  rewrite dec_loop_app. destruct (Printf.dec_loop _ _ ""); discriminate.
Qed.

(** ** [parseInt] *)

(** On a string of digits the loop of [parseInt] computes the decimal value,
    and reports [EOVERFLOW] exactly when that value exceeds [max]. *)
Lemma parseInt_loop_digits (max : Z) (s : string) (val : Z) :
  Str.all_digits s = true -> 0 <= val <= max ->
  FtpConfig.parseInt_loop max val s =
    if Str.decimal_from val s <=? max
    then inl (Str.decimal_from val s)
    else inr FtpConfig.EOVERFLOW.
Proof.
  revert val; induction s as [|c s IH]; simpl; intros val Hd Hv.
  - destruct (Z.leb_spec val max); [reflexivity | lia].
  - apply andb_prop in Hd as [Hc Hs]. rewrite Hc. simpl.
    pose proof (isdigit_value _ Hc) as Hdv.
    pose proof (Z.div_mod max 10 ltac:(lia)) as Hm.
    pose proof (Z.mod_pos_bound max 10 ltac:(lia)) as Hb.
    assert (Hge : val * 10 + Str.digit_value c
                  <= Str.decimal_from (val * 10 + Str.digit_value c) s)
      by (apply decimal_from_ge; [assumption | lia]).
    destruct (Z.ltb_spec (max / 10) val) as [Ho|Ho].
    + destruct (Z.leb_spec (Str.decimal_from (val * 10 + Str.digit_value c) s) max);
        [lia | reflexivity].
    + destruct (Z.ltb_spec (max - Str.digit_value c) (val * 10)) as [Ho'|Ho'].
      * destruct (Z.leb_spec (Str.decimal_from (val * 10 + Str.digit_value c) s) max);
          [lia | reflexivity].
      * apply IH; [assumption | lia].
Qed.

(** A character that is not a digit makes the loop fail. *)
Lemma parseInt_loop_not_digits (max : Z) (s : string) (val : Z) :
  Str.all_digits s = false ->
  exists e, FtpConfig.parseInt_loop max val s = inr e.
Proof.
  revert val; induction s as [|c s IH]; simpl; intros val Hd; [discriminate|].
  destruct (Str.isdigit c); simpl in *; [|now eexists].
  destruct (max / 10 <? val); [now eexists|].
  destruct (max - Str.digit_value c <? val * 10); [now eexists|].
  now apply IH.
Qed.

(** The guards keep the accumulator within the range of [T]. *)
Lemma parseInt_loop_bounded (max : Z) (s : string) (val v : Z) :
  0 <= val <= max ->
  FtpConfig.parseInt_loop max val s = inl v -> 0 <= v <= max.
Proof.
  revert val; induction s as [|c s IH]; simpl; intros val Hv H.
  - injection H as <-. exact Hv.
  - destruct (Str.isdigit c) eqn:Hc; simpl in H; [|discriminate].
    pose proof (isdigit_value _ Hc).
    destruct (Z.ltb_spec (max / 10) val); [discriminate|].
    destruct (Z.ltb_spec (max - Str.digit_value c) (val * 10)); [discriminate|].
    pose proof (Z.div_mod max 10 ltac:(lia)).
    pose proof (Z.mod_pos_bound max 10 ltac:(lia)).
    eapply IH; [|exact H]. lia.
Qed.

Lemma parseInt_spec (max : Z) (s : string) :
  0 <= max ->
  FtpConfig.parseInt max s =
    if Str.is_empty s then inr FtpConfig.EINVAL
    else if Str.all_digits s then
      if Str.decimal_value s <=? max then inl (Str.decimal_value s)
      else inr FtpConfig.EOVERFLOW
    else FtpConfig.parseInt max s.
Proof.
  intro Hm. unfold FtpConfig.parseInt.
  destruct (Str.is_empty s); [reflexivity|].
  destruct (Str.all_digits s) eqn:Hd; [|reflexivity].
  apply parseInt_loop_digits; [assumption | lia].
Qed.

Lemma parseInt_fails (max : Z) (s : string) :
  0 <= max ->
  s = "" \/ Str.all_digits s = false \/ max < Str.decimal_value s ->
  exists e, FtpConfig.parseInt max s = inr e.
Proof.
  intros Hm H. unfold FtpConfig.parseInt.
  destruct s as [|c s]; [now eexists|]. simpl Str.is_empty. cbv iota.
  destruct H as [H | [H | H]]; [discriminate | now apply parseInt_loop_not_digits |].
  destruct (Str.all_digits (String c s)) eqn:Hd;
    [|now apply parseInt_loop_not_digits].
  rewrite parseInt_loop_digits by (assumption || lia).
  fold (Str.decimal_value (String c s)).
  destruct (Z.leb_spec (Str.decimal_value (String c s)) max); [lia | now eexists].
Qed.

Lemma parseInt_inl (max : Z) (s : string) (v : Z) :
  0 <= max -> FtpConfig.parseInt max s = inl v ->
  s <> "" /\ Str.all_digits s = true /\ v = Str.decimal_value s /\ v <= max.
Proof.
  intros Hm P.
  destruct (Str.all_digits s) eqn:D.
  - rewrite parseInt_spec in P by assumption.
    destruct (Str.is_empty s) eqn:E; [discriminate|].
    apply is_empty_false in E. rewrite D in P.
    destruct (Z.leb_spec (Str.decimal_value s) max); [|discriminate].
    injection P as <-. now repeat split.
  - destruct (parseInt_fails max s Hm) as [e Pe]; [now right; left | congruence].
Qed.

Lemma parseInt_dec (max n : Z) :
  0 <= n <= max -> FtpConfig.parseInt max (Printf.dec n) = inl n.
Proof.
  intro H. rewrite parseInt_spec by lia.
  destruct (Str.is_empty (Printf.dec n)) eqn:E.
  { apply is_empty_true in E. now apply dec_not_empty in E. }
  rewrite dec_digits, dec_value by lia.
  destruct (Z.leb_spec n max); [reflexivity | lia].
Qed.

(** ** C9: [setUser] and [setPass] *)

(** C9.  After [setUser (s)], [user ()] is the prefix of [s] before its
    first NUL byte, and all of [s] when it has none; [setPass] does the same
    for [pass ()]. *)
Theorem setUser_setPass_prefix_before_NUL (c : FtpConfig.t) (s : string) :
  (Str.mem FtpConfig.NUL s = false ->
   FtpConfig.user (FtpConfig.setUser c s) = s /\
   FtpConfig.pass (FtpConfig.setPass c s) = s) /\
  (forall a b, s = a ++ String FtpConfig.NUL b ->
   Str.mem FtpConfig.NUL a = false ->
   FtpConfig.user (FtpConfig.setUser c s) = a /\
   FtpConfig.pass (FtpConfig.setPass c s) = a).
Proof.
  destruct (substr_find_first_of s FtpConfig.NUL) as [H1 H2].
  split.
  - intro H. simpl. now rewrite (H1 H).
  - intros a b E H. simpl. now rewrite (H2 a b E H).
Qed.

Lemma setUser_setPass_prefix_before_NUL_witness :
  let c := FtpConfig.mk "old" "old" 5000 6 true in
  let s := "ab" ++ String FtpConfig.NUL "cd" in
  FtpConfig.user (FtpConfig.setUser c s) = "ab" /\
  FtpConfig.pass (FtpConfig.setPass c s) = "ab".
Proof.
  intros c s.
  apply (proj2 (setUser_setPass_prefix_before_NUL c s) "ab" "cd");
    reflexivity.
Defined.

(** ** C1: [setDeflateLevel] *)

(** C1.  [setDeflateLevel (int)] returns false and leaves the object as it
    was for every level outside 0..9, and returns true and stores the level
    for every level in 0..9; [setDeflateLevel (std::string const &)] returns
    false and leaves the object as it was for the empty string, for a string
    with a character that is not a digit, and for a digit string whose value
    is outside 0..9. *)
Theorem setDeflateLevel_accepts_0_to_9_only (c : FtpConfig.t) :
  (forall level, level < 0 \/ 9 < level ->
     FtpConfig.setDeflateLevel c level = (false, c)) /\
  (forall s,
     s = "" \/ Str.all_digits s = false \/
     ~ (0 <= Str.decimal_value s <= 9) ->
     fst (fst (FtpConfig.setDeflateLevel_str c s)) = false /\
     snd (fst (FtpConfig.setDeflateLevel_str c s)) = c) /\
  (forall level, 0 <= level <= 9 ->
     fst (FtpConfig.setDeflateLevel c level) = true /\
     FtpConfig.deflateLevel (snd (FtpConfig.setDeflateLevel c level)) = level).
Proof.
  split; [|split].
  - intros level H. unfold FtpConfig.setDeflateLevel,
      FtpConfig.Z_NO_COMPRESSION, FtpConfig.Z_BEST_COMPRESSION.
    destruct (Z.ltb_spec level 0); [reflexivity|].
    destruct (Z.ltb_spec 9 level); [reflexivity | lia].
  - intros s H. unfold FtpConfig.setDeflateLevel_str.
    destruct (FtpConfig.parseInt FtpConfig.INT_MAX s) as [v|e] eqn:P;
      [|now split].
    assert (Hs : s <> "" /\ Str.all_digits s = true /\ v = Str.decimal_value s).
    { apply parseInt_inl in P; [tauto | unfold FtpConfig.INT_MAX; lia]. }
    destruct Hs as (Hne & Hd & ->).
    destruct H as [H | [H | H]]; [congruence | congruence |].
    unfold FtpConfig.setDeflateLevel,
      FtpConfig.Z_NO_COMPRESSION, FtpConfig.Z_BEST_COMPRESSION.
    destruct (Z.ltb_spec (Str.decimal_value s) 0); [now split|].
    destruct (Z.ltb_spec 9 (Str.decimal_value s)); [now split | lia].
  - intros level H. unfold FtpConfig.setDeflateLevel,
      FtpConfig.Z_NO_COMPRESSION, FtpConfig.Z_BEST_COMPRESSION.
    destruct (Z.ltb_spec level 0); [lia|].
    destruct (Z.ltb_spec 9 level); [lia | now split].
Qed.

Lemma setDeflateLevel_accepts_0_to_9_only_witness :
  let c := FtpConfig.mk "u" "p" 5000 6 true in
  FtpConfig.setDeflateLevel c 10 = (false, c) /\
  (fst (fst (FtpConfig.setDeflateLevel_str c "12")) = false /\
   snd (fst (FtpConfig.setDeflateLevel_str c "12")) = c) /\
  (fst (FtpConfig.setDeflateLevel c 9) = true /\
   FtpConfig.deflateLevel (snd (FtpConfig.setDeflateLevel c 9)) = 9).
Proof.
  intro c.
  destruct (setDeflateLevel_accepts_0_to_9_only c) as (H1 & H2 & H3).
  split; [|split].
  - apply H1. lia.
  - apply H2. right; right. vm_compute. intros [_ H]. apply H. reflexivity.
  - apply H3. lia.
Defined.

(** ** Invariants of [FtpConfig] *)

Section ConfigFacts.

Variables NDS _3DS getMTime_init : bool.
Variable readLine : string -> string * string.

Local Abbreviation create := (FtpConfig.create getMTime_init).
Local Abbreviation setPort := (FtpConfig.setPort NDS _3DS).
Local Abbreviation setPort_str := (FtpConfig.setPort_str NDS _3DS).
Local Abbreviation load_line := (FtpConfig.load_line _3DS).
Local Abbreviation load_loop := (FtpConfig.load_loop _3DS readLine).
Local Abbreviation load := (FtpConfig.load NDS _3DS getMTime_init readLine).
Local Abbreviation reachable :=
  (FtpConfig.reachable NDS _3DS getMTime_init readLine).
Local Abbreviation port_allowed := (FtpConfig.port_allowed NDS _3DS).

Lemma setPort_rejects (c : FtpConfig.t) (p : Z) :
  1 <= p <= 1023 \/ (p = 0 /\ NDS || _3DS = true) ->
  setPort c p = (false, c, Some FtpConfig.EPERM).
Proof.
  intro H. unfold FtpConfig.setPort.
  destruct (Z.ltb_spec p 1024); [|lia].
  destruct (Z.eqb_spec p 0); destruct NDS, _3DS; simpl in *;
    try reflexivity; destruct H as [H | [H1 H2]]; try lia; discriminate.
Qed.

Lemma setPort_accepts (c : FtpConfig.t) (p : Z) :
  port_allowed p -> setPort c p = (true, FtpConfig.with_port c p, None).
Proof.
  intro H. unfold FtpConfig.setPort.
  destruct (Z.ltb_spec p 1024); [|reflexivity].
  destruct H as [H | [-> H]]; [lia|].
  apply orb_false_elim in H as [-> ->]. reflexivity.
Qed.

(** Whatever [setPort] answers, the port it leaves is the old one or an
    allowed one. *)
Lemma setPort_port (c : FtpConfig.t) (p : Z) :
  FtpConfig.m_port (snd (fst (setPort c p))) = FtpConfig.m_port c \/
  port_allowed (FtpConfig.m_port (snd (fst (setPort c p)))).
Proof.
  unfold FtpConfig.setPort, FtpConfig.port_allowed.
  destruct (Z.ltb_spec p 1024); simpl.
  - destruct NDS, _3DS; simpl; try (now left).
    destruct (Z.eqb_spec p 0); simpl; [right; right; now split | now left].
  - right. left. assumption.
Qed.

Lemma setPort_keeps_level (c : FtpConfig.t) (p : Z) :
  FtpConfig.m_deflateLevel (snd (fst (setPort c p))) = FtpConfig.m_deflateLevel c.
Proof.
  unfold FtpConfig.setPort.
  destruct ((p <? 1024) && _); reflexivity.
Qed.

Lemma setDeflateLevel_level (c : FtpConfig.t) (l : Z) :
  FtpConfig.m_deflateLevel (snd (FtpConfig.setDeflateLevel c l))
    = FtpConfig.m_deflateLevel c \/
  0 <= FtpConfig.m_deflateLevel (snd (FtpConfig.setDeflateLevel c l)) <= 9.
Proof.
  unfold FtpConfig.setDeflateLevel, FtpConfig.Z_NO_COMPRESSION,
    FtpConfig.Z_BEST_COMPRESSION.
  destruct (Z.ltb_spec l 0); simpl; [now left|].
  destruct (Z.ltb_spec 9 l); simpl; [now left | right; lia].
Qed.

Lemma setDeflateLevel_keeps_port (c : FtpConfig.t) (l : Z) :
  FtpConfig.m_port (snd (FtpConfig.setDeflateLevel c l)) = FtpConfig.m_port c.
Proof.
  unfold FtpConfig.setDeflateLevel.
  destruct ((l <? _) || _); reflexivity.
Qed.

(** The loop of [load] writes the user, the password and the mtime flag
    into the object; port and level stay in the locals until the end. *)
Lemma load_line_keeps (line : string) (st : FtpConfig.locals) :
  FtpConfig.m_port (FtpConfig.l_config (load_line line st))
    = FtpConfig.m_port (FtpConfig.l_config st) /\
  FtpConfig.m_deflateLevel (FtpConfig.l_config (load_line line st))
    = FtpConfig.m_deflateLevel (FtpConfig.l_config st).
Proof.
  unfold FtpConfig.load_line, FtpConfig.load_assign.
  destruct (FtpConfig.split_line line) as [[key val]|]; [|now split].
  destruct (Str.is_empty key || Str.is_empty val); [now split|].
  destruct (String.eqb key "user"); [now split|].
  destruct (String.eqb key "pass"); [now split|].
  destruct (String.eqb key "port").
  { destruct (FtpConfig.parseInt _ val); now split. }
  destruct (String.eqb key "deflateLevel").
  { destruct (FtpConfig.parseInt _ val); now split. }
  destruct (_3DS && String.eqb key "mtime"); [|now split].
  destruct (String.eqb val "0"); [now split|].
  destruct (String.eqb val "1"); now split.
Qed.

Lemma load_loop_keeps (fuel : nat) (fp : string) (st st' : FtpConfig.locals) :
  load_loop fuel fp st = Some st' ->
  FtpConfig.m_port (FtpConfig.l_config st')
    = FtpConfig.m_port (FtpConfig.l_config st) /\
  FtpConfig.m_deflateLevel (FtpConfig.l_config st')
    = FtpConfig.m_deflateLevel (FtpConfig.l_config st).
Proof.
  revert fp st; induction fuel as [|k IH]; simpl; intros fp st H;
    [discriminate|].
  destruct (readLine fp) as [line fp'].
  destruct (Str.is_empty line).
  - injection H as <-. now split.
  - destruct (IH _ _ H) as [A B].
    destruct (load_line_keeps line st) as [A' B']. split; congruence.
Qed.

(** What [load] returns has a port and a level that went through the
    setters, or the defaults. *)
Lemma load_result (fuel : nat) (file : option string) (c : FtpConfig.t) :
  load fuel file = Some c ->
  (FtpConfig.m_port c = 5000 \/ port_allowed (FtpConfig.m_port c)) /\
  0 <= FtpConfig.m_deflateLevel c <= 9.
Proof.
  unfold FtpConfig.load. destruct file as [content|].
  - destruct (load_loop fuel content _) as [st|] eqn:L; [|discriminate].
    apply load_loop_keeps in L as [Lp Ll]. simpl in Lp, Ll.
    pose proof (setPort_port (FtpConfig.l_config st) (FtpConfig.l_port st)) as Hp.
    pose proof (setPort_keeps_level (FtpConfig.l_config st) (FtpConfig.l_port st)) as Hl.
    destruct (setPort _ _) as [[ok c1] e]. simpl in Hp, Hl.
    pose proof (setDeflateLevel_level c1 (FtpConfig.l_deflateLevel st)) as Hd.
    pose proof (setDeflateLevel_keeps_port c1 (FtpConfig.l_deflateLevel st)) as Hk.
    destruct (FtpConfig.setDeflateLevel c1 _) as [ok' c2]. simpl in Hd, Hk.
    intro H; injection H as <-.
    unfold FtpConfig.DEFAULT_PORT, FtpConfig.DEFAULT_DEFLATE_LEVEL in *.
    split; [rewrite Hk; destruct Hp; [left; congruence | now right] | lia].
  - intro H; injection H as <-. simpl.
    unfold FtpConfig.DEFAULT_PORT, FtpConfig.DEFAULT_DEFLATE_LEVEL.
    split; [now left | lia].
Qed.

Lemma reachable_invariant (c : FtpConfig.t) :
  reachable c ->
  (FtpConfig.m_port c = 5000 \/ port_allowed (FtpConfig.m_port c)) /\
  0 <= FtpConfig.m_deflateLevel c <= 9.
Proof.
  induction 1 as [ | fuel file c L | a b c R IH E | c s R IH | c s R IH
                 | c p R IH Hp | c s R IH | c l R IH Hl | c s R IH ].
  - simpl. unfold FtpConfig.DEFAULT_PORT, FtpConfig.DEFAULT_DEFLATE_LEVEL.
    split; [now left | lia].
  - exact (load_result _ _ _ L).
  - exact IH.
  - exact IH.
  - exact IH.
  - rewrite setPort_keeps_level.
    split; [|apply IH].
    destruct (setPort_port c p) as [E | A]; [rewrite E; apply IH | now right].
  - unfold FtpConfig.setPort_str.
    destruct (FtpConfig.parseInt _ s) as [p|e]; [|exact IH].
    rewrite setPort_keeps_level.
    split; [|apply IH].
    destruct (setPort_port c p) as [E | A]; [rewrite E; apply IH | now right].
  - rewrite setDeflateLevel_keeps_port.
    split; [apply IH|].
    destruct (setDeflateLevel_level c l) as [E | A]; [rewrite E; apply IH | exact A].
  - unfold FtpConfig.setDeflateLevel_str.
    destruct (FtpConfig.parseInt _ s) as [l|e]; [|exact IH].
    pose proof (setDeflateLevel_keeps_port c l) as K.
    pose proof (setDeflateLevel_level c l) as D.
    destruct (FtpConfig.setDeflateLevel c l) as [ok c']. simpl in *.
    rewrite K. split; [apply IH|].
    destruct D as [E | A]; [rewrite E; apply IH | exact A].
Qed.

(** C4.  In every state of an [FtpConfig] that construction, [create],
    [load], [save] and the setters produce, [deflateLevel ()] is in 0..9. *)
Theorem deflateLevel_always_in_range (c : FtpConfig.t) :
  reachable c -> 0 <= FtpConfig.deflateLevel c <= 9.
Proof. intro R. exact (proj2 (reachable_invariant c R)). Qed.

(** C8, as the code has it.  [setPort (p)] returns false with
    [errno = EPERM] and leaves the port for 1 <= p <= 1023, and for p = 0 on
    NDS and 3DS builds; it returns true and stores p for p >= 1024, and for
    p = 0 on the other builds.  So [port ()] is always 5000, or at least
    1024, or 0 on a build that is neither NDS nor 3DS. *)
Theorem setPort_policy :
  (forall c p, 1 <= p <= 1023 \/ (p = 0 /\ NDS || _3DS = true) ->
     setPort c p = (false, c, Some FtpConfig.EPERM)) /\
  (forall c p, 1024 <= p \/ (p = 0 /\ NDS || _3DS = false) ->
     fst (fst (setPort c p)) = true /\
     FtpConfig.port (snd (fst (setPort c p))) = p) /\
  (forall c, reachable c ->
     FtpConfig.port c = 5000 \/ 1024 <= FtpConfig.port c \/
     (FtpConfig.port c = 0 /\ NDS || _3DS = false)).
Proof.
  split; [|split].
  - exact setPort_rejects.
  - intros c p H. now rewrite (setPort_accepts c p H).
  - intros c R. exact (proj1 (reachable_invariant c R)).
Qed.

End ConfigFacts.

Lemma deflateLevel_always_in_range_witness :
  let c := snd (FtpConfig.setDeflateLevel (FtpConfig.create true) 3) in
  FtpConfig.reachable false false true Lines.readLine c /\
  0 <= FtpConfig.deflateLevel c <= 9.
Proof.
  intro c.
  assert (R : FtpConfig.reachable false false true Lines.readLine c).
  { apply FtpConfig.r_setDeflateLevel; [apply FtpConfig.r_create|].
    unfold FtpConfig.INT_MAX. lia. }
  split; [exact R|].
  exact (deflateLevel_always_in_range false false true Lines.readLine c R).
Defined.

Lemma setPort_policy_witness :
  let c := FtpConfig.create true in
  FtpConfig.setPort false true c 0 = (false, c, Some FtpConfig.EPERM) /\
  (fst (fst (FtpConfig.setPort false true c 8080)) = true /\
   FtpConfig.port (snd (fst (FtpConfig.setPort false true c 8080))) = 8080) /\
  (FtpConfig.port c = 5000 \/ 1024 <= FtpConfig.port c \/
   (FtpConfig.port c = 0 /\ false || true = false)).
Proof.
  intro c.
  destruct (setPort_policy false true true Lines.readLine) as (A & B & C).
  split; [|split].
  - apply A. right. split; reflexivity.
  - apply B. left. lia.
  - apply C. apply FtpConfig.r_create.
Defined.

(** C8 as it was stated fails: on a build that defines neither [NDS] nor
    [_3DS], [setPort (0)] returns true and the port becomes 0. *)
Lemma setPort_zero_accepted_off_console :
  ~ (forall c p, 1 <= p <= 1023 \/ p = 0 ->
       fst (fst (FtpConfig.setPort false false c p)) = false) /\
  (let c := snd (fst (FtpConfig.setPort false false (FtpConfig.create true) 0)) in
   FtpConfig.reachable false false true Lines.readLine c /\
   FtpConfig.port c = 0).
Proof.
  split.
  - intro H. specialize (H (FtpConfig.create true) 0 (or_intror eq_refl)).
    vm_compute in H. discriminate.
  - split; [|reflexivity].
    apply FtpConfig.r_setPort; [apply FtpConfig.r_create|].
    unfold FtpConfig.UINT16_MAX. lia.
Qed.

(** ** [fs::printSize] *)

#[local] Arguments Z.mul : simpl never.
#[local] Arguments Z.div : simpl never.
#[local] Arguments Z.modulo : simpl never.
#[local] Arguments Z.add : simpl never.
#[local] Arguments Z.sub : simpl never.
#[local] Arguments Z.pow : simpl never.

Lemma printSize_loop_none (us : list (string * Z)) (size_ : Z) :
  Forall (fun u => size_ < fs.u64 (100 * snd u) /\
                   size_ < fs.u64 (10 * snd u) /\
                   size_ < fs.u64 (1000 * (snd u / fs.KiB))) us ->
  fs.printSize_loop us size_ = None.
Proof.
  induction 1 as [|[name bin] us (A & B & C) _ IH]; simpl in *; [reflexivity|].
  destruct (Z.leb_spec (fs.u64 (100 * bin)) size_); [lia|].
  destruct (Z.leb_spec (fs.u64 (10 * bin)) size_); [lia|].
  destruct (Z.leb_spec (fs.u64 (1000 * (bin / fs.KiB))) size_); [lia | exact IH].
Qed.

Lemma ends_with_app3 (a b n : string) (c : ascii) :
  Str.ends_with (a ++ String c (b ++ n)) n.
Proof. exists (a ++ String c b). now rewrite append_assoc. Qed.

Lemma printSize_loop_suffix (us : list (string * Z)) (size_ : Z) (s : string) :
  fs.printSize_loop us size_ = Some s ->
  exists name, In name (map fst us) /\ Str.ends_with s name.
Proof.
  induction us as [|[name bin] us IH]; simpl; [discriminate|].
  destruct (fs.u64 (100 * bin) <=? size_).
  { intro H; injection H as <-. exists name. split; [now left|].
    now eexists. }
  destruct (fs.u64 (10 * bin) <=? size_).
  { intro H; injection H as <-. exists name. split; [now left|].
    apply ends_with_app3. }
  destruct (fs.u64 (1000 * (bin / fs.KiB)) <=? size_).
  { intro H; injection H as <-. exists name. split; [now left|].
    apply ends_with_app3. }
  intro H. destruct (IH H) as (n & I & E). exists n. split; [now right | exact E].
Qed.

Lemma printSize_loop_some (us : list (string * Z)) (size_ : Z) :
  Exists (fun u => fs.u64 (1000 * (snd u / fs.KiB)) <= size_) us ->
  fs.printSize_loop us size_ <> None.
Proof.
  induction 1 as [[name bin] us H | [name bin] us _ IH]; simpl in *.
  - destruct (fs.u64 (100 * bin) <=? size_); [discriminate|].
    destruct (fs.u64 (10 * bin) <=? size_); [discriminate|].
    destruct (Z.leb_spec (fs.u64 (1000 * (bin / fs.KiB))) size_);
      [discriminate | lia].
  - destruct (fs.u64 (100 * bin) <=? size_); [discriminate|].
    destruct (fs.u64 (10 * bin) <=? size_); [discriminate|].
    destruct (fs.u64 (1000 * (bin / fs.KiB)) <=? size_); [discriminate | exact IH].
Qed.

(** C6.  For a size below 1000, [printSize] returns the bare decimal digits
    of the size; for a size of at least 1000 the string it returns ends in
    one of KiB, MiB, GiB, TiB, PiB, EiB. *)
Theorem printSize_bare_below_1000_unit_from_1000 (size_ : Z) :
  0 <= size_ < 2 ^ 64 ->
  (size_ < 1000 ->
     fs.printSize size_ = Printf.dec size_ /\
     Str.all_digits (fs.printSize size_) = true /\
     Str.decimal_value (fs.printSize size_) = size_) /\
  (1000 <= size_ ->
     exists name,
       In name ["KiB"; "MiB"; "GiB"; "TiB"; "PiB"; "EiB"] /\
       Str.ends_with (fs.printSize size_) name).
Proof.
  intro R. split; intro H.
  - assert (E : fs.printSize size_ = Printf.dec size_).
    { unfold fs.printSize. rewrite printSize_loop_none; [reflexivity|].
      unfold fs.units.
      repeat (apply Forall_cons;
              [let v := fresh in
               repeat split; simpl snd;
               match goal with
               | |- _ < ?t => set (v := t); vm_compute in v; subst v; lia
               end|]).
      apply Forall_nil. }
    rewrite E. split; [reflexivity|].
    split; [apply dec_digits | apply dec_value]; lia.
  - unfold fs.printSize.
    destruct (fs.printSize_loop fs.units size_) as [s|] eqn:L.
    + destruct (printSize_loop_suffix _ _ _ L) as (name & I & E).
      exists name. split; [|exact E].
      simpl in I. simpl. tauto.
    + exfalso. revert L. apply printSize_loop_some.
      unfold fs.units. do 5 apply Exists_cons_tl. apply Exists_cons_hd.
      simpl snd. change (fs.u64 (1000 * (fs.KiB / fs.KiB))) with 1000. exact H.
Qed.

Lemma printSize_bare_below_1000_unit_from_1000_witness :
  (fs.printSize 999 = Printf.dec 999 /\
   Str.all_digits (fs.printSize 999) = true /\
   Str.decimal_value (fs.printSize 999) = 999) /\
  (exists name,
     In name ["KiB"; "MiB"; "GiB"; "TiB"; "PiB"; "EiB"] /\
     Str.ends_with (fs.printSize 123456789) name).
Proof.
  split.
  - apply (proj1 (printSize_bare_below_1000_unit_from_1000 999 ltac:(lia))). lia.
  - apply (proj2 (printSize_bare_below_1000_unit_from_1000 123456789 ltac:(lia))).
    lia.
Defined.

(** ** [fs::File::readAll] and [fs::File::writeAll] *)

Section RetryLoops.

Variable size_bits : positive.
Variable FILE : Type.

Local Abbreviation M := (2 ^ Z.pos size_bits).

Lemma M_pos : 0 < M.
Proof. apply Z.pow_pos_nonneg; lia. Qed.

(** The two loops are the same loop around [read] and around [write]. *)
Lemma writeAll_loop_readAll_loop (f : FILE -> Z -> Z -> Z * FILE)
    (fuel : nat) (fp : FILE) (p bytes size_ : Z) :
  fs.writeAll_loop size_bits FILE f fuel fp p bytes size_ =
  fs.readAll_loop size_bits FILE f fuel fp p bytes size_.
Proof.
  revert fp p bytes; induction fuel as [|k IH]; intros fp p bytes; simpl;
    [reflexivity|].
  destruct (bytes <? size_); [|reflexivity].
  unfold fs.write, fs.read.
  destruct (f fp p _) as [n fp']. rewrite IH. reflexivity.
Qed.

Variable fread : FILE -> Z -> Z -> Z * FILE.

Local Abbreviation read := (fs.read size_bits FILE fread).
Local Abbreviation readAll_loop := (fs.readAll_loop size_bits FILE fread).

Lemma size_t_small (x : Z) : 0 <= x < M -> fs.size_t size_bits x = x.
Proof. intro H. unfold fs.size_t. now apply Z.mod_small. Qed.

Lemma transferred_cons (c : fs.call) (cs : list fs.call) :
  fs.transferred (c :: cs) = fs.got c + fs.transferred cs.
Proof. reflexivity. Qed.

Lemma accumulated_cons (c : fs.call) (cs : list fs.call) :
  fs.accumulated (c :: cs) =
  if 0 <? fs.got c then fs.got c + fs.accumulated cs else fs.accumulated cs.
Proof. unfold fs.accumulated. simpl. now destruct (0 <? fs.got c). Qed.

Lemma readAll_loop_S (k : nat) (fp : FILE) (p bytes size_ : Z) :
  readAll_loop (S k) fp p bytes size_ =
  if bytes <? size_ then
    let (rc, fp') := read fp p (fs.size_t size_bits (size_ - bytes)) in
    let c := fs.Call p (fs.size_t size_bits (size_ - bytes)) rc in
    if rc <=? 0 then Some (false, fp', [c])
    else
      match readAll_loop k fp' (p + rc) (fs.size_t size_bits (bytes + rc))
              size_ with
      | Some (ok, fp'', cs) => Some (ok, fp'', c :: cs)
      | None => None
      end
  else Some (true, fp, []).
Proof. reflexivity. Qed.

(** The loop started with the pointer at [p] and [bytes = p mod 2^w].
    The calls it makes are calls of [read] on the stream, one after the
    other; they continue from [p], only the last one can have failed, and
    the answer tells whether the total reached [size_]. *)
Lemma readAll_loop_run (fuel : nat) (fp : FILE) (p bytes size_ : Z)
    (ok : bool) (fp' : FILE) (cs : list fs.call) :
  size_ < M -> bytes = p mod M ->
  readAll_loop fuel fp p bytes size_ = Some (ok, fp', cs) ->
  fs.made_on read fp cs fp' /\
  (forall i c, nth_error cs i = Some c ->
     (p + fs.transferred (firstn i cs)) mod M < size_ /\
     fs.at_ptr c = p + fs.transferred (firstn i cs) /\
     fs.asked c = size_ - (p + fs.transferred (firstn i cs)) mod M) /\
  (forall i c, nth_error cs i = Some c -> fs.got c <= 0 ->
     S i = List.length cs) /\
  (ok = true <-> size_ <= (p + fs.accumulated cs) mod M) /\
  (ok = false <->
   exists c, nth_error cs (pred (List.length cs)) = Some c /\ fs.got c <= 0).
Proof.
  pose proof M_pos as HM.
  revert fp p bytes ok fp' cs; induction fuel as [|k IH];
    intros fp p bytes ok fp' cs Hs Hb; simpl; [discriminate|].
  assert (Hr : 0 <= bytes < M) by (subst bytes; now apply Z.mod_pos_bound).
  destruct (Z.ltb_spec bytes size_) as [Hlt|Hge].
  - rewrite (size_t_small (size_ - bytes)) by lia.
    destruct (read fp p (size_ - bytes)) as [rc fp1] eqn:R.
    destruct (Z.leb_spec rc 0) as [Hrc|Hrc].
    + intro H; injection H as <- <- <-.
      split; [|split; [|split; [|split]]].
      * cbn [fs.made_on fs.at_ptr fs.asked fs.got]. exists fp1. now split.
      * intros i c H. destruct i as [|i]; simpl in H; [|now destruct i].
        injection H as <-. simpl. rewrite Z.add_0_r. lia.
      * intros i c H _. destruct i as [|i]; [reflexivity | now destruct i].
      * split; [discriminate|].
        rewrite accumulated_cons. simpl fs.got.
        destruct (Z.ltb_spec 0 rc); [lia|].
        unfold fs.accumulated; simpl. rewrite Z.add_0_r. lia.
      * split; [|reflexivity].
        intros _. eexists. split; [reflexivity | exact Hrc].
    + destruct (readAll_loop k fp1 (p + rc) _ size_) as [[[ok1 fp2] cs1]|] eqn:L;
        [|discriminate].
      intro H; injection H as <- <- <-.
      assert (Hb' : fs.size_t size_bits (bytes + rc) = (p + rc) mod M).
      { unfold fs.size_t. subst bytes. now rewrite Zplus_mod_idemp_l. }
      destruct (IH _ _ _ _ _ _ Hs Hb' L) as (Mo & A & B & C & D).
      split; [|split; [|split; [|split]]].
      * cbn [fs.made_on fs.at_ptr fs.asked fs.got]. exists fp1.
        split; [exact R | exact Mo].
      * intros i c H. destruct i as [|i]; simpl in H.
        -- injection H as <-. simpl. rewrite Z.add_0_r. lia.
        -- destruct (A _ _ H) as (A0 & A1 & A2). rewrite A1, A2. simpl firstn.
           rewrite !transferred_cons. simpl fs.got.
           rewrite !Z.add_assoc. split; [exact A0 | split; reflexivity].
      * intros i c H G. destruct i as [|i]; simpl in H.
        -- injection H as <-. simpl in G. lia.
        -- simpl. f_equal. exact (B _ _ H G).
      * rewrite accumulated_cons. simpl fs.got.
        destruct (Z.ltb_spec 0 rc); [|lia].
        rewrite Z.add_assoc. exact C.
      * rewrite D. destruct cs1 as [|c1 cs1].
        -- simpl. split; [intros (c & N & _); discriminate|].
           intros (c & N & G). injection N as <-. simpl in G. lia.
        -- reflexivity.
  - intro H; injection H as <- <- <-.
    split; [|split; [|split; [|split]]].
    + reflexivity.
    + intros i c H. now destruct i.
    + intros i c H. now destruct i.
    + split; [|reflexivity]. intros _.
      unfold fs.accumulated; simpl. rewrite Z.add_0_r. lia.
    + split; [discriminate|]. intros (c & N & _). discriminate.
Qed.

(** Conversely, calls of [read] that follow this pattern are the calls the
    loop makes, and the loop gives the same answer. *)
Lemma readAll_loop_complete (cs : list fs.call) :
  forall (fp : FILE) (p bytes size_ : Z) (ok : bool) (fp' : FILE),
  0 <= size_ < M -> bytes = p mod M ->
  fs.made_on read fp cs fp' ->
  (forall i c, nth_error cs i = Some c ->
     (p + fs.transferred (firstn i cs)) mod M < size_ /\
     fs.at_ptr c = p + fs.transferred (firstn i cs) /\
     fs.asked c = size_ - (p + fs.transferred (firstn i cs)) mod M) ->
  (forall i c, nth_error cs i = Some c -> fs.got c <= 0 ->
     S i = List.length cs) ->
  (ok = true <-> size_ <= (p + fs.accumulated cs) mod M) ->
  (ok = false <->
   exists c, nth_error cs (pred (List.length cs)) = Some c /\ fs.got c <= 0) ->
  readAll_loop (S (List.length cs)) fp p bytes size_ = Some (ok, fp', cs).
Proof.
  pose proof M_pos as HM.
  induction cs as [|c rest IH]; intros fp p bytes size_ ok fp' Hs Hb Mo A B C D;
    rewrite readAll_loop_S.
  - cbn [fs.made_on] in Mo. subst fp'.
    assert (ok = true) as ->.
    { destruct ok; [reflexivity|].
      destruct (proj1 D eq_refl) as (c & N & _). discriminate N. }
    apply proj1 in C. specialize (C eq_refl).
    unfold fs.accumulated in C; simpl in C. rewrite Z.add_0_r, <- Hb in C.
    destruct (Z.ltb_spec bytes size_); [lia | reflexivity].
  - assert (Hr : 0 <= bytes < M) by (subst bytes; now apply Z.mod_pos_bound).
    destruct (A O c eq_refl) as (A0 & A1 & A2).
    cbn [firstn] in A0, A1, A2.
    change (fs.transferred []) with 0 in A0, A1, A2.
    rewrite Z.add_0_r, <- Hb in A0, A2. rewrite Z.add_0_r in A1.
    destruct (Z.ltb_spec bytes size_) as [_|]; [|lia].
    rewrite (size_t_small (size_ - bytes)) by lia.
    cbn [fs.made_on] in Mo. destruct Mo as (fp1 & R & Mo).
    rewrite A1, A2 in R. rewrite R. cbv beta iota zeta. cbn [List.length].
    destruct c as [ap ak g]. cbn [fs.at_ptr fs.asked fs.got] in *. subst ap ak.
    destruct (Z.leb_spec g 0) as [Hg|Hg].
    + specialize (B O _ eq_refl Hg). cbn [List.length] in B.
      destruct rest as [|c1 rest]; [|discriminate B].
      cbn [fs.made_on] in Mo. subst fp'.
      assert (ok = false) as ->; [|reflexivity].
      apply D. eexists. split; [reflexivity | exact Hg].
    + assert (Hb' : fs.size_t size_bits (bytes + g) = (p + g) mod M).
      { unfold fs.size_t. subst bytes. now rewrite Zplus_mod_idemp_l. }
      rewrite (IH fp1 (p + g) _ size_ ok fp' Hs Hb' Mo); [reflexivity | | | |].
      * intros i c H. destruct (A (S i) c H) as (E0 & E1 & E2).
        cbn [firstn] in E0, E1, E2. rewrite transferred_cons in E0, E1, E2.
        cbn [fs.got] in E0, E1, E2. rewrite Z.add_assoc in E0, E1, E2.
        split; [exact E0 | split; [exact E1 | exact E2]].
      * intros i c H G. specialize (B (S i) c H G). cbn [List.length] in B. lia.
      * rewrite C, accumulated_cons. cbn [fs.got].
        destruct (Z.ltb_spec 0 g); [|lia]. now rewrite Z.add_assoc.
      * rewrite D. destruct rest as [|c1 rest].
        -- simpl. split; [|intros (c & N & _); discriminate].
           intros (c & N & G). injection N as <-. simpl in G. lia.
        -- reflexivity.
Qed.

(** When no call returns more than it was asked for, the distance to
    [size_] bounds the number of passes through the loop. *)
Lemma readAll_loop_terminates (size_ : Z) :
  (forall fp p n, 0 <= n < M -> fst (read fp p n) <= n) ->
  size_ < M ->
  forall fuel fp p bytes,
    0 <= bytes <= size_ -> (Z.to_nat (size_ - bytes) < fuel)%nat ->
    exists r, readAll_loop fuel fp p bytes size_ = Some r.
Proof.
  intros Hio Hs. induction fuel as [|k IH]; intros fp p bytes Hb Hf; [lia|].
  simpl. destruct (Z.ltb_spec bytes size_) as [Hlt|Hge]; [|now eexists].
  rewrite (size_t_small (size_ - bytes)) by lia.
  pose proof (Hio fp p (size_ - bytes) ltac:(lia)) as Hle.
  destruct (read fp p (size_ - bytes)) as [rc fp1]. simpl in Hle.
  destruct (Z.leb_spec rc 0) as [Hrc|Hrc]; [now eexists|].
  rewrite (size_t_small (bytes + rc)) by lia.
  destruct (IH fp1 (p + rc) (bytes + rc)) as [[[ok fp2] cs] E]; [lia | lia |].
  rewrite E. now eexists.
Qed.

(** One pass through the loop: the call fails, or the total moves strictly
    closer to [size_] without passing it. *)
Lemma readAll_loop_progress (size_ : Z) :
  (forall fp p n, 0 <= n < M -> fst (read fp p n) <= n) ->
  size_ < M ->
  forall fp p bytes, 0 <= bytes < size_ ->
    let rc := fst (read fp p (fs.size_t size_bits (size_ - bytes))) in
    rc <= 0 \/ bytes < fs.size_t size_bits (bytes + rc) <= size_.
Proof.
  intros Hio Hs fp p bytes Hb. cbv zeta.
  rewrite (size_t_small (size_ - bytes)) by lia.
  pose proof (Hio fp p (size_ - bytes) ltac:(lia)) as Hle.
  destruct (Z.leb_spec (fst (read fp p (size_ - bytes))) 0); [now left|].
  right. rewrite size_t_small; lia.
Qed.

End RetryLoops.

(** C3.  A finished run of [readAll] or [writeAll] on [size_] bytes made
    its calls of [read] (of [write]) one after the other on the stream, each
    while the total was short of [size_], at the offset given by the counts
    of the earlier calls and asking for what is left; it returned true
    exactly when the accumulated counts reached [size_], and false exactly
    when its last call returned zero or less, no call being made after such
    a one.  Calls of [read] (of [write]) that follow this pattern are,
    conversely, the run itself: the loop makes these calls, leaves this
    stream and gives this answer.  With calls that return no more than
    asked, the run does finish. *)
Theorem readAll_writeAll_retry_until_done
    (size_bits : positive) (FILE : Type)
    (fread fwrite : FILE -> Z -> Z -> Z * FILE)
    (fuel : nat) (fp : FILE) (size_ : Z)
    (ok : bool) (fp' : FILE) (cs : list fs.call) :
  0 <= size_ < 2 ^ Z.pos size_bits ->
  (fs.readAll size_bits FILE fread fuel fp size_ = Some (ok, fp', cs) ->
   fs.made_on (fs.read size_bits FILE fread) fp cs fp' /\
   fs.retry_contract size_bits size_ ok cs) /\
  (fs.writeAll size_bits FILE fwrite fuel fp size_ = Some (ok, fp', cs) ->
   fs.made_on (fs.write size_bits FILE fwrite) fp cs fp' /\
   fs.retry_contract size_bits size_ ok cs) /\
  (fs.made_on (fs.read size_bits FILE fread) fp cs fp' ->
   fs.retry_contract size_bits size_ ok cs ->
   fs.readAll size_bits FILE fread (S (List.length cs)) fp size_
     = Some (ok, fp', cs)) /\
  (fs.made_on (fs.write size_bits FILE fwrite) fp cs fp' ->
   fs.retry_contract size_bits size_ ok cs ->
   fs.writeAll size_bits FILE fwrite (S (List.length cs)) fp size_
     = Some (ok, fp', cs)) /\
  ((forall fp p n, 0 <= n < 2 ^ Z.pos size_bits ->
      fst (fs.read size_bits FILE fread fp p n) <= n) ->
   exists r, fs.readAll size_bits FILE fread (S (Z.to_nat size_)) fp size_
             = Some r) /\
  ((forall fp p n, 0 <= n < 2 ^ Z.pos size_bits ->
      fst (fs.write size_bits FILE fwrite fp p n) <= n) ->
   exists r, fs.writeAll size_bits FILE fwrite (S (Z.to_nat size_)) fp size_
             = Some r).
Proof.
  intro Hs.
  assert (run : forall f,
    fs.readAll_loop size_bits FILE f fuel fp 0 0 size_ = Some (ok, fp', cs) ->
    fs.made_on (fs.read size_bits FILE f) fp cs fp' /\
    fs.retry_contract size_bits size_ ok cs).
  { intros f H.
    apply (readAll_loop_run size_bits FILE f) in H; [|lia | reflexivity].
    destruct H as (Mo & H). split; [exact Mo | exact H]. }
  assert (back : forall f,
    fs.made_on (fs.read size_bits FILE f) fp cs fp' ->
    fs.retry_contract size_bits size_ ok cs ->
    fs.readAll_loop size_bits FILE f (S (List.length cs)) fp 0 0 size_
      = Some (ok, fp', cs)).
  { intros f Mo (A & B & C & D).
    apply (readAll_loop_complete size_bits FILE f cs fp 0 0 size_ ok fp');
      [exact Hs | reflexivity | exact Mo | exact A | exact B | exact C
      | exact D]. }
  split; [|split; [|split; [|split; [|split]]]].
  - apply run.
  - unfold fs.writeAll. rewrite writeAll_loop_readAll_loop. apply run.
  - apply back.
  - unfold fs.writeAll. rewrite writeAll_loop_readAll_loop. apply back.
  - intro Hio. unfold fs.readAll.
    apply (readAll_loop_terminates size_bits FILE fread size_ Hio); lia.
  - intro Hio. unfold fs.writeAll.
    destruct (readAll_loop_terminates size_bits FILE fwrite size_ Hio
                ltac:(lia) (S (Z.to_nat size_)) fp 0 0) as [r E]; [lia | lia |].
    exists r. rewrite writeAll_loop_readAll_loop. exact E.
Qed.

Lemma chunked_bounded (fp : Chunked.FILE) (p n : Z) :
  0 <= n < 2 ^ 64 -> fst (fs.read 64 Chunked.FILE Chunked.fread fp p n) <= n.
Proof.
  intro H. unfold fs.read, Chunked.fread, fs.ssize_t, fs.size_t.
  cbn [fst]. rewrite Z.mod_small by lia.
  destruct (Z.ltb_spec (Z.min n 3) (2 ^ (64 - 1))); lia.
Qed.

Lemma readAll_writeAll_retry_until_done_witness :
  let cs := [fs.Call 0 7 3; fs.Call 3 4 3; fs.Call 6 1 1] in
  (fs.made_on (fs.read 64 Chunked.FILE Chunked.fread) O cs 3%nat /\
   fs.retry_contract 64 7 true cs) /\
  (exists r, fs.readAll 64 Chunked.FILE Chunked.fread 8 O 7 = Some r).
Proof.
  intro cs.
  pose proof (readAll_writeAll_retry_until_done 64 Chunked.FILE
                Chunked.fread Chunked.fwrite 8 O 7 true 3%nat cs
                ltac:(lia)) as (R & _ & _ & _ & T & _).
  split.
  - apply R. vm_compute. reflexivity.
  - apply T. exact chunked_bounded.
Defined.

(** C5.  If every call of [read] and of [write] returns no more than it was
    asked for, [readAll] and [writeAll] return for every size, after at most
    [size_] calls; a pass through either loop ends it with false or moves
    the total strictly closer to [size_]. *)
Theorem readAll_writeAll_terminate
    (size_bits : positive) (FILE : Type)
    (fread fwrite : FILE -> Z -> Z -> Z * FILE) :
  (forall fp p n, 0 <= n < 2 ^ Z.pos size_bits ->
     fst (fs.read size_bits FILE fread fp p n) <= n) ->
  (forall fp p n, 0 <= n < 2 ^ Z.pos size_bits ->
     fst (fs.write size_bits FILE fwrite fp p n) <= n) ->
  forall (fp : FILE) (size_ : Z),
    0 <= size_ < 2 ^ Z.pos size_bits ->
    (exists r, fs.readAll size_bits FILE fread (S (Z.to_nat size_)) fp size_
               = Some r) /\
    (exists r, fs.writeAll size_bits FILE fwrite (S (Z.to_nat size_)) fp size_
               = Some r) /\
    (forall fp p bytes, 0 <= bytes < size_ ->
       let rc := fst (fs.read size_bits FILE fread fp p
                        (fs.size_t size_bits (size_ - bytes))) in
       rc <= 0 \/ bytes < fs.size_t size_bits (bytes + rc) <= size_) /\
    (forall fp p bytes, 0 <= bytes < size_ ->
       let rc := fst (fs.write size_bits FILE fwrite fp p
                        (fs.size_t size_bits (size_ - bytes))) in
       rc <= 0 \/ bytes < fs.size_t size_bits (bytes + rc) <= size_).
Proof.
  intros Hr Hw fp size_ Hs.
  split; [|split; [|split]].
  - unfold fs.readAll.
    apply (readAll_loop_terminates size_bits FILE fread size_ Hr); lia.
  - unfold fs.writeAll.
    destruct (readAll_loop_terminates size_bits FILE fwrite size_ Hw
                ltac:(lia) (S (Z.to_nat size_)) fp 0 0) as [r E]; [lia | lia |].
    exists r. rewrite writeAll_loop_readAll_loop. exact E.
  - apply (readAll_loop_progress size_bits FILE fread size_ Hr). lia.
  - apply (readAll_loop_progress size_bits FILE fwrite size_ Hw). lia.
Qed.

Lemma readAll_writeAll_terminate_witness :
  (exists r, fs.readAll 64 Chunked.FILE Chunked.fread 11 O 10 = Some r) /\
  (exists r, fs.writeAll 64 Chunked.FILE Chunked.fwrite 11 O 10 = Some r).
Proof.
  destruct (readAll_writeAll_terminate 64 Chunked.FILE Chunked.fread
              Chunked.fwrite chunked_bounded chunked_bounded O 10 ltac:(lia))
    as (A & B & _).
  split; [exact A | exact B].
Defined.

(** ** [strip] and the lines of the configuration file *)

Lemma mem_app (c : ascii) (a b : string) :
  Str.mem c (a ++ b) = Str.mem c a || Str.mem c b.
Proof.
  induction a as [|d a IH]; simpl; [reflexivity|].
  now rewrite IH, orb_assoc.
Qed.

Lemma drop_S_app (k v : string) (c : ascii) :
  Str.drop (S (String.length k)) (k ++ String c v) = v.
Proof. induction k as [|d k IH]; simpl; [now destruct v | exact IH]. Qed.

Lemma find_last_not_of_last (s set : string) (l : ascii) :
  Str.last s = Some l -> Str.mem l set = false ->
  Str.find_last_not_of s set = Some (pred (String.length s)).
Proof.
  induction s as [|c r IH]; [discriminate|].
  intros L H. destruct r as [|d r].
  - simpl in *. injection L as ->. now rewrite H.
  - change (Str.last (String c (String d r))) with (Str.last (String d r)) in L.
    change (Str.find_last_not_of (String c (String d r)) set)
      with (match Str.find_last_not_of (String d r) set with
            | Some i => Some (S i)
            | None => if Str.mem c set then None else Some O
            end).
    now rewrite (IH L H).
Qed.

(** [strip] returns a string without blanks at its ends as it is. *)
Lemma strip_id (s : string) :
  FtpConfig.keeps_end (Str.head s) = true ->
  FtpConfig.keeps_end (Str.last s) = true ->
  FtpConfig.strip s = s.
Proof.
  intros Hh Hl. destruct s as [|c r]; [discriminate|].
  destruct (Str.last (String c r)) as [l|] eqn:L; [|discriminate].
  cbn [FtpConfig.keeps_end Str.head] in Hh, Hl. apply negb_true_iff in Hh, Hl.
  unfold FtpConfig.strip.
  rewrite (find_last_not_of_last _ _ _ L Hl).
  cbn [Str.find_first_not_of]. rewrite Hh.
  unfold Str.substr. rewrite drop_0.
  replace (S (pred (String.length (String c r))) - 0)%nat
    with (String.length (String c r)) by (simpl; lia).
  apply take_length.
Qed.

Lemma isdigit_not_blank (c : ascii) :
  Str.isdigit c = true -> Str.mem c FtpConfig.blanks = false.
Proof.
  intro H. simpl.
  destruct (Ascii.eqb_spec c " ") as [->|_]; [discriminate|].
  destruct (Ascii.eqb_spec c FtpConfig.TAB) as [->|_]; [discriminate|].
  reflexivity.
Qed.

Lemma all_digits_last (s : string) (l : ascii) :
  Str.all_digits s = true -> Str.last s = Some l -> Str.isdigit l = true.
Proof.
  induction s as [|c r IH]; [discriminate|].
  intros D L. simpl in D. apply andb_prop in D as [Dc Dr].
  destruct r as [|d r]; [now injection L as <-|].
  exact (IH Dr L).
Qed.

Lemma strip_digits (s : string) :
  Str.all_digits s = true -> FtpConfig.strip s = s.
Proof.
  intro D. destruct s as [|c r]; [reflexivity|].
  apply strip_id.
  - cbn [Str.all_digits] in D. apply andb_prop in D as [Dc _].
    cbn [FtpConfig.keeps_end Str.head]. now rewrite (isdigit_not_blank _ Dc).
  - destruct (Str.last (String c r)) as [l|] eqn:L.
    + cbn [FtpConfig.keeps_end].
      now rewrite (isdigit_not_blank _ (all_digits_last _ _ D L)).
    + exfalso. clear D. revert c L. induction r as [|d r IH]; intros c L;
        [discriminate | exact (IH d L)].
Qed.

Lemma split_line_none (line : string) :
  Str.mem "=" line = false -> FtpConfig.split_line line = None.
Proof.
  intro H. unfold FtpConfig.split_line. now rewrite (find_first_of_none _ _ H).
Qed.

Lemma split_line_app (k v : string) :
  Str.mem "=" k = false ->
  FtpConfig.split_line (k ++ String "=" v)
    = Some (FtpConfig.strip k, FtpConfig.strip v).
Proof.
  intro H. unfold FtpConfig.split_line.
  rewrite (find_first_of_app _ _ _ H). unfold Str.substr.
  now rewrite drop_0, take_app, drop_S_app.
Qed.

Section LoadFacts.

Variables NDS _3DS getMTime_init : bool.
Variable readLine : string -> string * string.

Local Abbreviation setPort := (FtpConfig.setPort NDS _3DS).
Local Abbreviation load_assign := (FtpConfig.load_assign _3DS).
Local Abbreviation load_line := (FtpConfig.load_line _3DS).
Local Abbreviation load_loop := (FtpConfig.load_loop _3DS readLine).
Local Abbreviation read_lines := (FtpConfig.read_lines readLine).
Local Abbreviation load := (FtpConfig.load NDS _3DS getMTime_init readLine).
Local Abbreviation port_allowed := (FtpConfig.port_allowed NDS _3DS).

Lemma load_line_no_eq (line : string) (st : FtpConfig.locals) :
  Str.mem "=" line = false -> load_line line st = st.
Proof.
  intro H. unfold FtpConfig.load_line. now rewrite (split_line_none _ H).
Qed.

Lemma load_line_empty_side (k v : string) (st : FtpConfig.locals) :
  Str.mem "=" k = false ->
  FtpConfig.strip k = "" \/ FtpConfig.strip v = "" ->
  load_line (k ++ String "=" v) st = st.
Proof.
  intros H E. unfold FtpConfig.load_line. rewrite (split_line_app _ _ H).
  destruct E as [-> | ->]; [reflexivity|].
  now rewrite orb_true_r.
Qed.

Lemma load_line_key (k v : string) (st : FtpConfig.locals) :
  Str.mem "=" k = false ->
  FtpConfig.strip k <> "" -> FtpConfig.strip v <> "" ->
  load_line (k ++ String "=" v) st
    = load_assign (FtpConfig.strip k) (FtpConfig.strip v) st.
Proof.
  intros H Hk Hv. unfold FtpConfig.load_line. rewrite (split_line_app _ _ H).
  apply is_empty_false in Hk, Hv. now rewrite Hk, Hv.
Qed.

(** A value that [parseInt] refuses leaves the locals of [load] alone. *)
Lemma load_line_unparsed (k v : string) (st : FtpConfig.locals) :
  Str.mem "=" k = false ->
  (FtpConfig.strip k = "port" /\
   (Str.all_digits (FtpConfig.strip v) = false \/
    FtpConfig.UINT16_MAX < Str.decimal_value (FtpConfig.strip v))) \/
  (FtpConfig.strip k = "deflateLevel" /\
   (Str.all_digits (FtpConfig.strip v) = false \/
    FtpConfig.INT_MAX < Str.decimal_value (FtpConfig.strip v))) ->
  load_line (k ++ String "=" v) st = st.
Proof.
  intros H E. unfold FtpConfig.load_line. rewrite (split_line_app _ _ H).
  destruct (Str.is_empty (FtpConfig.strip k) || Str.is_empty (FtpConfig.strip v));
    [reflexivity|].
  unfold FtpConfig.load_assign.
  destruct E as [[-> E] | [-> E]]; simpl String.eqb; cbv iota.
  - destruct (parseInt_fails FtpConfig.UINT16_MAX (FtpConfig.strip v))
      as [e ->]; [unfold FtpConfig.UINT16_MAX; lia | now right | reflexivity].
  - destruct (parseInt_fails FtpConfig.INT_MAX (FtpConfig.strip v))
      as [e ->]; [unfold FtpConfig.INT_MAX; lia | now right | reflexivity].
Qed.

Lemma load_loop_fold (fuel : nat) (fp : string) (st : FtpConfig.locals) :
  load_loop fuel fp st =
  option_map (fun ls => fold_left (fun s l => load_line l s) ls st)
             (read_lines fuel fp).
Proof.
  revert fp st; induction fuel as [|k IH]; intros fp st; simpl; [reflexivity|].
  destruct (readLine fp) as [line fp'].
  destruct (Str.is_empty line); [reflexivity|].
  rewrite IH. now destruct (read_lines k fp').
Qed.

Lemma setPort_rejects_not_allowed (c : FtpConfig.t) (p : Z) :
  ~ port_allowed p -> setPort c p = (false, c, Some FtpConfig.EPERM).
Proof.
  unfold FtpConfig.port_allowed, FtpConfig.setPort. intro H.
  destruct (Z.ltb_spec p 1024); [|lia].
  destruct (negb NDS && negb _3DS) eqn:B; [|reflexivity].
  destruct (Z.eqb_spec p 0) as [->|]; [|reflexivity].
  exfalso. apply H. right. split; [reflexivity|].
  now destruct NDS, _3DS.
Qed.

(** The values [load] may keep for the port while it reads: the default
    or one that [setPort] will refuse. *)
Lemma fold_port_default (ls : list string) (st : FtpConfig.locals) :
  (forall line val, In line ls ->
     FtpConfig.split_line line = Some ("port", val) ->
     val = "" \/ Str.all_digits val = false \/
      ~ (Str.decimal_value val <= FtpConfig.UINT16_MAX /\
         port_allowed (Str.decimal_value val))) ->
  FtpConfig.l_port st = 5000 \/ ~ port_allowed (FtpConfig.l_port st) ->
  let st' := fold_left (fun s l => load_line l s) ls st in
  FtpConfig.l_port st' = 5000 \/ ~ port_allowed (FtpConfig.l_port st').
Proof.
  revert st; induction ls as [|line ls IH]; intros st Hbad Hst; [exact Hst|].
  simpl. apply IH; [intros l v I; apply Hbad; now right|].
  specialize (Hbad line). unfold FtpConfig.load_line.
  destruct (FtpConfig.split_line line) as [[key val]|]; [|exact Hst].
  destruct (Str.is_empty key || Str.is_empty val) eqn:E; [exact Hst|].
  unfold FtpConfig.load_assign.
  destruct (String.eqb key "user"); [exact Hst|].
  destruct (String.eqb key "pass"); [exact Hst|].
  destruct (String.eqb_spec key "port") as [->|_].
  { destruct (FtpConfig.parseInt _ val) as [p|e] eqn:P; [|exact Hst].
    simpl. right.
    apply parseInt_inl in P as (Hne & D & -> & Hle);
      [|unfold FtpConfig.UINT16_MAX; lia].
    destruct (Hbad val (or_introl eq_refl) eq_refl) as [E' | [D' | A]];
      [congruence | congruence | tauto]. }
  destruct (String.eqb key "deflateLevel").
  { destruct (FtpConfig.parseInt _ val); exact Hst. }
  destruct (_3DS && String.eqb key "mtime"); [|exact Hst].
  destruct (String.eqb val "0"); [exact Hst|].
  destruct (String.eqb val "1"); exact Hst.
Qed.

Lemma fold_level_default (ls : list string) (st : FtpConfig.locals) :
  (forall line val, In line ls ->
     FtpConfig.split_line line = Some ("deflateLevel", val) ->
     val = "" \/ Str.all_digits val = false \/
      ~ (0 <= Str.decimal_value val <= 9)) ->
  FtpConfig.l_deflateLevel st = 6 \/ ~ (0 <= FtpConfig.l_deflateLevel st <= 9) ->
  let st' := fold_left (fun s l => load_line l s) ls st in
  FtpConfig.l_deflateLevel st' = 6 \/
  ~ (0 <= FtpConfig.l_deflateLevel st' <= 9).
Proof.
  revert st; induction ls as [|line ls IH]; intros st Hbad Hst; [exact Hst|].
  simpl. apply IH; [intros l v I; apply Hbad; now right|].
  specialize (Hbad line). unfold FtpConfig.load_line.
  destruct (FtpConfig.split_line line) as [[key val]|]; [|exact Hst].
  destruct (Str.is_empty key || Str.is_empty val); [exact Hst|].
  unfold FtpConfig.load_assign.
  destruct (String.eqb key "user"); [exact Hst|].
  destruct (String.eqb key "pass"); [exact Hst|].
  destruct (String.eqb key "port").
  { destruct (FtpConfig.parseInt _ val); exact Hst. }
  destruct (String.eqb_spec key "deflateLevel") as [->|_].
  { destruct (FtpConfig.parseInt _ val) as [l|e] eqn:P; [|exact Hst].
    simpl. right.
    apply parseInt_inl in P as (Hne & D & -> & _);
      [|unfold FtpConfig.INT_MAX; lia].
    destruct (Hbad val (or_introl eq_refl) eq_refl) as [E' | [D' | A]];
      [congruence | congruence | exact A]. }
  destruct (_3DS && String.eqb key "mtime"); [|exact Hst].
  destruct (String.eqb val "0"); [exact Hst|].
  destruct (String.eqb val "1"); exact Hst.
Qed.

Lemma fold_keeps (ls : list string) (st : FtpConfig.locals) :
  let st' := fold_left (fun s l => load_line l s) ls st in
  FtpConfig.m_port (FtpConfig.l_config st')
    = FtpConfig.m_port (FtpConfig.l_config st) /\
  FtpConfig.m_deflateLevel (FtpConfig.l_config st')
    = FtpConfig.m_deflateLevel (FtpConfig.l_config st).
Proof.
  revert st; induction ls as [|line ls IH]; intro st; simpl; [now split|].
  destruct (IH (load_line line st)) as [A B].
  destruct (load_line_keeps _3DS line st) as [A' B']. split; congruence.
Qed.

(** A file in which every port is unusable leaves the port at its default,
    and likewise for the level. *)
Lemma load_defaults_kept (fuel : nat) (content : string) (lines : list string)
    (c : FtpConfig.t) :
  read_lines fuel content = Some lines ->
  load fuel (Some content) = Some c ->
  ((forall line val, In line lines ->
      FtpConfig.split_line line = Some ("port", val) ->
      val = "" \/ Str.all_digits val = false \/
      ~ (Str.decimal_value val <= FtpConfig.UINT16_MAX /\
         port_allowed (Str.decimal_value val))) ->
   FtpConfig.port c = 5000) /\
  ((forall line val, In line lines ->
      FtpConfig.split_line line = Some ("deflateLevel", val) ->
      val = "" \/ Str.all_digits val = false \/
      ~ (0 <= Str.decimal_value val <= 9)) ->
   FtpConfig.deflateLevel c = 6).
Proof.
  intros RL. unfold FtpConfig.load. rewrite load_loop_fold, RL.
  cbn [option_map].
  set (st0 := FtpConfig.Locals _ _ _).
  pose proof (fold_keeps lines st0) as [Kp Kl]. cbv zeta in Kp, Kl.
  pose proof (fold_port_default lines st0) as FP.
  pose proof (fold_level_default lines st0) as FL. cbv zeta in FP, FL.
  set (st := fold_left _ lines st0) in *.
  change (FtpConfig.m_port (FtpConfig.l_config st0)) with 5000 in Kp.
  change (FtpConfig.m_deflateLevel (FtpConfig.l_config st0)) with 6 in Kl.
  pose proof (setPort_keeps_level NDS _3DS (FtpConfig.l_config st)
                (FtpConfig.l_port st)) as SL.
  pose proof (setDeflateLevel_keeps_port) as SP.
  intro Hload. split; intro Hbad; revert Hload.
  - specialize (FP Hbad (or_introl eq_refl)).
    assert (E : FtpConfig.m_port
                  (snd (fst (setPort (FtpConfig.l_config st) (FtpConfig.l_port st))))
                = 5000).
    { destruct FP as [E | N].
      - rewrite E. unfold FtpConfig.setPort. simpl. reflexivity.
      - rewrite (setPort_rejects_not_allowed _ _ N). exact Kp. }
    destruct (setPort _ _) as [[ok c1] e]. simpl in E.
    specialize (SP c1 (FtpConfig.l_deflateLevel st)).
    destruct (FtpConfig.setDeflateLevel c1 _) as [ok' c2]. simpl in SP.
    intro H; injection H as <-. unfold FtpConfig.port. congruence.
  - specialize (FL Hbad (or_introl eq_refl)).
    destruct (setPort _ _) as [[ok c1] e]. simpl in SL.
    intro H. unfold FtpConfig.deflateLevel.
    unfold FtpConfig.setDeflateLevel, FtpConfig.Z_NO_COMPRESSION,
      FtpConfig.Z_BEST_COMPRESSION in H.
    destruct (Z.ltb_spec (FtpConfig.l_deflateLevel st) 0);
      destruct (Z.ltb_spec 9 (FtpConfig.l_deflateLevel st));
      simpl in H; injection H as <-; simpl; try congruence.
    destruct FL as [E | N]; [exact E | lia].
Qed.

(** *** Totality of [load] *)

Hypothesis readLine_progress :
  forall fp line fp', readLine fp = (line, fp') -> line <> "" ->
    (String.length fp' < String.length fp)%nat.

Lemma load_loop_total (fuel : nat) (fp : string) (st : FtpConfig.locals) :
  (String.length fp < fuel)%nat -> exists st', load_loop fuel fp st = Some st'.
Proof.
  revert fp st; induction fuel as [|k IH]; intros fp st H; [lia|].
  simpl. destruct (readLine fp) as [line fp'] eqn:R.
  destruct (Str.is_empty line) eqn:E; [now eexists|].
  apply is_empty_false in E. apply IH.
  specialize (readLine_progress _ _ _ R E). lia.
Qed.

End LoadFacts.

(** ** The line reader [Lines.readLine] *)

Lemma getline_line (l rest : string) :
  Str.mem FtpConfig.LF l = false ->
  Lines.getline (l ++ String FtpConfig.LF rest)
    = (l ++ String FtpConfig.LF "", rest).
Proof.
  induction l as [|c l IH]; intro H.
  - reflexivity.
  - cbn [Str.mem] in H. apply orb_false_elim in H as [Hc Hl].
    cbn [append Lines.getline].
    rewrite Ascii.eqb_sym, Hc, (IH Hl). reflexivity.
Qed.

Lemma getline_last (l : string) :
  Str.mem FtpConfig.LF l = false -> Lines.getline l = (l, "").
Proof.
  induction l as [|c l IH]; intro H; [reflexivity|].
  cbn [Str.mem] in H. apply orb_false_elim in H as [Hc Hl].
  cbn [Lines.getline]. rewrite Ascii.eqb_sym, Hc, (IH Hl). reflexivity.
Qed.

Lemma chomp_line (l : string) :
  Str.mem FtpConfig.LF l = false -> Str.mem FtpConfig.CR l = false ->
  Lines.chomp l = l /\ Lines.chomp (l ++ String FtpConfig.LF "") = l.
Proof.
  induction l as [|c l IH]; intros H1 H2; [now split|].
  cbn [Str.mem] in H1, H2.
  apply orb_false_elim in H1 as [C1 L1]. apply orb_false_elim in H2 as [C2 L2].
  destruct (IH L1 L2) as [A B].
  cbn [append Lines.chomp]. rewrite A, B.
  rewrite (Ascii.eqb_sym c FtpConfig.LF), (Ascii.eqb_sym c FtpConfig.CR), C1, C2.
  now destruct l.
Qed.

Lemma Lines_readLine_line (l rest : string) :
  FtpConfig.plain_line l ->
  Lines.readLine (l ++ String FtpConfig.LF rest) = (l, rest).
Proof.
  intros (_ & H1 & H2). unfold Lines.readLine.
  rewrite (getline_line _ _ H1). now rewrite (proj2 (chomp_line l H1 H2)).
Qed.

Lemma Lines_readLine_last (l : string) :
  FtpConfig.plain_line l -> Lines.readLine l = (l, "").
Proof.
  intros (_ & H1 & H2). unfold Lines.readLine.
  rewrite (getline_last _ H1). now rewrite (proj1 (chomp_line l H1 H2)).
Qed.

Lemma getline_length (s : string) :
  (String.length (fst (Lines.getline s)) + String.length (snd (Lines.getline s))
   = String.length s)%nat.
Proof.
  induction s as [|c s IH]; [reflexivity|].
  cbn [Lines.getline]. destruct (Ascii.eqb c FtpConfig.LF); [reflexivity|].
  destruct (Lines.getline s) as [l rest]. simpl in *. lia.
Qed.

Lemma Lines_readLine_progress (fp line fp' : string) :
  Lines.readLine fp = (line, fp') -> line <> "" ->
  (String.length fp' < String.length fp)%nat.
Proof.
  unfold Lines.readLine. pose proof (getline_length fp) as H.
  destruct (Lines.getline fp) as [l rest]. simpl in H.
  intros E N. injection E as <- <-.
  destruct l; [now elim N | simpl in H; lia].
Qed.

(** ** [save] followed by [load] *)

Lemma all_digits_mem (s : string) (c : ascii) :
  Str.all_digits s = true -> Str.isdigit c = false -> Str.mem c s = false.
Proof.
  induction s as [|d s IH]; intros D N; [reflexivity|].
  cbn [Str.all_digits] in D. apply andb_prop in D as [Dd Ds].
  cbn [Str.mem]. rewrite (IH Ds N).
  destruct (Ascii.eqb_spec c d) as [->|_]; [congruence | reflexivity].
Qed.

Lemma storable_spec (s : string) :
  FtpConfig.storable s = true ->
  s <> "" /\ Str.mem FtpConfig.LF s = false /\ Str.mem FtpConfig.CR s = false /\
  Str.mem FtpConfig.NUL s = false /\ FtpConfig.strip s = s.
Proof.
  unfold FtpConfig.storable. intro H.
  apply andb_prop in H as [H H5]. apply andb_prop in H as [H H4].
  apply andb_prop in H as [H H3]. apply andb_prop in H as [H1 H2].
  apply negb_true_iff in H1, H2, H3.
  repeat split; try assumption.
  - intros ->. discriminate.
  - now apply strip_id.
Qed.

Section RoundTrip.

Variables NDS getMTime_init : bool.
Variable readLine : string -> string * string.

(** What the round trip needs of the line reader: it hands over a plain
    line as it is, whether a line feed or the end of the stream follows,
    and returns the empty string at the end of the stream. *)
Hypothesis readLine_line :
  forall l rest, FtpConfig.plain_line l ->
    readLine (l ++ String FtpConfig.LF rest) = (l, rest).
Hypothesis readLine_last :
  forall l, FtpConfig.plain_line l -> readLine l = (l, "").
Hypothesis readLine_eof : readLine "" = ("", "").

Lemma read_lines_join (ls : list string) (fuel : nat) :
  Forall FtpConfig.plain_line ls -> (List.length ls < fuel)%nat ->
  FtpConfig.read_lines readLine fuel (FtpConfig.join_lines ls) = Some ls.
Proof.
  intro F. revert fuel. induction F as [|l ls P F IH]; intros fuel H.
  - destruct fuel as [|k]; [simpl in H; lia|].
    simpl. now rewrite readLine_eof.
  - destruct fuel as [|k]; [simpl in H; lia|].
    assert (E : Str.is_empty l = false) by (apply is_empty_false; apply P).
    destruct ls as [|l2 ls].
    + cbn [FtpConfig.join_lines FtpConfig.read_lines].
      rewrite (readLine_last _ P), E.
      destruct k as [|k]; [simpl in H; lia|].
      simpl. now rewrite readLine_eof.
    + change (FtpConfig.join_lines (l :: l2 :: ls))
        with (l ++ String FtpConfig.LF (FtpConfig.join_lines (l2 :: ls))).
      cbn [FtpConfig.read_lines].
      rewrite (readLine_line _ _ P), E, IH by (simpl in *; lia).
      reflexivity.
Qed.

(** The file [save] writes on a build without [_3DS]. *)
Lemma save_text_lines (c : FtpConfig.t) :
  FtpConfig.storable (FtpConfig.m_user c) = true ->
  FtpConfig.storable (FtpConfig.m_pass c) = true ->
  0 <= FtpConfig.m_deflateLevel c <= 9 ->
  FtpConfig.save_text false c =
  FtpConfig.join_lines
    ["user" ++ String "=" (FtpConfig.m_user c);
     "pass" ++ String "=" (FtpConfig.m_pass c);
     "port" ++ String "=" (Printf.dec (FtpConfig.m_port c));
     "deflateLevel" ++ String "=" (Printf.dec (FtpConfig.m_deflateLevel c))].
Proof.
  intros Hu Hp Hl.
  apply storable_spec in Hu as (Nu & _ & _ & Zu & _).
  apply storable_spec in Hp as (Np & _ & _ & Zp & _).
  unfold FtpConfig.save_text, FtpConfig.c_str.
  apply is_empty_false in Nu, Np. rewrite Nu, Np.
  rewrite (proj1 (substr_find_first_of _ _) Zu).
  rewrite (proj1 (substr_find_first_of _ _) Zp).
  rewrite Z.mod_small by lia.
  cbn [FtpConfig.join_lines append].
  rewrite !append_assoc. cbn [append]. rewrite append_nil_r. reflexivity.
Qed.

Lemma plain_key_value (key val : string) :
  Str.mem FtpConfig.LF key = false -> Str.mem FtpConfig.CR key = false ->
  Str.mem FtpConfig.LF val = false -> Str.mem FtpConfig.CR val = false ->
  FtpConfig.plain_line (key ++ String "=" val).
Proof.
  intros K1 K2 V1 V2. repeat split.
  - destruct key; discriminate.
  - rewrite mem_app, K1. cbn [Str.mem]. now rewrite V1.
  - rewrite mem_app, K2. cbn [Str.mem]. now rewrite V2.
Qed.

Lemma plain_key_number (key : string) (n : Z) :
  Str.mem FtpConfig.LF key = false -> Str.mem FtpConfig.CR key = false ->
  0 <= n -> FtpConfig.plain_line (key ++ String "=" (Printf.dec n)).
Proof.
  intros K1 K2 Hn.
  apply plain_key_value; try assumption;
    apply all_digits_mem; try reflexivity; now apply dec_digits.
Qed.

Lemma setPort_accepted_allowed (c : FtpConfig.t) (p : Z) :
  fst (fst (FtpConfig.setPort NDS false c p)) = true ->
  FtpConfig.port_allowed NDS false p.
Proof.
  unfold FtpConfig.setPort, FtpConfig.port_allowed.
  destruct (Z.ltb_spec p 1024); [|intros _; now left].
  destruct NDS; simpl; [discriminate|].
  destruct (Z.eqb_spec p 0); simpl; [intros _; right; now split | discriminate].
Qed.

(** On a build without [_3DS], [load] reads back what [save] wrote. *)
Lemma save_load_roundtrip (c : FtpConfig.t) (fuel : nat) :
  FtpConfig.storable (FtpConfig.user c) = true ->
  FtpConfig.storable (FtpConfig.pass c) = true ->
  0 <= FtpConfig.port c <= FtpConfig.UINT16_MAX ->
  fst (fst (FtpConfig.setPort NDS false c (FtpConfig.port c))) = true ->
  0 <= FtpConfig.deflateLevel c <= 9 ->
  (4 < fuel)%nat ->
  fst (FtpConfig.save false true true c) = true /\
  exists c',
    FtpConfig.load NDS false getMTime_init readLine fuel
      (snd (FtpConfig.save false true true c)) = Some c' /\
    FtpConfig.user c' = FtpConfig.user c /\
    FtpConfig.pass c' = FtpConfig.pass c /\
    FtpConfig.port c' = FtpConfig.port c /\
    FtpConfig.deflateLevel c' = FtpConfig.deflateLevel c.
Proof.
  unfold FtpConfig.user, FtpConfig.pass, FtpConfig.port, FtpConfig.deflateLevel.
  intros Hu Hp Hr Ha Hl Hf.
  split; [reflexivity|].
  cbn [FtpConfig.save negb snd].
  rewrite (save_text_lines c Hu Hp Hl).
  unfold FtpConfig.load. rewrite load_loop_fold.
  pose proof (storable_spec _ Hu) as (Nu & Lu & Cu & _ & Su).
  pose proof (storable_spec _ Hp) as (Np & Lp & Cp & _ & Sp).
  rewrite read_lines_join; [| |simpl; lia].
  2:{ apply Forall_cons; [now apply plain_key_value|].
      apply Forall_cons; [now apply plain_key_value|].
      apply Forall_cons;
        [apply plain_key_number; [reflexivity | reflexivity | lia]|].
      apply Forall_cons;
        [apply plain_key_number; [reflexivity | reflexivity | lia]|].
      apply Forall_nil. }
  cbn [option_map fold_left].
  assert (Sd : forall n, 0 <= n -> FtpConfig.strip (Printf.dec n) = Printf.dec n)
    by (intros n Hn; apply strip_digits; now apply dec_digits).
  assert (Eu : forall st,
    FtpConfig.load_line false ("user" ++ String "=" (FtpConfig.m_user c)) st =
    FtpConfig.Locals (FtpConfig.with_user (FtpConfig.l_config st) (FtpConfig.m_user c))
      (FtpConfig.l_port st) (FtpConfig.l_deflateLevel st)).
  { intro st. rewrite load_line_key, Su;
      [reflexivity | reflexivity | discriminate | now rewrite Su]. }
  assert (Ep : forall st,
    FtpConfig.load_line false ("pass" ++ String "=" (FtpConfig.m_pass c)) st =
    FtpConfig.Locals (FtpConfig.with_pass (FtpConfig.l_config st) (FtpConfig.m_pass c))
      (FtpConfig.l_port st) (FtpConfig.l_deflateLevel st)).
  { intro st. rewrite load_line_key, Sp;
      [reflexivity | reflexivity | discriminate | now rewrite Sp]. }
  assert (Er : forall st,
    FtpConfig.load_line false
      ("port" ++ String "=" (Printf.dec (FtpConfig.m_port c))) st =
    FtpConfig.Locals (FtpConfig.l_config st) (FtpConfig.m_port c)
      (FtpConfig.l_deflateLevel st)).
  { intro st. rewrite load_line_key.
    - rewrite Sd by lia. change (FtpConfig.strip "port") with "port".
      unfold FtpConfig.load_assign. cbn [String.eqb Ascii.eqb Bool.eqb].
      now rewrite (parseInt_dec FtpConfig.UINT16_MAX) by lia.
    - reflexivity.
    - discriminate.
    - rewrite Sd by lia. apply dec_not_empty. }
  assert (El : forall st,
    FtpConfig.load_line false
      ("deflateLevel" ++ String "=" (Printf.dec (FtpConfig.m_deflateLevel c))) st =
    FtpConfig.Locals (FtpConfig.l_config st) (FtpConfig.l_port st)
      (FtpConfig.m_deflateLevel c)).
  { intro st. rewrite load_line_key.
    - rewrite Sd by lia. change (FtpConfig.strip "deflateLevel") with "deflateLevel".
      unfold FtpConfig.load_assign. cbn [String.eqb Ascii.eqb Bool.eqb].
      now rewrite (parseInt_dec FtpConfig.INT_MAX)
        by (unfold FtpConfig.INT_MAX; lia).
    - reflexivity.
    - discriminate.
    - rewrite Sd by lia. apply dec_not_empty. }
  rewrite Eu, Ep, Er, El.
  cbn [FtpConfig.l_config FtpConfig.l_port FtpConfig.l_deflateLevel].
  rewrite (setPort_accepts NDS false _ _ (setPort_accepted_allowed _ _ Ha)).
  unfold FtpConfig.setDeflateLevel, FtpConfig.Z_NO_COMPRESSION,
    FtpConfig.Z_BEST_COMPRESSION.
  destruct (Z.ltb_spec (FtpConfig.m_deflateLevel c) 0); [lia|].
  destruct (Z.ltb_spec 9 (FtpConfig.m_deflateLevel c)); [lia|].
  eexists. split; [reflexivity|]. now repeat split.
Qed.

(** *** With [_3DS] defined *)

Lemma read_lines_join_LF (ls : list string) (fuel : nat) :
  Forall FtpConfig.plain_line ls -> ls <> [] -> (List.length ls < fuel)%nat ->
  FtpConfig.read_lines readLine fuel
    (FtpConfig.join_lines ls ++ String FtpConfig.LF "") = Some ls.
Proof.
  intro F. revert fuel. induction F as [|l ls P F IH]; intros fuel N H;
    [now elim N|].
  destruct fuel as [|k]; [simpl in H; lia|].
  assert (E : Str.is_empty l = false) by (apply is_empty_false; apply P).
  destruct ls as [|l2 ls].
  - cbn [FtpConfig.join_lines FtpConfig.read_lines].
    rewrite (readLine_line _ _ P), E.
    destruct k as [|k]; [simpl in H; lia|].
    simpl. now rewrite readLine_eof.
  - change (FtpConfig.join_lines (l :: l2 :: ls))
      with (l ++ String FtpConfig.LF (FtpConfig.join_lines (l2 :: ls))).
    rewrite append_assoc.
    change (String FtpConfig.LF (FtpConfig.join_lines (l2 :: ls))
              ++ String FtpConfig.LF "")
      with (String FtpConfig.LF
              (FtpConfig.join_lines (l2 :: ls) ++ String FtpConfig.LF "")).
    cbn [FtpConfig.read_lines].
    rewrite (readLine_line _ _ P), E, IH by (simpl in *; lia || discriminate).
    reflexivity.
Qed.

Lemma save_text_lines_3DS (c : FtpConfig.t) :
  FtpConfig.storable (FtpConfig.m_user c) = true ->
  FtpConfig.storable (FtpConfig.m_pass c) = true ->
  0 <= FtpConfig.m_deflateLevel c <= 9 ->
  FtpConfig.save_text true c =
  FtpConfig.join_lines
    ["user" ++ String "=" (FtpConfig.m_user c);
     "pass" ++ String "=" (FtpConfig.m_pass c);
     "port" ++ String "=" (Printf.dec (FtpConfig.m_port c));
     "deflateLevel" ++ String "=" (FtpConfig.level_mtime c)]
  ++ String FtpConfig.LF "".
Proof.
  intros Hu Hp Hl.
  apply storable_spec in Hu as (Nu & _ & _ & Zu & _).
  apply storable_spec in Hp as (Np & _ & _ & Zp & _).
  unfold FtpConfig.save_text, FtpConfig.c_str, FtpConfig.level_mtime.
  apply is_empty_false in Nu, Np. rewrite Nu, Np.
  rewrite (proj1 (substr_find_first_of _ _) Zu).
  rewrite (proj1 (substr_find_first_of _ _) Zp).
  rewrite Z.mod_small by lia.
  cbn [FtpConfig.join_lines append].
  repeat first [rewrite append_assoc | progress (cbn [append])]. reflexivity.
Qed.

Lemma level_mtime_facts (c : FtpConfig.t) :
  0 <= FtpConfig.m_deflateLevel c ->
  FtpConfig.strip (FtpConfig.level_mtime c) = FtpConfig.level_mtime c /\
  Str.all_digits (FtpConfig.level_mtime c) = false /\
  Str.mem FtpConfig.LF (FtpConfig.level_mtime c) = false /\
  Str.mem FtpConfig.CR (FtpConfig.level_mtime c) = false.
Proof.
  intro Hl. unfold FtpConfig.level_mtime.
  pose proof (dec_digits _ Hl) as D.
  pose proof (dec_not_empty (FtpConfig.m_deflateLevel c)) as N.
  assert (M : forall x, Str.isdigit x = false ->
            Str.mem x (Printf.dec (FtpConfig.m_deflateLevel c)) = false)
    by (intros x Hx; now apply all_digits_mem).
  split; [|split; [|split]].
  - apply strip_id.
    + destruct (Printf.dec (FtpConfig.m_deflateLevel c)) as [|d r];
        [now elim N|].
      cbn [Str.all_digits] in D. apply andb_prop in D as [Dd _].
      cbn [append Str.head FtpConfig.keeps_end].
      now rewrite (isdigit_not_blank _ Dd).
    + generalize (Printf.dec (FtpConfig.m_deflateLevel c)). intro s.
      induction s as [|x [|y s] IH].
      * now destruct (FtpConfig.m_getMTime c).
      * now destruct (FtpConfig.m_getMTime c).
      * exact IH.
  - rewrite all_digits_app, D. now destruct (FtpConfig.m_getMTime c).
  - rewrite mem_app, M by reflexivity. now destruct (FtpConfig.m_getMTime c).
  - rewrite mem_app, M by reflexivity. now destruct (FtpConfig.m_getMTime c).
Qed.

(** On a [_3DS] build, whatever level [save] wrote, [load] returns 6. *)
Lemma save_load_3DS_level_lost (c : FtpConfig.t) (fuel : nat) :
  FtpConfig.storable (FtpConfig.user c) = true ->
  FtpConfig.storable (FtpConfig.pass c) = true ->
  0 <= FtpConfig.port c <= FtpConfig.UINT16_MAX ->
  0 <= FtpConfig.deflateLevel c <= 9 ->
  (4 < fuel)%nat ->
  exists c',
    FtpConfig.load NDS true getMTime_init readLine fuel
      (snd (FtpConfig.save true true true c)) = Some c' /\
    FtpConfig.deflateLevel c' = 6.
Proof.
  unfold FtpConfig.user, FtpConfig.pass, FtpConfig.port, FtpConfig.deflateLevel.
  intros Hu Hp Hr Hl Hf.
  cbn [FtpConfig.save negb snd].
  rewrite (save_text_lines_3DS c Hu Hp Hl).
  pose proof (storable_spec _ Hu) as (Nu & Lu & Cu & _ & Su).
  pose proof (storable_spec _ Hp) as (Np & Lp & Cp & _ & Sp).
  destruct (level_mtime_facts c (proj1 Hl)) as (Sm & Dm & Lm & Cm).
  set (lines := [_; _; _; _]).
  assert (RL : FtpConfig.read_lines readLine fuel
                 (FtpConfig.join_lines lines ++ String FtpConfig.LF "")
               = Some lines).
  { apply read_lines_join_LF; [|discriminate|simpl; lia].
    apply Forall_cons; [now apply plain_key_value|].
    apply Forall_cons; [now apply plain_key_value|].
    apply Forall_cons;
      [apply plain_key_number; [reflexivity | reflexivity | lia]|].
    apply Forall_cons; [now apply plain_key_value|].
    apply Forall_nil. }
  destruct (FtpConfig.load NDS true getMTime_init readLine fuel
              (Some (FtpConfig.join_lines lines ++ String FtpConfig.LF "")))
    as [c'|] eqn:L.
  - exists c'. split; [reflexivity|].
    apply (proj2 (load_defaults_kept NDS true getMTime_init readLine
                    fuel _ lines c' RL L)).
    intros line val I S.
    destruct I as [<- | [<- | [<- | [<- | []]]]];
      rewrite split_line_app in S by reflexivity;
      try (vm_compute in S; discriminate).
    rewrite Sm in S. injection S as <-. right; left. exact Dm.
  - exfalso. unfold FtpConfig.load in L.
    rewrite load_loop_fold, RL in L. cbn [option_map] in L.
    destruct (FtpConfig.setPort _ _ _ _) as [[ok c1] e].
    destruct (FtpConfig.setDeflateLevel c1 _) as [ok' c2]. discriminate.
Qed.

End RoundTrip.

(** The round trip through [Lines.readLine], without [_3DS]. *)
Lemma Lines_save_load_roundtrip (NDS getMTime_init : bool) (c : FtpConfig.t) :
  FtpConfig.storable (FtpConfig.user c) = true ->
  FtpConfig.storable (FtpConfig.pass c) = true ->
  0 <= FtpConfig.port c <= FtpConfig.UINT16_MAX ->
  fst (fst (FtpConfig.setPort NDS false c (FtpConfig.port c))) = true ->
  0 <= FtpConfig.deflateLevel c <= 9 ->
  exists c',
    FtpConfig.load NDS false getMTime_init Lines.readLine 5
      (snd (FtpConfig.save false true true c)) = Some c' /\
    FtpConfig.user c' = FtpConfig.user c /\
    FtpConfig.pass c' = FtpConfig.pass c /\
    FtpConfig.port c' = FtpConfig.port c /\
    FtpConfig.deflateLevel c' = FtpConfig.deflateLevel c.
Proof.
  intros Hu Hp Hr Ha Hl.
  apply (save_load_roundtrip NDS getMTime_init Lines.readLine
           Lines_readLine_line Lines_readLine_last eq_refl c 5%nat);
    try assumption. lia.
Qed.

Example save_load_linux :
  let c := FtpConfig.mk "anonymous" "s3cret pass" 0 9 true in
  FtpConfig.load false false true Lines.readLine 5
    (snd (FtpConfig.save false true true c)) = Some c.
Proof. vm_compute. reflexivity. Qed.

(** C2 on a [_3DS] build.  [save] prints ["deflateLevel=%u"] without a line
    feed and then ["mtime=%u\n"], so the file ends in the line
    [deflateLevel=3mtime=1]; [load] cannot parse its value and returns the
    default level 6 in place of the 3 that was saved.  User, password and
    port come back as saved. *)
Theorem save_load_3DS_drops_deflateLevel :
  let c := FtpConfig.mk "user" "secret" 5000 3 true in
  FtpConfig.storable (FtpConfig.user c) = true /\
  FtpConfig.storable (FtpConfig.pass c) = true /\
  fst (fst (FtpConfig.setPort false true c (FtpConfig.port c))) = true /\
  FtpConfig.save true true true c =
    (true,
     Some (FtpConfig.join_lines
             ["user=user"; "pass=secret"; "port=5000"; "deflateLevel=3mtime=1"]
           ++ String FtpConfig.LF "")) /\
  FtpConfig.load false true true Lines.readLine 6
    (snd (FtpConfig.save true true true c))
    = Some (FtpConfig.mk "user" "secret" 5000 6 true) /\
  FtpConfig.deflateLevel c = 3.
Proof. vm_compute. repeat split; reflexivity. Qed.

(** ** The fractional digits of [fs::printSize] *)

Lemma dec_small (x : Z) :
  0 <= x <= 9 ->
  Str.all_digits (Printf.dec x) = true /\ String.length (Printf.dec x) = 1%nat.
Proof.
  intro H. split; [apply dec_digits; lia|].
  unfold Printf.dec. cbn [Printf.dec_loop].
  destruct (Z.ltb_spec x 10); [reflexivity | lia].
Qed.

Lemma dec02_small (x : Z) :
  0 <= x <= 99 ->
  Str.all_digits (Printf.dec02 x) = true /\
  String.length (Printf.dec02 x) = 2%nat.
Proof.
  intro H. unfold Printf.dec02.
  destruct (Z.ltb_spec x 10) as [L|L].
  - destruct (dec_small x ltac:(lia)) as [D E].
    cbn [Str.all_digits String.length]. now rewrite D, E.
  - split; [apply dec_digits; lia|].
    assert (I : In (Z.to_nat x) (seq 10 90)) by (apply in_seq; lia).
    assert (A : forallb (fun n => Nat.eqb (String.length (Printf.dec (Z.of_nat n))) 2)
                  (seq 10 90) = true) by (vm_compute; reflexivity).
    rewrite forallb_forall in A. specialize (A _ I).
    rewrite Z2Nat.id in A by lia. now apply Nat.eqb_eq.
Qed.

(** One pass of the loop of [printSize] for a unit whose hundredfold still
    fits 64 bits. *)
Lemma printSize_loop_shown (us : list (string * Z)) (size_ : Z) (s : string) :
  0 <= size_ < 2 ^ 64 ->
  Forall (fun u => 0 < snd u /\ 100 * snd u < 2 ^ 64) us ->
  fs.printSize_loop us size_ = Some s ->
  exists name bin, In (name, bin) us /\ fs.shown_in name bin size_ s.
Proof.
  intros R F. induction F as [|[name bin] us [Hb Hw] F IH]; [discriminate|].
  cbn [snd] in Hb, Hw. cbn [fs.printSize_loop].
  assert (IH' : fs.printSize_loop us size_ = Some s ->
                exists name0 bin0, In (name0, bin0) ((name, bin) :: us) /\
                                   fs.shown_in name0 bin0 size_ s).
  { intro L. destruct (IH L) as (n & b & I & S). exists n, b.
    split; [now right | exact S]. }
  pose proof (Z.div_mod size_ bin ltac:(lia)) as Hdm.
  pose proof (Z.mod_pos_bound size_ bin Hb) as Hm.
  assert (Hq : 0 <= size_ / bin) by (apply Z.div_pos; lia).
  set (q := size_ / bin) in *. set (r := size_ mod bin) in *.
  assert (Hqb : q * bin <= size_) by nia.
  assert (Efrac : fs.u64 (size_ - fs.u64 (q * bin)) = r).
  { unfold fs.u64. rewrite (Z.mod_small (q * bin)) by nia.
    rewrite Z.mod_small by nia. nia. }
  unfold fs.u64 at 1. rewrite (Z.mod_small (100 * bin)) by lia.
  destruct (Z.leb_spec (100 * bin) size_) as [H100|H100].
  { intro E; injection E as <-. exists name, bin. split; [now left|].
    unfold fs.shown_in. fold q.
    destruct (Z.leb_spec 100 q); [reflexivity | nia]. }
  unfold fs.u64 at 1. rewrite (Z.mod_small (10 * bin)) by lia.
  destruct (Z.leb_spec (10 * bin) size_) as [H10|H10].
  { intro E; injection E as <-. exists name, bin. split; [now left|].
    unfold fs.shown_in. fold q. rewrite Efrac.
    destruct (Z.leb_spec 100 q); [nia|].
    destruct (Z.leb_spec 10 q); [|nia].
    unfold fs.u64. rewrite (Z.mod_small (r * 10)) by nia.
    assert (0 <= r * 10 / bin <= 9).
    { split; [apply Z.div_pos; lia|].
      apply Z.lt_succ_r. apply Z.div_lt_upper_bound; lia. }
    destruct (dec_small (r * 10 / bin)) as [D L]; [assumption|].
    eexists. split; [exact D|]. split; [exact L | reflexivity]. }
  destruct (fs.u64 (1000 * (bin / fs.KiB)) <=? size_); [|exact IH'].
  intro E; injection E as <-. exists name, bin. split; [now left|].
  unfold fs.shown_in. fold q. rewrite Efrac.
  destruct (Z.leb_spec 100 q); [nia|].
  destruct (Z.leb_spec 10 q); [nia|].
  unfold fs.u64. rewrite (Z.mod_small (r * 100)) by nia.
  assert (0 <= r * 100 / bin <= 99).
  { split; [apply Z.div_pos; lia|].
    apply Z.lt_succ_r. apply Z.div_lt_upper_bound; lia. }
  destruct (dec02_small (r * 100 / bin)) as [D L]; [assumption|].
  eexists. split; [exact D|]. split; [exact L | reflexivity].
Qed.

(** Below 4 EiB the number of fractional digits follows the whole part. *)
Lemma printSize_fraction_digits_below_4EiB (size_ : Z) :
  1000 <= size_ < 4 * 2 ^ 60 ->
  fs.fraction_digits_rule size_ (fs.printSize size_).
Proof.
  intro R. unfold fs.printSize.
  destruct (fs.printSize_loop fs.units size_) as [s|] eqn:L.
  2:{ exfalso. revert L. apply printSize_loop_some.
      unfold fs.units. do 5 apply Exists_cons_tl. apply Exists_cons_hd.
      simpl snd. change (fs.u64 (1000 * (fs.KiB / fs.KiB))) with 1000. lia. }
  unfold fs.units in L.
  set (rest := [("PiB", fs.PiB); _; _; _; _]) in L.
  cbn [fs.printSize_loop] in L.
  change (fs.u64 (100 * fs.EiB)) with (4 * 2 ^ 60) in L.
  change (fs.u64 (10 * fs.EiB)) with (10 * 2 ^ 60) in L.
  change (fs.u64 (1000 * (fs.EiB / fs.KiB))) with (1000 * 2 ^ 50) in L.
  change fs.EiB with (2 ^ 60) in L.
  destruct (Z.leb_spec (4 * 2 ^ 60) size_); [lia|].
  destruct (Z.leb_spec (10 * 2 ^ 60) size_); [lia|].
  destruct (Z.leb_spec (1000 * 2 ^ 50) size_).
  - injection L as <-. exists "EiB", fs.EiB. split; [now left|].
    unfold fs.shown_in. change fs.EiB with (2 ^ 60).
    assert (0 <= size_ / 2 ^ 60 < 4).
    { split; [apply Z.div_pos; lia | apply Z.div_lt_upper_bound; lia]. }
    destruct (Z.leb_spec 100 (size_ / 2 ^ 60)); [lia|].
    destruct (Z.leb_spec 10 (size_ / 2 ^ 60)); [lia|].
    match goal with
    | |- context [Printf.dec02 (fs.u64 ?y / ?b)] =>
        assert (HB : 0 <= fs.u64 y < 2 ^ 64)
          by (apply Z.mod_pos_bound; lia);
        destruct (dec02_small (fs.u64 y / b)) as [D E]
    end.
    { split; [apply Z.div_pos; lia|].
      apply Z.lt_succ_r. apply Z.div_lt_upper_bound; lia. }
    eexists. split; [exact D|]. split; [exact E | reflexivity].
  - apply printSize_loop_shown in L; [| lia |].
    + destruct L as (n & b & I & S). exists n, b. split; [now right | exact S].
    + subst rest.
      repeat (apply Forall_cons; [vm_compute; split; reflexivity|]).
      apply Forall_nil.
Qed.

(** C7 at 4 EiB.  The test [size_ >= 100 * bin] is computed in 64 bits,
    where [100 * EiB] is [4 * EiB]; from 4 EiB on [printSize] prints the
    whole part alone, although it is below 100. *)
Theorem printSize_4EiB_no_fraction_digits :
  fs.u64 (100 * fs.EiB) = 4 * fs.EiB /\
  (4 * 2 ^ 60) / fs.EiB = 4 /\
  fs.printSize (4 * 2 ^ 60) = "4EiB" /\
  fs.printSize (12 * 2 ^ 60) = "12EiB" /\
  ~ fs.fraction_digits_rule (4 * 2 ^ 60) (fs.printSize (4 * 2 ^ 60)).
Proof.
  split; [now vm_compute|]. split; [now vm_compute|].
  split; [now vm_compute|]. split; [now vm_compute|].
  intros (name & bin & I & S).
  change (fs.printSize (4 * 2 ^ 60)) with "4EiB" in S.
  unfold fs.units in I. simpl in I.
  repeat (destruct I as [I | I];
          [injection I as <- <-; vm_compute in S;
           first [discriminate | destruct S as (d & _ & _ & S); discriminate]|]).
  exact I.
Qed.

(** ** Sample outputs *)

Example printSize_999 : fs.printSize 999 = "999".
Proof. vm_compute. reflexivity. Qed.

Example printSize_1000 : fs.printSize 1000 = "0.97KiB".
Proof. vm_compute. reflexivity. Qed.

Example printSize_10_5_MiB :
  fs.printSize (10 * 1024 * 1024 + 512 * 1024) = "10.5MiB".
Proof. vm_compute. reflexivity. Qed.

Example printSize_100_KiB : fs.printSize (100 * 1024) = "100KiB".
Proof. vm_compute. reflexivity. Qed.

Example printSize_u64_max : fs.printSize (2 ^ 64 - 1) = "15EiB".
Proof. vm_compute. reflexivity. Qed.

Example load_port_overridden_by_refused_one :
  let file := "port=6000" ++ String FtpConfig.LF "port=80" in
  option_map FtpConfig.port
    (FtpConfig.load false false true Lines.readLine 5 (Some file)) = Some 5000.
Proof. vm_compute. reflexivity. Qed.

Example load_port_kept_over_garbage :
  let file := "port=6000" ++ String FtpConfig.LF "port=abc" in
  option_map FtpConfig.port
    (FtpConfig.load false false true Lines.readLine 5 (Some file)) = Some 6000.
Proof. vm_compute. reflexivity. Qed.

(* ================================================================= *)
(** * Further properties *)

(** ** [parseInt] *)

(** X1.  [parseInt<T>] returns true exactly for a non-empty string of
    decimal digits whose value is at most the maximum of [T], and then
    stores that value, leading zeros included; it fails with [EINVAL] on the
    empty string, with [EOVERFLOW] on a digit string above the maximum, and
    fails on every string with a character that is not a digit. *)
Theorem parseInt_accepts_decimal_numbers_up_to_max (max : Z) (s : string) :
  0 <= max ->
  (forall v, FtpConfig.parseInt max s = inl v <->
     s <> "" /\ Str.all_digits s = true /\ Str.decimal_value s = v /\ v <= max) /\
  (s = "" -> FtpConfig.parseInt max s = inr FtpConfig.EINVAL) /\
  (s <> "" -> Str.all_digits s = true -> max < Str.decimal_value s ->
     FtpConfig.parseInt max s = inr FtpConfig.EOVERFLOW) /\
  (Str.all_digits s = false -> exists e, FtpConfig.parseInt max s = inr e).
Proof.
  intro Hm. split; [|split; [|split]].
  - intro v. split.
    + intro P. apply parseInt_inl in P; [|assumption].
      destruct P as (A & B & C & D). now repeat split.
    + intros (A & B & C & D). rewrite parseInt_spec by assumption.
      apply is_empty_false in A. rewrite A, B. subst v.
      destruct (Z.leb_spec (Str.decimal_value s) max); [reflexivity | lia].
  - intros ->. reflexivity.
  - intros A B C. rewrite parseInt_spec by assumption.
    apply is_empty_false in A. rewrite A, B.
    destruct (Z.leb_spec (Str.decimal_value s) max); [lia | reflexivity].
  - intro D. apply parseInt_fails; [assumption | now right; left].
Qed.

Lemma parseInt_accepts_decimal_numbers_up_to_max_witness :
  FtpConfig.parseInt 65535 "08080" = inl 8080 /\
  FtpConfig.parseInt 65535 "65536" = inr FtpConfig.EOVERFLOW.
Proof.
  destruct (parseInt_accepts_decimal_numbers_up_to_max 65535 "08080"
              ltac:(lia)) as (A & _).
  destruct (parseInt_accepts_decimal_numbers_up_to_max 65535 "65536"
              ltac:(lia)) as (_ & _ & C & _).
  split.
  - apply A. repeat split; [discriminate | vm_compute; discriminate].
  - apply C; [discriminate | reflexivity | reflexivity].
Defined.

(** X2.  [parseInt<T>] reads back what ["%u"] prints: for every value from
    0 to the maximum of [T] the printed digits parse to that value, and for
    every larger value they are refused with [EOVERFLOW]. *)
Theorem parseInt_reads_back_printed_number (max n : Z) :
  0 <= max -> 0 <= n ->
  FtpConfig.parseInt max (Printf.dec n) =
    if n <=? max then inl n else inr FtpConfig.EOVERFLOW.
Proof.
  intros Hm Hn. rewrite parseInt_spec by assumption.
  destruct (Str.is_empty (Printf.dec n)) eqn:E.
  { apply is_empty_true in E. now apply dec_not_empty in E. }
  now rewrite dec_digits, dec_value by assumption.
Qed.

Lemma parseInt_reads_back_printed_number_witness :
  FtpConfig.parseInt 65535 (Printf.dec 5000) = inl 5000 /\
  FtpConfig.parseInt 65535 (Printf.dec 70000) = inr FtpConfig.EOVERFLOW.
Proof.
  split.
  - exact (parseInt_reads_back_printed_number 65535 5000 ltac:(lia) ltac:(lia)).
  - exact (parseInt_reads_back_printed_number 65535 70000 ltac:(lia) ltac:(lia)).
Defined.

Lemma fixed_parseInt_loop (conv : Z -> Z) (max : Z) (s : string) (val : Z) :
  (forall x, 0 <= x <= max -> conv x = x) ->
  0 <= val <= max ->
  Fixed.parseInt_loop conv max val s = FtpConfig.parseInt_loop max val s.
Proof.
  intro Hc. revert val; induction s as [|c s IH]; intros val Hv; simpl;
    [reflexivity|].
  destruct (Str.isdigit c) eqn:D; simpl; [|reflexivity].
  pose proof (isdigit_value _ D) as Hd.
  destruct (Z.ltb_spec (max / 10) val) as [H|H]; [reflexivity|].
  assert (Hm : 0 <= val * 10 <= max) by (Z.div_mod_to_equations; lia).
  rewrite (Hc _ Hm).
  destruct (Z.ltb_spec (max - Str.digit_value c) (val * 10)) as [H'|H'];
    [reflexivity|].
  rewrite (Hc (val * 10 + Str.digit_value c)) by lia.
  apply IH. lia.
Qed.

(** X3.  The two guards of [parseInt] keep every intermediate value within
    the type: computed in 16-bit unsigned arithmetic (for the port) or in
    32-bit two's complement (for the level), with the conversion applied at
    every assignment, [parseInt] gives the result of the computation in
    unbounded integers. *)
Theorem parseInt_never_wraps (s : string) :
  Fixed.parseInt Fixed.u16 FtpConfig.UINT16_MAX s
    = FtpConfig.parseInt FtpConfig.UINT16_MAX s /\
  Fixed.parseInt Fixed.i32 FtpConfig.INT_MAX s
    = FtpConfig.parseInt FtpConfig.INT_MAX s.
Proof.
  unfold Fixed.parseInt, FtpConfig.parseInt.
  destruct (Str.is_empty s); [now split|].
  split; apply fixed_parseInt_loop;
    unfold FtpConfig.UINT16_MAX, FtpConfig.INT_MAX, Fixed.u16, Fixed.i32;
    try lia; intros x Hx.
  - apply Z.mod_small. lia.
  - rewrite Z.mod_small; lia.
Qed.

(** ** [strip] *)

Lemma all_in_app (set a b : string) :
  Text.all_in set (a ++ b) = Text.all_in set a && Text.all_in set b.
Proof.
  induction a as [|c a IH]; simpl; [reflexivity|].
  now rewrite IH, andb_assoc.
Qed.

Lemma trim_left_split (set s : string) :
  exists a, s = a ++ Text.trim_left set s /\ Text.all_in set a = true.
Proof.
  induction s as [|c r (a & E & A)]; [now exists ""|].
  cbn [Text.trim_left]. destruct (Str.mem c set) eqn:M.
  - exists (String c a). cbn [append Text.all_in]. rewrite M, A.
    split; [now f_equal | reflexivity].
  - now exists "".
Qed.

Lemma trim_right_split (set s : string) :
  exists b, s = Text.trim_right set s ++ b /\ Text.all_in set b = true.
Proof.
  induction s as [|c r (b & E & B)]; [now exists ""|].
  cbn [Text.trim_right]. destruct (Text.trim_right set r) as [|d t] eqn:T.
  - destruct (Str.mem c set) eqn:M.
    + exists (String c r). split; [reflexivity|].
      cbn [Text.all_in]. rewrite M. simpl in E. now rewrite E.
    + exists b. split; [simpl in *; now f_equal | exact B].
  - exists b. split; [|exact B]. cbn [append]. now f_equal.
Qed.

Lemma trim_right_last (set s : string) :
  Text.trim_right set s = "" \/
  exists l, Str.last (Text.trim_right set s) = Some l /\ Str.mem l set = false.
Proof.
  induction s as [|c r IH]; [now left|].
  cbn [Text.trim_right]. destruct (Text.trim_right set r) as [|d t] eqn:T.
  - destruct (Str.mem c set) eqn:M; [now left|].
    right. exists c. now split.
  - right. destruct IH as [IH | (l & L & M)]; [discriminate|].
    exists l. split; [exact L | exact M].
Qed.

Lemma trim_right_head (set s : string) (c : ascii) :
  Str.head s = Some c -> Str.mem c set = false ->
  Str.head (Text.trim_right set s) = Some c.
Proof.
  destruct s as [|d r]; [discriminate|].
  intros H M. injection H as ->. cbn [Text.trim_right].
  destruct (Text.trim_right set r); [now rewrite M | reflexivity].
Qed.

Lemma trim_left_head (set s : string) :
  Text.trim_left set s = "" \/
  exists c, Str.head (Text.trim_left set s) = Some c /\ Str.mem c set = false.
Proof.
  induction s as [|c r IH]; [now left|].
  cbn [Text.trim_left]. destruct (Str.mem c set) eqn:M; [exact IH|].
  right. exists c. now split.
Qed.

Lemma find_first_not_of_trim (s set : string) :
  match Str.find_first_not_of s set with
  | None => Text.trim_left set s = ""
  | Some i => Str.drop i s = Text.trim_left set s /\ Text.trim_left set s <> ""
  end.
Proof.
  induction s as [|c r IH]; [reflexivity|].
  cbn [Str.find_first_not_of Text.trim_left].
  destruct (Str.mem c set); [|split; [reflexivity | discriminate]].
  destruct (Str.find_first_not_of r set); exact IH.
Qed.

Lemma find_last_not_of_trim (s set : string) :
  match Str.find_last_not_of s set with
  | None => Text.trim_right set s = ""
  | Some j => Str.take (S j) s = Text.trim_right set s
  end.
Proof.
  induction s as [|c r IH]; [reflexivity|].
  cbn [Str.find_last_not_of Text.trim_right].
  destruct (Str.find_last_not_of r set) as [j|] eqn:L.
  - change (Str.take (S (S j)) (String c r))
      with (String c (Str.take (S j) r)).
    rewrite IH.
    destruct r as [|d r']; [discriminate L|].
    destruct (Text.trim_right set (String d r')) eqn:T; [|reflexivity].
    discriminate IH.
  - rewrite IH. destruct (Str.mem c set); [reflexivity|].
    now destruct r.
Qed.

Lemma find_last_none_first_none (s set : string) :
  Str.find_last_not_of s set = None -> Str.find_first_not_of s set = None.
Proof.
  induction s as [|c r IH]; [reflexivity|].
  cbn [Str.find_last_not_of Str.find_first_not_of].
  destruct (Str.find_last_not_of r set); [discriminate|].
  destruct (Str.mem c set); [|discriminate].
  intros _. now rewrite IH.
Qed.

Lemma take_window (s set : string) (i j : nat) :
  Str.find_first_not_of s set = Some i ->
  Str.find_last_not_of s set = Some j ->
  Str.take (S j - i) (Str.drop i s) = Text.trim_right set (Str.drop i s).
Proof.
  revert i j; induction s as [|c r IH]; intros i j; [discriminate|].
  cbn [Str.find_first_not_of Str.find_last_not_of].
  destruct (Str.mem c set) eqn:M.
  - destruct (Str.find_first_not_of r set) as [i'|] eqn:F; [|discriminate].
    destruct (Str.find_last_not_of r set) as [j'|] eqn:L; [|discriminate].
    intros Ei Ej. injection Ei as <-. injection Ej as <-.
    cbn [Str.drop]. replace (S (S j') - S i')%nat with (S j' - i')%nat by lia.
    now apply IH.
  - intros Ei Ej. injection Ei as <-. rewrite drop_0, Nat.sub_0_r.
    pose proof (find_last_not_of_trim (String c r) set) as T.
    cbn [Str.find_last_not_of] in T. rewrite M in T.
    destruct (Str.find_last_not_of r set) as [j'|]; injection Ej as <-; exact T.
Qed.

Lemma trim_left_all_in (set s : string) :
  Text.all_in set s = true -> Text.trim_left set s = "".
Proof.
  induction s as [|c r IH]; [reflexivity|].
  cbn [Text.all_in Text.trim_left]. intro A.
  apply andb_prop in A as [Mc Ar]. rewrite Mc. now apply IH.
Qed.

(** [strip] removes the blanks at both ends. *)
Lemma strip_trim (s : string) :
  FtpConfig.strip s
    = Text.trim_right FtpConfig.blanks (Text.trim_left FtpConfig.blanks s).
Proof.
  unfold FtpConfig.strip.
  pose proof (find_first_not_of_trim s FtpConfig.blanks) as F.
  destruct (Str.find_first_not_of s FtpConfig.blanks) as [i|] eqn:Ef.
  - destruct F as [F _].
    destruct (Str.find_last_not_of s FtpConfig.blanks) as [j|] eqn:El.
    + unfold Str.substr. rewrite (take_window _ _ _ _ Ef El). now rewrite F.
    + apply find_last_none_first_none in El. congruence.
  - now rewrite F.
Qed.

Lemma strip_ends (s : string) :
  FtpConfig.strip s = "" \/
  (FtpConfig.keeps_end (Str.head (FtpConfig.strip s)) = true /\
   FtpConfig.keeps_end (Str.last (FtpConfig.strip s)) = true).
Proof.
  rewrite strip_trim.
  destruct (trim_left_head FtpConfig.blanks s) as [E | (c & H & M)].
  - left. now rewrite E.
  - right. rewrite (trim_right_head _ _ _ H M).
    split; [cbn [FtpConfig.keeps_end]; now rewrite M|].
    destruct (trim_right_last FtpConfig.blanks
                (Text.trim_left FtpConfig.blanks s)) as [E | (l & L & Ml)].
    + pose proof (trim_right_head _ _ _ H M) as H'. rewrite E in H'.
      discriminate.
    + rewrite L. cbn [FtpConfig.keeps_end]. now rewrite Ml.
Qed.

Lemma strip_split (s : string) :
  exists a b,
    s = a ++ FtpConfig.strip s ++ b /\
    Text.all_in FtpConfig.blanks a = true /\
    Text.all_in FtpConfig.blanks b = true.
Proof.
  rewrite strip_trim.
  destruct (trim_left_split FtpConfig.blanks s) as (a & Ea & A).
  destruct (trim_right_split FtpConfig.blanks
              (Text.trim_left FtpConfig.blanks s)) as (b & Eb & B).
  exists a, b. split; [|now split]. now rewrite <- Eb.
Qed.

Lemma strip_idem (s : string) :
  FtpConfig.strip (FtpConfig.strip s) = FtpConfig.strip s.
Proof.
  destruct (strip_ends s) as [E | [H L]]; [now rewrite E | now apply strip_id].
Qed.

(** X4.  [strip] cuts blanks off both ends and nothing else: the argument is
    the result between a run of spaces and tabs and another one, and the
    result, when not empty, neither starts nor ends with a space or tab.
    The result is empty exactly when the argument has only spaces and tabs,
    and stripping twice is stripping once. *)
Theorem strip_removes_surrounding_blanks (s : string) :
  (exists a b,
     s = a ++ FtpConfig.strip s ++ b /\
     Text.all_in FtpConfig.blanks a = true /\
     Text.all_in FtpConfig.blanks b = true) /\
  (FtpConfig.strip s = "" \/
   (FtpConfig.keeps_end (Str.head (FtpConfig.strip s)) = true /\
    FtpConfig.keeps_end (Str.last (FtpConfig.strip s)) = true)) /\
  (FtpConfig.strip s = "" <-> Text.all_in FtpConfig.blanks s = true) /\
  FtpConfig.strip (FtpConfig.strip s) = FtpConfig.strip s.
Proof.
  split; [apply strip_split|]. split; [apply strip_ends|]. split.
  - split.
    + intro E. destruct (strip_split s) as (a & b & Es & A & B).
      rewrite Es, E, all_in_app, A. exact B.
    + intro A. unfold FtpConfig.strip.
      pose proof (find_first_not_of_trim s FtpConfig.blanks) as F.
      destruct (Str.find_first_not_of s FtpConfig.blanks) as [i|];
        [|reflexivity].
      destruct F as [_ F]. exfalso. apply F. now apply trim_left_all_in.
  - apply strip_idem.
Qed.

(** ** The setters that take a string *)

Lemma setPort_true_allowed (NDS _3DS : bool) (c : FtpConfig.t) (p : Z) :
  fst (fst (FtpConfig.setPort NDS _3DS c p)) = true ->
  FtpConfig.port_allowed NDS _3DS p.
Proof.
  unfold FtpConfig.setPort, FtpConfig.port_allowed.
  destruct (Z.ltb_spec p 1024); [|intros _; now left].
  destruct NDS, _3DS; simpl; try discriminate.
  destruct (Z.eqb_spec p 0); simpl; [intros _; right; now split | discriminate].
Qed.

(** X5.  [setPort (std::string const &)] returns true exactly for a
    non-empty digit string whose value fits 16 bits and is a port the build
    allows, and then stores that value.  Otherwise the object is left as it
    was and [errno] says why: [EINVAL] for the empty string, [EOVERFLOW] for
    a number above 65535, [EPERM] for a number the build does not allow. *)
Theorem setPort_string_accepts_allowed_numbers
    (NDS _3DS : bool) (c : FtpConfig.t) (s : string) :
  let r := FtpConfig.setPort_str NDS _3DS c s in
  (fst (fst r) = true <->
     s <> "" /\ Str.all_digits s = true /\
     Str.decimal_value s <= 65535 /\
     FtpConfig.port_allowed NDS _3DS (Str.decimal_value s)) /\
  (fst (fst r) = true ->
     snd (fst r) = FtpConfig.with_port c (Str.decimal_value s)) /\
  (fst (fst r) = false -> snd (fst r) = c /\ snd r <> None) /\
  (s = "" -> r = (false, c, Some FtpConfig.EINVAL)) /\
  (s <> "" -> Str.all_digits s = true -> 65535 < Str.decimal_value s ->
     r = (false, c, Some FtpConfig.EOVERFLOW)) /\
  (s <> "" -> Str.all_digits s = true -> Str.decimal_value s <= 65535 ->
     ~ FtpConfig.port_allowed NDS _3DS (Str.decimal_value s) ->
     r = (false, c, Some FtpConfig.EPERM)).
Proof.
  cbv zeta. unfold FtpConfig.setPort_str.
  assert (Hm : 0 <= FtpConfig.UINT16_MAX) by (unfold FtpConfig.UINT16_MAX; lia).
  destruct (FtpConfig.parseInt FtpConfig.UINT16_MAX s) as [p|e] eqn:P.
  - apply parseInt_inl in P as (Hne & Hd & -> & Hle); [|exact Hm].
    unfold FtpConfig.UINT16_MAX in Hle.
    split; [|split; [|split; [|split; [|split]]]].
    + split.
      * intro T. apply setPort_true_allowed in T. now repeat split.
      * intros (_ & _ & _ & A). now rewrite (setPort_accepts _ _ _ _ A).
    + intro T. apply setPort_true_allowed in T.
      now rewrite (setPort_accepts _ _ _ _ T).
    + unfold FtpConfig.setPort.
      destruct ((_ <? 1024) && _); [intros _; split; [reflexivity | discriminate]
                                   | discriminate].
    + congruence.
    + lia.
    + intros _ _ _ N. apply setPort_rejects_not_allowed. exact N.
  - assert (F : s = "" \/ Str.all_digits s = false \/
                FtpConfig.UINT16_MAX < Str.decimal_value s).
    { destruct s as [|x s']; [now left|]. right.
      destruct (Str.all_digits (String x s')) eqn:D; [|now left]. right.
      rewrite parseInt_spec in P by exact Hm. cbn [Str.is_empty] in P.
      rewrite D in P.
      destruct (Z.leb_spec (Str.decimal_value (String x s')) FtpConfig.UINT16_MAX);
        [discriminate | assumption]. }
    unfold FtpConfig.UINT16_MAX in F. cbn [fst snd].
    split; [|split; [|split; [|split; [|split]]]].
    + split; [discriminate|]. intros (A & B & C & _).
      destruct F as [F | [F | F]]; [congruence | congruence | lia].
    + discriminate.
    + intros _. split; [reflexivity | discriminate].
    + intros ->. vm_compute in P. congruence.
    + intros A B C. rewrite parseInt_spec in P by exact Hm.
      apply is_empty_false in A. rewrite A, B in P.
      unfold FtpConfig.UINT16_MAX in P.
      destruct (Z.leb_spec (Str.decimal_value s) 65535); [lia | congruence].
    + intros A B C _. destruct F as [F | [F | F]]; [congruence | congruence | lia].
Qed.

(** X6.  [setDeflateLevel (std::string const &)] returns true exactly for a
    non-empty digit string whose value is at most 9, and then stores that
    value.  A larger number that still fits an [int] is refused without
    [errno] being written, unlike a refused port. *)
Theorem setDeflateLevel_string_accepts_0_to_9
    (c : FtpConfig.t) (s : string) :
  let r := FtpConfig.setDeflateLevel_str c s in
  (fst (fst r) = true <->
     s <> "" /\ Str.all_digits s = true /\ Str.decimal_value s <= 9) /\
  (fst (fst r) = true ->
     snd (fst r) = FtpConfig.with_deflateLevel c (Str.decimal_value s)) /\
  (s <> "" -> Str.all_digits s = true ->
   9 < Str.decimal_value s <= FtpConfig.INT_MAX ->
     r = (false, c, None)) /\
  (s <> "" -> Str.all_digits s = true ->
   FtpConfig.INT_MAX < Str.decimal_value s ->
     r = (false, c, Some FtpConfig.EOVERFLOW)).
Proof.
  cbv zeta.
  assert (Hm : 0 <= FtpConfig.INT_MAX) by (unfold FtpConfig.INT_MAX; lia).
  assert (Hv : Str.all_digits s = true -> 0 <= Str.decimal_value s).
  { intro D. apply (decimal_from_ge s 0 D). lia. }
  assert (Cases :
    (s = "" /\ FtpConfig.setDeflateLevel_str c s
               = (false, c, Some FtpConfig.EINVAL)) \/
    (s <> "" /\ Str.all_digits s = false /\
     exists e, FtpConfig.setDeflateLevel_str c s = (false, c, Some e)) \/
    (s <> "" /\ Str.all_digits s = true /\
     FtpConfig.INT_MAX < Str.decimal_value s /\
     FtpConfig.setDeflateLevel_str c s = (false, c, Some FtpConfig.EOVERFLOW)) \/
    (s <> "" /\ Str.all_digits s = true /\
     9 < Str.decimal_value s <= FtpConfig.INT_MAX /\
     FtpConfig.setDeflateLevel_str c s = (false, c, None)) \/
    (s <> "" /\ Str.all_digits s = true /\ Str.decimal_value s <= 9 /\
     FtpConfig.setDeflateLevel_str c s
     = (true, FtpConfig.with_deflateLevel c (Str.decimal_value s), None))).
  { unfold FtpConfig.setDeflateLevel_str.
    rewrite parseInt_spec by exact Hm.
    destruct (Str.is_empty s) eqn:E.
    { apply is_empty_true in E. now left. }
    apply is_empty_false in E. right.
    destruct (Str.all_digits s) eqn:D.
    - specialize (Hv eq_refl). right.
      destruct (Z.leb_spec (Str.decimal_value s) FtpConfig.INT_MAX) as [Hi|Hi];
        [|now left].
      right.
      unfold FtpConfig.setDeflateLevel, FtpConfig.Z_NO_COMPRESSION,
        FtpConfig.Z_BEST_COMPRESSION.
      destruct (Z.ltb_spec (Str.decimal_value s) 0); [lia|].
      destruct (Z.ltb_spec 9 (Str.decimal_value s)); cbn [orb].
      + left. repeat split; try assumption; lia.
      + right. repeat split; try assumption; lia.
    - left. split; [exact E|]. split; [reflexivity|].
      destruct (parseInt_fails FtpConfig.INT_MAX s Hm) as [e ->];
        [now right; left | now exists e]. }
  unfold FtpConfig.INT_MAX in *.
  destruct Cases as [(A & ->) | [(A & B & e & ->) | [(A & B & C & ->)
                    | [(A & B & C & ->) | (A & B & C & ->)]]]];
    cbn [fst snd];
    (split; [split; [intro T | intros (A' & B' & C')]
            | split; [intro T
                     | split; [intros A' B' C' | intros A' B' C']]]);
    try congruence; try lia; try reflexivity.
  now repeat split.
Qed.

Lemma substr_before_has_none (s : string) (c : ascii) :
  Str.mem c (Str.substr s 0 (Str.find_first_of s c)) = false.
Proof.
  induction s as [|d r IH]; [reflexivity|].
  cbn [Str.find_first_of]. destruct (Ascii.eqb_spec d c) as [->|N].
  - reflexivity.
  - destruct (Str.find_first_of r c) as [i|] eqn:F.
    + unfold Str.substr in *. rewrite drop_0 in *.
      cbn [Str.take Str.mem]. rewrite IH.
      destruct (Ascii.eqb_spec c d); [congruence | reflexivity].
    + unfold Str.substr in *. rewrite drop_0 in *.
      cbn [Str.mem]. rewrite IH.
      destruct (Ascii.eqb_spec c d); [congruence | reflexivity].
Qed.

(** X7.  What [setUser] and [setPass] store never contains a NUL byte, so
    [c_str ()] (what [save] prints) is all of it, and setting the stored
    value again changes nothing.  Neither touches another member. *)
Theorem setUser_setPass_store_no_NUL (c : FtpConfig.t) (s : string) :
  let u := FtpConfig.user (FtpConfig.setUser c s) in
  let p := FtpConfig.pass (FtpConfig.setPass c s) in
  Str.mem FtpConfig.NUL u = false /\ Str.mem FtpConfig.NUL p = false /\
  FtpConfig.c_str u = u /\ FtpConfig.c_str p = p /\
  FtpConfig.setUser (FtpConfig.setUser c s) u = FtpConfig.setUser c s /\
  FtpConfig.setPass (FtpConfig.setPass c s) p = FtpConfig.setPass c s /\
  FtpConfig.setUser c s = FtpConfig.with_user c u /\
  FtpConfig.setPass c s = FtpConfig.with_pass c p.
Proof.
  cbv zeta. cbn [FtpConfig.user FtpConfig.pass FtpConfig.setUser
                 FtpConfig.setPass FtpConfig.with_user FtpConfig.with_pass
                 FtpConfig.m_user FtpConfig.m_pass].
  pose proof (substr_before_has_none s FtpConfig.NUL) as N.
  pose proof (proj1 (substr_find_first_of _ FtpConfig.NUL) N) as I.
  unfold FtpConfig.c_str, FtpConfig.setUser, FtpConfig.setPass,
    FtpConfig.with_user, FtpConfig.with_pass.
  cbn [FtpConfig.m_user FtpConfig.m_pass FtpConfig.m_port
       FtpConfig.m_deflateLevel FtpConfig.m_getMTime].
  rewrite I. now repeat split.
Qed.

(** ** Lines of the configuration file *)

Lemma mem_strip (c : ascii) (s : string) :
  Str.mem c s = false -> Str.mem c (FtpConfig.strip s) = false.
Proof.
  intro H. destruct (strip_split s) as (a & b & E & _ & _).
  rewrite E, !mem_app in H.
  apply orb_false_elim in H as [_ H]. now apply orb_false_elim in H as [H _].
Qed.

(** X8.  A line is cut at its first ['=']: the key is what precedes it and
    the value all that follows, further ['='] included, each without the
    blanks around it.  So blanks around the key and around the value make
    no difference to what the line does. *)
Theorem line_splits_at_first_equals_sign
    (_3DS : bool) (k v : string) (st : FtpConfig.locals) :
  Str.mem "=" k = false ->
  FtpConfig.split_line (k ++ String "=" v)
    = Some (FtpConfig.strip k, FtpConfig.strip v) /\
  FtpConfig.load_line _3DS (k ++ String "=" v) st
    = FtpConfig.load_line _3DS
        (FtpConfig.strip k ++ String "=" (FtpConfig.strip v)) st.
Proof.
  intro H. split; [now apply split_line_app|].
  unfold FtpConfig.load_line.
  rewrite (split_line_app _ _ H), (split_line_app _ _ (mem_strip _ _ H)).
  now rewrite !strip_idem.
Qed.

Lemma line_splits_at_first_equals_sign_witness :
  let st := FtpConfig.Locals (FtpConfig.mk "" "" 5000 6 true) 5000 6 in
  FtpConfig.split_line (" pass " ++ String "=" " a=b ")
    = Some (FtpConfig.strip " pass ", FtpConfig.strip " a=b ") /\
  FtpConfig.load_line false (" pass " ++ String "=" " a=b ") st
    = FtpConfig.load_line false
        (FtpConfig.strip " pass " ++ String "=" (FtpConfig.strip " a=b ")) st.
Proof.
  intro st.
  exact (line_splits_at_first_equals_sign false " pass " " a=b " st eq_refl).
Defined.

Lemma setPort_string_accepts_allowed_numbers_witness :
  let c := FtpConfig.mk "u" "p" 5000 6 true in
  fst (fst (FtpConfig.setPort_str false false c "8080")) = true /\
  FtpConfig.setPort_str false false c "80" = (false, c, Some FtpConfig.EPERM).
Proof.
  intro c.
  destruct (setPort_string_accepts_allowed_numbers false false c "8080")
    as (A & _).
  destruct (setPort_string_accepts_allowed_numbers false false c "80")
    as (_ & _ & _ & _ & _ & F).
  split.
  - apply A. repeat split; [discriminate | vm_compute; discriminate|].
    left. vm_compute. discriminate.
  - apply F; [discriminate | reflexivity | vm_compute; discriminate|].
    unfold FtpConfig.port_allowed. vm_compute.
    intros [H | [H _]]; [apply H; reflexivity | discriminate].
Defined.

Lemma setDeflateLevel_string_accepts_0_to_9_witness :
  let c := FtpConfig.mk "u" "p" 5000 6 true in
  fst (fst (FtpConfig.setDeflateLevel_str c "7")) = true /\
  FtpConfig.setDeflateLevel_str c "10" = (false, c, None).
Proof.
  intro c.
  destruct (setDeflateLevel_string_accepts_0_to_9 c "7") as (A & _).
  destruct (setDeflateLevel_string_accepts_0_to_9 c "10") as (_ & _ & B & _).
  split.
  - apply A. repeat split; [discriminate | vm_compute; discriminate].
  - apply B; [discriminate | reflexivity|]. vm_compute.
    split; [reflexivity | discriminate].
Defined.

(** ** What [load] makes of a file *)

Section LoadResult.

Variables NDS _3DS getMTime_init : bool.
Variable readLine : string -> string * string.

Local Abbreviation setPort := (FtpConfig.setPort NDS _3DS).
Local Abbreviation load_line := (FtpConfig.load_line _3DS).
Local Abbreviation load_loop := (FtpConfig.load_loop _3DS readLine).
Local Abbreviation read_lines := (FtpConfig.read_lines readLine).
Local Abbreviation load := (FtpConfig.load NDS _3DS getMTime_init readLine).
Local Abbreviation port_allowed := (FtpConfig.port_allowed NDS _3DS).
Local Abbreviation run ls st := (fold_left (fun s l => load_line l s) ls st).

(** The two setters at the end of [load] leave user and password alone. *)
Lemma finish_keeps_credentials (c : FtpConfig.t) (p l : Z) :
  let c' := snd (FtpConfig.setDeflateLevel (snd (fst (setPort c p))) l) in
  FtpConfig.m_user c' = FtpConfig.m_user c /\
  FtpConfig.m_pass c' = FtpConfig.m_pass c.
Proof.
  unfold FtpConfig.setPort, FtpConfig.setDeflateLevel.
  destruct ((p <? 1024) && _); destruct ((l <? _) || _); now split.
Qed.

(** [load] on a file that was opened, by the lines read from it. *)
Lemma load_by_lines (fuel : nat) (content : string) (lines : list string)
    (c : FtpConfig.t) :
  read_lines fuel content = Some lines ->
  load fuel (Some content) = Some c ->
  let st := run lines (FtpConfig.Locals (FtpConfig.create getMTime_init)
                         FtpConfig.DEFAULT_PORT FtpConfig.DEFAULT_DEFLATE_LEVEL) in
  c = snd (FtpConfig.setDeflateLevel
             (snd (fst (setPort (FtpConfig.l_config st) (FtpConfig.l_port st))))
             (FtpConfig.l_deflateLevel st)).
Proof.
  intros RL. unfold FtpConfig.load. rewrite load_loop_fold, RL.
  cbn [option_map]. cbv zeta.
  destruct (setPort _ _) as [[ok c1] e]. cbn [fst snd].
  destruct (FtpConfig.setDeflateLevel c1 _) as [ok' c2].
  intro H. now injection H as <-.
Qed.

(** What a line can change: the user only under the key [user], and so
    on. *)
Lemma load_line_frame (line : string) (st : FtpConfig.locals) :
  ((forall v, FtpConfig.split_line line = Some ("user", v) -> v = "") ->
   FtpConfig.m_user (FtpConfig.l_config (load_line line st))
     = FtpConfig.m_user (FtpConfig.l_config st)) /\
  ((forall v, FtpConfig.split_line line = Some ("pass", v) -> v = "") ->
   FtpConfig.m_pass (FtpConfig.l_config (load_line line st))
     = FtpConfig.m_pass (FtpConfig.l_config st)) /\
  ((forall v, FtpConfig.split_line line = Some ("port", v) ->
      v = "" \/ Str.all_digits v = false \/
      FtpConfig.UINT16_MAX < Str.decimal_value v) ->
   FtpConfig.l_port (load_line line st) = FtpConfig.l_port st) /\
  ((forall v, FtpConfig.split_line line = Some ("deflateLevel", v) ->
      v = "" \/ Str.all_digits v = false \/
      FtpConfig.INT_MAX < Str.decimal_value v) ->
   FtpConfig.l_deflateLevel (load_line line st) = FtpConfig.l_deflateLevel st).
Proof.
  unfold FtpConfig.load_line.
  destruct (FtpConfig.split_line line) as [[key val]|]; [|now repeat split].
  destruct (Str.is_empty key || Str.is_empty val) eqn:E;
    [split; [|split; [|split]]; reflexivity|].
  apply orb_false_elim in E as [_ E]. apply is_empty_false in E.
  unfold FtpConfig.load_assign.
  destruct (String.eqb_spec key "user") as [->|_].
  { split; [|split; [|split]]; try reflexivity.
    intro H. now elim E; apply H. }
  destruct (String.eqb_spec key "pass") as [->|_].
  { split; [|split; [|split]]; try reflexivity.
    intro H. now elim E; apply H. }
  destruct (String.eqb_spec key "port") as [->|_].
  { destruct (FtpConfig.parseInt _ val) as [p|e] eqn:P;
      (split; [|split; [|split]]); try reflexivity.
    intro H. exfalso.
    apply parseInt_inl in P as (_ & D & -> & Hle);
      [|unfold FtpConfig.UINT16_MAX; lia].
    destruct (H val eq_refl) as [A | [A | A]]; [congruence | congruence | lia]. }
  destruct (String.eqb_spec key "deflateLevel") as [->|_].
  { destruct (FtpConfig.parseInt _ val) as [p|e] eqn:P;
      (split; [|split; [|split]]); try reflexivity.
    intro H. exfalso.
    apply parseInt_inl in P as (_ & D & -> & Hle);
      [|unfold FtpConfig.INT_MAX; lia].
    destruct (H val eq_refl) as [A | [A | A]]; [congruence | congruence | lia]. }
  destruct (_3DS && String.eqb key "mtime");
    [|split; [|split; [|split]]; reflexivity].
  destruct (String.eqb val "0"); [split; [|split; [|split]]; reflexivity|].
  destruct (String.eqb val "1"); (split; [|split; [|split]]); reflexivity.
Qed.

Lemma run_frame (ls : list string) (st : FtpConfig.locals) :
  ((forall l v, In l ls -> FtpConfig.split_line l = Some ("user", v) -> v = "") ->
   FtpConfig.m_user (FtpConfig.l_config (run ls st))
     = FtpConfig.m_user (FtpConfig.l_config st)) /\
  ((forall l v, In l ls -> FtpConfig.split_line l = Some ("pass", v) -> v = "") ->
   FtpConfig.m_pass (FtpConfig.l_config (run ls st))
     = FtpConfig.m_pass (FtpConfig.l_config st)) /\
  ((forall l v, In l ls -> FtpConfig.split_line l = Some ("port", v) ->
      v = "" \/ Str.all_digits v = false \/
      FtpConfig.UINT16_MAX < Str.decimal_value v) ->
   FtpConfig.l_port (run ls st) = FtpConfig.l_port st) /\
  ((forall l v, In l ls -> FtpConfig.split_line l = Some ("deflateLevel", v) ->
      v = "" \/ Str.all_digits v = false \/
      FtpConfig.INT_MAX < Str.decimal_value v) ->
   FtpConfig.l_deflateLevel (run ls st) = FtpConfig.l_deflateLevel st).
Proof.
  revert st; induction ls as [|l ls IH]; intro st; [now repeat split|].
  cbn [fold_left].
  destruct (IH (load_line l st)) as (A & B & C & D).
  destruct (load_line_frame l st) as (A' & B' & C' & D').
  split; [|split; [|split]]; intro H.
  - rewrite A, A'; [reflexivity | |]; intros; eapply H; eauto; now [> left | right..].
  - rewrite B, B'; [reflexivity | |]; intros; eapply H; eauto; now [> left | right..].
  - rewrite C, C'; [reflexivity | |]; intros; eapply H; eauto; now [> left | right..].
  - rewrite D, D'; [reflexivity | |]; intros; eapply H; eauto; now [> left | right..].
Qed.

Lemma run_app (l1 l2 : list string) (st : FtpConfig.locals) :
  run (l1 ++ l2)%list st = run l2 (run l1 st).
Proof. apply fold_left_app. Qed.

Lemma load_line_assigns (line key val : string) (st : FtpConfig.locals) :
  FtpConfig.split_line line = Some (key, val) -> key <> "" -> val <> "" ->
  load_line line st = FtpConfig.load_assign _3DS key val st.
Proof.
  intros S K V. unfold FtpConfig.load_line. rewrite S.
  apply is_empty_false in K, V. now rewrite K, V.
Qed.

(** X9.  When a file sets the user (the password) more than once, [load]
    returns the last non-empty value; when no line sets it, [load] returns
    the empty string. *)
Theorem load_last_credentials_win
    (fuel : nat) (content : string) (l1 l2 : list string) (line val : string)
    (c : FtpConfig.t) :
  read_lines fuel content = Some (l1 ++ line :: l2)%list ->
  load fuel (Some content) = Some c ->
  val <> "" ->
  (FtpConfig.split_line line = Some ("user", val) ->
   (forall l v, In l l2 -> FtpConfig.split_line l = Some ("user", v) -> v = "") ->
   FtpConfig.user c = val) /\
  (FtpConfig.split_line line = Some ("pass", val) ->
   (forall l v, In l l2 -> FtpConfig.split_line l = Some ("pass", v) -> v = "") ->
   FtpConfig.pass c = val) /\
  ((forall l v, In l (l1 ++ line :: l2)%list ->
      FtpConfig.split_line l = Some ("user", v) -> v = "") ->
   FtpConfig.user c = "") /\
  ((forall l v, In l (l1 ++ line :: l2)%list ->
      FtpConfig.split_line l = Some ("pass", v) -> v = "") ->
   FtpConfig.pass c = "").
Proof.
  intros RL L V. pose proof (load_by_lines _ _ _ _ RL L) as E. cbv zeta in E.
  set (st0 := FtpConfig.Locals _ _ _) in E.
  destruct (finish_keeps_credentials
              (FtpConfig.l_config (run (l1 ++ line :: l2)%list st0))
              (FtpConfig.l_port (run (l1 ++ line :: l2)%list st0))
              (FtpConfig.l_deflateLevel (run (l1 ++ line :: l2)%list st0)))
    as [Ku Kp].
  cbv zeta in Ku, Kp. rewrite <- E in Ku, Kp.
  unfold FtpConfig.user, FtpConfig.pass. rewrite Ku, Kp.
  split; [|split; [|split]].
  - intros S N. rewrite run_app. cbn [fold_left].
    rewrite (proj1 (run_frame l2 _) N).
    rewrite (load_line_assigns _ _ _ _ S); [reflexivity | discriminate | exact V].
  - intros S N. rewrite run_app. cbn [fold_left].
    rewrite (proj1 (proj2 (run_frame l2 _)) N).
    rewrite (load_line_assigns _ _ _ _ S); [reflexivity | discriminate | exact V].
  - intro N. now rewrite (proj1 (run_frame _ st0) N).
  - intro N. now rewrite (proj1 (proj2 (run_frame _ st0)) N).
Qed.

(** The last value that [parseInt] accepts for the port, or for the level,
    is the one [load] hands to the setter. *)
Lemma last_parsed_number_decides
    (fuel : nat) (content : string) (l1 l2 : list string) (line val : string)
    (c : FtpConfig.t) :
  read_lines fuel content = Some (l1 ++ line :: l2)%list ->
  load fuel (Some content) = Some c ->
  val <> "" -> Str.all_digits val = true ->
  (FtpConfig.split_line line = Some ("port", val) ->
   Str.decimal_value val <= FtpConfig.UINT16_MAX ->
   (forall l v, In l l2 -> FtpConfig.split_line l = Some ("port", v) ->
      v = "" \/ Str.all_digits v = false \/
      FtpConfig.UINT16_MAX < Str.decimal_value v) ->
   (port_allowed (Str.decimal_value val) ->
      FtpConfig.port c = Str.decimal_value val) /\
   (~ port_allowed (Str.decimal_value val) -> FtpConfig.port c = 5000)) /\
  (FtpConfig.split_line line = Some ("deflateLevel", val) ->
   Str.decimal_value val <= FtpConfig.INT_MAX ->
   (forall l v, In l l2 -> FtpConfig.split_line l = Some ("deflateLevel", v) ->
      v = "" \/ Str.all_digits v = false \/
      FtpConfig.INT_MAX < Str.decimal_value v) ->
   (Str.decimal_value val <= 9 ->
      FtpConfig.deflateLevel c = Str.decimal_value val) /\
   (9 < Str.decimal_value val -> FtpConfig.deflateLevel c = 6)).
Proof.
  intros RL L V D. pose proof (load_by_lines _ _ _ _ RL L) as E. cbv zeta in E.
  set (st0 := FtpConfig.Locals _ _ _) in E.
  pose proof (fold_keeps _3DS (l1 ++ line :: l2)%list st0) as [Kp Kl].
  cbv zeta in Kp, Kl.
  change (FtpConfig.m_port (FtpConfig.l_config st0)) with 5000 in Kp.
  change (FtpConfig.m_deflateLevel (FtpConfig.l_config st0)) with 6 in Kl.
  assert (Nonneg : 0 <= Str.decimal_value val)
    by (apply (decimal_from_ge val 0 D); lia).
  assert (Pe : forall max, Str.decimal_value val <= max ->
            FtpConfig.parseInt max val = inl (Str.decimal_value val)).
  { intros max Hle. rewrite parseInt_spec by lia.
    apply is_empty_false in V. rewrite V, D.
    destruct (Z.leb_spec (Str.decimal_value val) max); [reflexivity | lia]. }
  split.
  - intros S Hle N.
    assert (Lp : FtpConfig.l_port (run (l1 ++ line :: l2)%list st0)
                 = Str.decimal_value val).
    { rewrite run_app. cbn [fold_left].
      rewrite (proj1 (proj2 (proj2 (run_frame l2 _))) N).
      rewrite (load_line_assigns _ _ _ _ S); [|discriminate | exact V].
      unfold FtpConfig.load_assign. cbn [String.eqb Ascii.eqb Bool.eqb].
      now rewrite (Pe _ Hle). }
    rewrite Lp in E. unfold FtpConfig.port.
    split; intro A.
    + rewrite (setPort_accepts NDS _3DS _ _ A) in E. cbn [fst snd] in E.
      rewrite E, setDeflateLevel_keeps_port. reflexivity.
    + rewrite (setPort_rejects_not_allowed NDS _3DS _ _ A) in E.
      cbn [fst snd] in E. rewrite E, setDeflateLevel_keeps_port. exact Kp.
  - intros S Hle N.
    assert (Ll : FtpConfig.l_deflateLevel (run (l1 ++ line :: l2)%list st0)
                 = Str.decimal_value val).
    { rewrite run_app. cbn [fold_left].
      rewrite (proj2 (proj2 (proj2 (run_frame l2 _))) N).
      rewrite (load_line_assigns _ _ _ _ S); [|discriminate | exact V].
      unfold FtpConfig.load_assign. cbn [String.eqb Ascii.eqb Bool.eqb].
      now rewrite (Pe _ Hle). }
    rewrite Ll in E. unfold FtpConfig.deflateLevel.
    pose proof (setPort_keeps_level NDS _3DS
                  (FtpConfig.l_config (run (l1 ++ line :: l2)%list st0))
                  (FtpConfig.l_port (run (l1 ++ line :: l2)%list st0))) as SL.
    rewrite Kl in SL.
    destruct (setPort _ _) as [[ok c1] e]. cbn [fst snd] in E, SL.
    unfold FtpConfig.setDeflateLevel, FtpConfig.Z_NO_COMPRESSION,
      FtpConfig.Z_BEST_COMPRESSION in E.
    destruct (Z.ltb_spec (Str.decimal_value val) 0); [lia|].
    destruct (Z.ltb_spec 9 (Str.decimal_value val)); cbn [orb snd] in E;
      subst c; split; intro A; try lia; first [exact SL | reflexivity].
Qed.

(** X10.  For the port and for the level the last value that [parseInt]
    accepts decides, whatever came before it: [load] returns it when the
    setter accepts it, and the default (5000, 6) when the setter refuses
    it. *)
Theorem load_last_number_decides
    (fuel : nat) (content : string) (l1 l2 : list string) (line val : string)
    (c : FtpConfig.t) :
  read_lines fuel content = Some (l1 ++ line :: l2)%list ->
  load fuel (Some content) = Some c ->
  val <> "" -> Str.all_digits val = true ->
  (FtpConfig.split_line line = Some ("port", val) ->
   Str.decimal_value val <= FtpConfig.UINT16_MAX ->
   (forall l v, In l l2 -> FtpConfig.split_line l = Some ("port", v) ->
      v = "" \/ Str.all_digits v = false \/
      FtpConfig.UINT16_MAX < Str.decimal_value v) ->
   (port_allowed (Str.decimal_value val) ->
      FtpConfig.port c = Str.decimal_value val) /\
   (~ port_allowed (Str.decimal_value val) -> FtpConfig.port c = 5000)) /\
  (FtpConfig.split_line line = Some ("deflateLevel", val) ->
   Str.decimal_value val <= FtpConfig.INT_MAX ->
   (forall l v, In l l2 -> FtpConfig.split_line l = Some ("deflateLevel", v) ->
      v = "" \/ Str.all_digits v = false \/
      FtpConfig.INT_MAX < Str.decimal_value v) ->
   (Str.decimal_value val <= 9 ->
      FtpConfig.deflateLevel c = Str.decimal_value val) /\
   (9 < Str.decimal_value val -> FtpConfig.deflateLevel c = 6)).
Proof. exact (last_parsed_number_decides fuel content l1 l2 line val c). Qed.

(** A value without blanks at its ends, or no value. *)
Lemma split_line_clean (line key val : string) :
  FtpConfig.split_line line = Some (key, val) ->
  val = "" \/
  (FtpConfig.keeps_end (Str.head val) = true /\
   FtpConfig.keeps_end (Str.last val) = true).
Proof.
  unfold FtpConfig.split_line.
  destruct (Str.find_first_of line "="); [|discriminate].
  intro H. injection H as _ <-. apply strip_ends.
Qed.

Lemma load_line_clean (line : string) (st : FtpConfig.locals) :
  let clean s :=
    s = "" \/ (FtpConfig.keeps_end (Str.head s) = true /\
               FtpConfig.keeps_end (Str.last s) = true) in
  clean (FtpConfig.m_user (FtpConfig.l_config st)) /\
  clean (FtpConfig.m_pass (FtpConfig.l_config st)) ->
  clean (FtpConfig.m_user (FtpConfig.l_config (load_line line st))) /\
  clean (FtpConfig.m_pass (FtpConfig.l_config (load_line line st))).
Proof.
  cbv zeta. intros [Hu Hp]. unfold FtpConfig.load_line.
  destruct (FtpConfig.split_line line) as [[key val]|] eqn:S; [|now split].
  apply split_line_clean in S.
  destruct (Str.is_empty key || Str.is_empty val); [now split|].
  unfold FtpConfig.load_assign.
  destruct (String.eqb key "user"); [now split|].
  destruct (String.eqb key "pass"); [now split|].
  destruct (String.eqb key "port").
  { destruct (FtpConfig.parseInt _ val); now split. }
  destruct (String.eqb key "deflateLevel").
  { destruct (FtpConfig.parseInt _ val); now split. }
  destruct (_3DS && String.eqb key "mtime"); [|now split].
  destruct (String.eqb val "0"); [now split|].
  destruct (String.eqb val "1"); now split.
Qed.

(** X11.  A user or password that [load] returns is empty or has no space
    or tab at either end: credentials with such ends cannot come from a
    file. *)
Theorem load_credentials_have_no_blank_ends
    (fuel : nat) (file : option string) (c : FtpConfig.t) :
  load fuel file = Some c ->
  (FtpConfig.user c = "" \/
   (FtpConfig.keeps_end (Str.head (FtpConfig.user c)) = true /\
    FtpConfig.keeps_end (Str.last (FtpConfig.user c)) = true)) /\
  (FtpConfig.pass c = "" \/
   (FtpConfig.keeps_end (Str.head (FtpConfig.pass c)) = true /\
    FtpConfig.keeps_end (Str.last (FtpConfig.pass c)) = true)).
Proof.
  destruct file as [content|].
  2:{ intro H. injection H as <-. split; now left. }
  intro L.
  assert (exists lines, read_lines fuel content = Some lines) as [lines RL].
  { unfold FtpConfig.load in L. rewrite load_loop_fold in L.
    destruct (read_lines fuel content) as [ls|]; [now exists ls | discriminate]. }
  pose proof (load_by_lines _ _ _ _ RL L) as E. cbv zeta in E.
  set (st0 := FtpConfig.Locals _ _ _) in E.
  destruct (finish_keeps_credentials
              (FtpConfig.l_config (run lines st0))
              (FtpConfig.l_port (run lines st0))
              (FtpConfig.l_deflateLevel (run lines st0))) as [Ku Kp].
  cbv zeta in Ku, Kp. rewrite <- E in Ku, Kp.
  unfold FtpConfig.user, FtpConfig.pass. rewrite Ku, Kp.
  assert (I : forall ls st,
    (FtpConfig.m_user (FtpConfig.l_config st) = "" \/
     (FtpConfig.keeps_end (Str.head (FtpConfig.m_user (FtpConfig.l_config st))) = true /\
      FtpConfig.keeps_end (Str.last (FtpConfig.m_user (FtpConfig.l_config st))) = true)) /\
    (FtpConfig.m_pass (FtpConfig.l_config st) = "" \/
     (FtpConfig.keeps_end (Str.head (FtpConfig.m_pass (FtpConfig.l_config st))) = true /\
      FtpConfig.keeps_end (Str.last (FtpConfig.m_pass (FtpConfig.l_config st))) = true)) ->
    (FtpConfig.m_user (FtpConfig.l_config (run ls st)) = "" \/
     (FtpConfig.keeps_end (Str.head (FtpConfig.m_user (FtpConfig.l_config (run ls st)))) = true /\
      FtpConfig.keeps_end (Str.last (FtpConfig.m_user (FtpConfig.l_config (run ls st)))) = true)) /\
    (FtpConfig.m_pass (FtpConfig.l_config (run ls st)) = "" \/
     (FtpConfig.keeps_end (Str.head (FtpConfig.m_pass (FtpConfig.l_config (run ls st)))) = true /\
      FtpConfig.keeps_end (Str.last (FtpConfig.m_pass (FtpConfig.l_config (run ls st)))) = true))).
  { induction ls as [|l ls IH]; intros st H; [exact H|].
    cbn [fold_left]. apply IH. exact (load_line_clean l st H). }
  apply I. split; now left.
Qed.

End LoadResult.

(** ** What [load] ignores, and what it does not *)

Section LoadSummary.

Variables NDS _3DS getMTime_init : bool.
Variable readLine : string -> string * string.

Local Abbreviation load_line := (FtpConfig.load_line _3DS).
Local Abbreviation read_lines := (FtpConfig.read_lines readLine).
Local Abbreviation load := (FtpConfig.load NDS _3DS getMTime_init readLine).
Local Abbreviation port_allowed := (FtpConfig.port_allowed NDS _3DS).

(** A line that leaves the variables of the loop alone can be taken out of
    the file. *)
Lemma load_without_idle_line (fuel fuel' : nat) (content content' : string)
    (l1 l2 : list string) (line : string) :
  read_lines fuel content = Some (l1 ++ line :: l2)%list ->
  read_lines fuel' content' = Some (l1 ++ l2)%list ->
  (forall st, load_line line st = st) ->
  load fuel (Some content) = load fuel' (Some content').
Proof.
  intros RL RL' Idle. unfold FtpConfig.load.
  rewrite !load_loop_fold, RL, RL'. cbn [option_map].
  rewrite !fold_left_app. cbn [fold_left]. now rewrite Idle.
Qed.

(** A number that fits the type is stored in the local of the loop, whether
    the setter will take it or not. *)
Lemma load_line_number (line val : string) (st : FtpConfig.locals) :
  val <> "" -> Str.all_digits val = true ->
  (FtpConfig.split_line line = Some ("port", val) ->
   Str.decimal_value val <= FtpConfig.UINT16_MAX ->
   load_line line st
   = FtpConfig.Locals (FtpConfig.l_config st) (Str.decimal_value val)
       (FtpConfig.l_deflateLevel st)) /\
  (FtpConfig.split_line line = Some ("deflateLevel", val) ->
   Str.decimal_value val <= FtpConfig.INT_MAX ->
   load_line line st
   = FtpConfig.Locals (FtpConfig.l_config st) (FtpConfig.l_port st)
       (Str.decimal_value val)).
Proof.
  intros V D.
  assert (Nonneg : 0 <= Str.decimal_value val)
    by (apply (decimal_from_ge val 0 D); lia).
  assert (Pe : forall max, Str.decimal_value val <= max ->
            FtpConfig.parseInt max val = inl (Str.decimal_value val)).
  { intros max Hle. rewrite parseInt_spec by lia.
    pose proof (proj2 (is_empty_false val) V) as E. rewrite E, D.
    destruct (Z.leb_spec (Str.decimal_value val) max); [reflexivity | lia]. }
  split; intros S Hle.
  - rewrite (load_line_assigns _3DS _ _ _ st S); [|discriminate | exact V].
    unfold FtpConfig.load_assign. cbn [String.eqb Ascii.eqb Bool.eqb].
    now rewrite (Pe _ Hle).
  - rewrite (load_line_assigns _3DS _ _ _ st S); [|discriminate | exact V].
    unfold FtpConfig.load_assign. cbn [String.eqb Ascii.eqb Bool.eqb].
    now rewrite (Pe _ Hle).
Qed.

Hypothesis readLine_progress :
  forall fp line fp', readLine fp = (line, fp') -> line <> "" ->
    (String.length fp' < String.length fp)%nat.

(** C10, as the code has it.  [load] always returns a configuration.  When
    the file cannot be opened it is the default one: empty user and
    password, port 5000, level 6.  In a file that was opened, a line without
    ['='], a line whose key or value is empty after [strip], and a port or
    level that is not a number or exceeds its type change nothing, and the
    file loads as it does without that line; when every port (level) in the
    file is not a number or is one [setPort] ([setDeflateLevel]) refuses,
    the port (level) returned is the default.  A number that fits its type
    is not ignored, also when the setter refuses it: it replaces the value
    read before it, and when no later line gives a number that fits, the
    port (level) returned is the default, whatever earlier lines gave. *)
Theorem load_never_fails_and_what_it_ignores :
  (forall fuel file,
     match file with
     | Some content => (String.length content < fuel)%nat
     | None => True
     end ->
     exists c, load fuel file = Some c) /\
  (forall fuel, exists c,
     load fuel None = Some c /\
     FtpConfig.user c = "" /\ FtpConfig.pass c = "" /\
     FtpConfig.port c = 5000 /\ FtpConfig.deflateLevel c = 6) /\
  (forall line st, Str.mem "=" line = false -> load_line line st = st) /\
  (forall k v st, Str.mem "=" k = false ->
     FtpConfig.strip k = "" \/ FtpConfig.strip v = "" ->
     load_line (k ++ String "=" v) st = st) /\
  (forall k v st, Str.mem "=" k = false ->
     (FtpConfig.strip k = "port" /\
      (Str.all_digits (FtpConfig.strip v) = false \/
       FtpConfig.UINT16_MAX < Str.decimal_value (FtpConfig.strip v))) \/
     (FtpConfig.strip k = "deflateLevel" /\
      (Str.all_digits (FtpConfig.strip v) = false \/
       FtpConfig.INT_MAX < Str.decimal_value (FtpConfig.strip v))) ->
     load_line (k ++ String "=" v) st = st) /\
  (forall fuel fuel' content content' l1 l2 line,
     read_lines fuel content = Some (l1 ++ line :: l2)%list ->
     read_lines fuel' content' = Some (l1 ++ l2)%list ->
     (forall st, load_line line st = st) ->
     load fuel (Some content) = load fuel' (Some content')) /\
  (forall fuel content lines c,
     read_lines fuel content = Some lines ->
     load fuel (Some content) = Some c ->
     ((forall line val, In line lines ->
         FtpConfig.split_line line = Some ("port", val) ->
         val = "" \/ Str.all_digits val = false \/
      ~ (Str.decimal_value val <= FtpConfig.UINT16_MAX /\
         port_allowed (Str.decimal_value val))) ->
      FtpConfig.port c = 5000) /\
     ((forall line val, In line lines ->
         FtpConfig.split_line line = Some ("deflateLevel", val) ->
         val = "" \/ Str.all_digits val = false \/
      ~ (0 <= Str.decimal_value val <= 9)) ->
      FtpConfig.deflateLevel c = 6)) /\
  (forall line val st, val <> "" -> Str.all_digits val = true ->
     (FtpConfig.split_line line = Some ("port", val) ->
      Str.decimal_value val <= FtpConfig.UINT16_MAX ->
      load_line line st
      = FtpConfig.Locals (FtpConfig.l_config st) (Str.decimal_value val)
          (FtpConfig.l_deflateLevel st)) /\
     (FtpConfig.split_line line = Some ("deflateLevel", val) ->
      Str.decimal_value val <= FtpConfig.INT_MAX ->
      load_line line st
      = FtpConfig.Locals (FtpConfig.l_config st) (FtpConfig.l_port st)
          (Str.decimal_value val))) /\
  (forall fuel content l1 l2 line val c,
     read_lines fuel content = Some (l1 ++ line :: l2)%list ->
     load fuel (Some content) = Some c ->
     val <> "" -> Str.all_digits val = true ->
     (FtpConfig.split_line line = Some ("port", val) ->
      Str.decimal_value val <= FtpConfig.UINT16_MAX ->
      ~ port_allowed (Str.decimal_value val) ->
      (forall l v, In l l2 -> FtpConfig.split_line l = Some ("port", v) ->
         v = "" \/ Str.all_digits v = false \/
         FtpConfig.UINT16_MAX < Str.decimal_value v) ->
      FtpConfig.port c = 5000) /\
     (FtpConfig.split_line line = Some ("deflateLevel", val) ->
      Str.decimal_value val <= FtpConfig.INT_MAX ->
      9 < Str.decimal_value val ->
      (forall l v, In l l2 -> FtpConfig.split_line l = Some ("deflateLevel", v) ->
         v = "" \/ Str.all_digits v = false \/
         FtpConfig.INT_MAX < Str.decimal_value v) ->
      FtpConfig.deflateLevel c = 6)).
Proof.
  split; [|split; [|split; [|split; [|split; [|split; [|split; [|split]]]]]]].
  - intros fuel [content|] H; [|now eexists].
    unfold FtpConfig.load.
    destruct (load_loop_total _3DS readLine readLine_progress fuel content
                (FtpConfig.Locals (FtpConfig.create getMTime_init)
                   FtpConfig.DEFAULT_PORT FtpConfig.DEFAULT_DEFLATE_LEVEL) H)
      as [st ->].
    destruct (FtpConfig.setPort NDS _3DS _ _) as [[ok c1] e].
    destruct (FtpConfig.setDeflateLevel c1 _) as [ok' c2]. now eexists.
  - intro fuel. eexists. split; [reflexivity|]. now repeat split.
  - exact (load_line_no_eq _3DS).
  - exact (load_line_empty_side _3DS).
  - exact (load_line_unparsed _3DS).
  - intros fuel fuel' content content' l1 l2 line.
    apply load_without_idle_line.
  - exact (load_defaults_kept NDS _3DS getMTime_init readLine).
  - intros line val st. apply load_line_number.
  - intros fuel content l1 l2 line val c RL L V D.
    destruct (last_parsed_number_decides NDS _3DS getMTime_init readLine
                fuel content l1 l2 line val c RL L V D) as [P Lv].
    split.
    + intros S Hle A N. exact (proj2 (P S Hle N) A).
    + intros S Hle A N. exact (proj2 (Lv S Hle N) A).
Qed.

End LoadSummary.

Lemma load_never_fails_and_what_it_ignores_witness :
  let st := FtpConfig.Locals (FtpConfig.create true) 6000 3 in
  let two := "port=6000" ++ String FtpConfig.LF "port=70000" in
  let bad := "port=6000" ++ String FtpConfig.LF "port=80" in
  (exists c, FtpConfig.load false false true Lines.readLine 20 (Some bad)
             = Some c /\ FtpConfig.port c = 5000) /\
  FtpConfig.load_line false "no equals sign" st = st /\
  FtpConfig.load_line false ("user" ++ String "=" "  ") st = st /\
  FtpConfig.load_line false ("port" ++ String "=" "70000") st = st /\
  FtpConfig.load false false true Lines.readLine 20 (Some two)
  = FtpConfig.load false false true Lines.readLine 20 (Some "port=6000") /\
  FtpConfig.load_line false "port=80" st
  = FtpConfig.Locals (FtpConfig.create true) 80 3.
Proof.
  intros st two bad.
  destruct (load_never_fails_and_what_it_ignores false false true
              Lines.readLine Lines_readLine_progress)
    as (A & _ & C & D & E & F & _ & G & H).
  assert (I70000 : forall st',
            FtpConfig.load_line false ("port" ++ String "=" "70000") st' = st').
  { intro st'. apply E; [reflexivity|]. left. split; [reflexivity|]. right.
    vm_compute. reflexivity. }
  split; [|split; [|split; [|split; [|split]]]].
  - destruct (A 20%nat (Some bad)) as [c L]; [simpl; lia|].
    exists c. split; [exact L|].
    apply (proj1 (H 20%nat bad ["port=6000"] [] "port=80" "80" c
                    eq_refl L ltac:(discriminate) eq_refl));
      [reflexivity | vm_compute; discriminate | | intros l v []].
    unfold FtpConfig.port_allowed. vm_compute.
    intros [K | [K _]]; [apply K; reflexivity | discriminate].
  - apply C. reflexivity.
  - apply D; [reflexivity | right; reflexivity].
  - apply I70000.
  - apply (F 20%nat 20%nat two "port=6000" ["port=6000"] [] "port=70000");
      [reflexivity | reflexivity | exact I70000].
  - apply (proj1 (G "port=80" "80" st ltac:(discriminate) eq_refl));
      [reflexivity | vm_compute; discriminate].
Defined.

(** C10 as it was stated fails: a port or level that is a number but out of
    the setter's range is not ignored.  After [port=6000] the line [port=80]
    makes [load] return 5000 where the file without it gives 6000, and after
    [deflateLevel=3] the line [deflateLevel=12] makes it return 6 where the
    file without it gives 3. *)
Lemma load_out_of_range_number_not_ignored :
  ~ (forall (l1 l2 : list string) (line val : string),
       FtpConfig.split_line line = Some ("port", val) ->
       Str.all_digits val = true -> 1 <= Str.decimal_value val <= 1023 ->
       FtpConfig.load false false true Lines.readLine 20
         (Some (FtpConfig.join_lines (l1 ++ line :: l2)))
       = FtpConfig.load false false true Lines.readLine 20
           (Some (FtpConfig.join_lines (l1 ++ l2)))) /\
  ~ (forall (l1 l2 : list string) (line val : string),
       FtpConfig.split_line line = Some ("deflateLevel", val) ->
       Str.all_digits val = true -> 9 < Str.decimal_value val ->
       FtpConfig.load false false true Lines.readLine 20
         (Some (FtpConfig.join_lines (l1 ++ line :: l2)))
       = FtpConfig.load false false true Lines.readLine 20
           (Some (FtpConfig.join_lines (l1 ++ l2)))) /\
  FtpConfig.load false false true Lines.readLine 20
    (Some ("port=6000" ++ String FtpConfig.LF "port=80"))
  = Some (FtpConfig.mk "" "" 5000 6 true) /\
  FtpConfig.load false false true Lines.readLine 20 (Some "port=6000")
  = Some (FtpConfig.mk "" "" 6000 6 true) /\
  FtpConfig.load false false true Lines.readLine 20
    (Some ("deflateLevel=3" ++ String FtpConfig.LF "deflateLevel=12"))
  = Some (FtpConfig.mk "" "" 5000 6 true) /\
  FtpConfig.load false false true Lines.readLine 20 (Some "deflateLevel=3")
  = Some (FtpConfig.mk "" "" 5000 3 true).
Proof.
  split; [|split; [|split; [|split; [|split]]]]; try reflexivity.
  - intro H.
    specialize (H ["port=6000"] [] "port=80" "80" eq_refl eq_refl
                  ltac:(vm_compute; split; discriminate)).
    vm_compute in H. discriminate H.
  - intro H.
    specialize (H ["deflateLevel=3"] [] "deflateLevel=12" "12" eq_refl eq_refl
                  ltac:(vm_compute; reflexivity)).
    vm_compute in H. discriminate H.
Qed.

Lemma load_last_credentials_win_witness :
  let content := "user=a" ++ String FtpConfig.LF
                   ("user= b " ++ String FtpConfig.LF "pass=x") in
  exists c,
    FtpConfig.load false false true Lines.readLine 9 (Some content) = Some c /\
    FtpConfig.user c = "b".
Proof.
  intro content. exists (FtpConfig.mk "b" "x" 5000 6 true).
  split; [reflexivity|].
  apply (proj1 (load_last_credentials_win false false true Lines.readLine
                  9 content ["user=a"] ["pass=x"] "user= b " "b" _
                  eq_refl eq_refl ltac:(discriminate)));
    [reflexivity|].
  intros l v [<- | []] S. vm_compute in S. discriminate.
Defined.

Lemma load_last_number_decides_witness :
  let content := "port=6000" ++ String FtpConfig.LF "port=80" in
  exists c,
    FtpConfig.load false false true Lines.readLine 9 (Some content) = Some c /\
    FtpConfig.port c = 5000.
Proof.
  intro content. exists (FtpConfig.mk "" "" 5000 6 true).
  split; [reflexivity|].
  apply (proj1 (load_last_number_decides false false true Lines.readLine
                  9 content ["port=6000"] [] "port=80" "80" _
                  eq_refl eq_refl ltac:(discriminate) eq_refl));
    [reflexivity | vm_compute; discriminate | intros l v [] |].
  unfold FtpConfig.port_allowed. vm_compute.
  intros [H | [H _]]; [apply H; reflexivity | discriminate].
Defined.

Lemma load_credentials_have_no_blank_ends_witness :
  let c := FtpConfig.mk "bob" "x y" 5000 6 true in
  FtpConfig.load false false true Lines.readLine 9
    (Some (" user =  bob " ++ String FtpConfig.LF "pass=  x y")) = Some c /\
  FtpConfig.keeps_end (Str.head (FtpConfig.user c)) = true.
Proof.
  intro c. split; [reflexivity|].
  destruct (load_credentials_have_no_blank_ends false false true
              Lines.readLine 9
              (Some (" user =  bob " ++ String FtpConfig.LF "pass=  x y")) c
              eq_refl) as [[E | [H _]] _]; [discriminate E | exact H].
Defined.

(** ** [save] followed by [load], empty credentials included *)

Lemma save_text_save_lines (c : FtpConfig.t) :
  FtpConfig.save_text false c = FtpConfig.join_lines (SaveFile.save_lines c).
Proof.
  unfold FtpConfig.save_text, SaveFile.save_lines. cbv zeta.
  destruct (Str.is_empty (FtpConfig.m_user c));
    destruct (Str.is_empty (FtpConfig.m_pass c));
    cbn [List.app FtpConfig.join_lines];
    repeat first [rewrite append_assoc | progress (cbn [append])];
    rewrite ?append_nil_r; reflexivity.
Qed.

Lemma c_str_storable (s : string) :
  s = "" \/ FtpConfig.storable s = true -> FtpConfig.c_str s = s.
Proof.
  intros [-> | H]; [reflexivity|].
  apply storable_spec in H as (_ & _ & _ & Z & _).
  exact (proj1 (substr_find_first_of _ _) Z).
Qed.

Lemma line_user (_3DS : bool) (u : string) (st : FtpConfig.locals) :
  FtpConfig.storable u = true ->
  FtpConfig.load_line _3DS ("user" ++ String "=" u) st =
  FtpConfig.Locals (FtpConfig.with_user (FtpConfig.l_config st) u)
    (FtpConfig.l_port st) (FtpConfig.l_deflateLevel st).
Proof.
  intro H. apply storable_spec in H as (N & _ & _ & _ & S).
  rewrite load_line_key, S;
    [reflexivity | reflexivity | discriminate | now rewrite S].
Qed.

Lemma line_pass (_3DS : bool) (p : string) (st : FtpConfig.locals) :
  FtpConfig.storable p = true ->
  FtpConfig.load_line _3DS ("pass" ++ String "=" p) st =
  FtpConfig.Locals (FtpConfig.with_pass (FtpConfig.l_config st) p)
    (FtpConfig.l_port st) (FtpConfig.l_deflateLevel st).
Proof.
  intro H. apply storable_spec in H as (N & _ & _ & _ & S).
  rewrite load_line_key, S;
    [reflexivity | reflexivity | discriminate | now rewrite S].
Qed.

Lemma line_port (_3DS : bool) (p : Z) (st : FtpConfig.locals) :
  0 <= p <= FtpConfig.UINT16_MAX ->
  FtpConfig.load_line _3DS ("port" ++ String "=" (Printf.dec p)) st =
  FtpConfig.Locals (FtpConfig.l_config st) p (FtpConfig.l_deflateLevel st).
Proof.
  intro H.
  assert (Sd : FtpConfig.strip (Printf.dec p) = Printf.dec p)
    by (apply strip_digits, dec_digits; lia).
  rewrite load_line_key.
  - rewrite Sd. change (FtpConfig.strip "port") with "port".
    unfold FtpConfig.load_assign. cbn [String.eqb Ascii.eqb Bool.eqb].
    now rewrite (parseInt_dec FtpConfig.UINT16_MAX) by lia.
  - reflexivity.
  - discriminate.
  - rewrite Sd. apply dec_not_empty.
Qed.

Lemma line_level (_3DS : bool) (l : Z) (st : FtpConfig.locals) :
  0 <= l <= FtpConfig.INT_MAX ->
  FtpConfig.load_line _3DS ("deflateLevel" ++ String "=" (Printf.dec l)) st =
  FtpConfig.Locals (FtpConfig.l_config st) (FtpConfig.l_port st) l.
Proof.
  intro H.
  assert (Sd : FtpConfig.strip (Printf.dec l) = Printf.dec l)
    by (apply strip_digits, dec_digits; lia).
  rewrite load_line_key.
  - rewrite Sd. change (FtpConfig.strip "deflateLevel") with "deflateLevel".
    unfold FtpConfig.load_assign. cbn [String.eqb Ascii.eqb Bool.eqb].
    now rewrite (parseInt_dec FtpConfig.INT_MAX) by lia.
  - reflexivity.
  - discriminate.
  - rewrite Sd. apply dec_not_empty.
Qed.

(** X12.  On a build without [_3DS], [load] reads back what [save] wrote
    also when the user or the password is empty: [save] then writes no line
    for it and [load] returns the empty string.  This needs of the line
    reader only that it hands over plain lines as they are. *)
Theorem save_load_roundtrip_with_empty_credentials
    (NDS getMTime_init : bool) (readLine : string -> string * string)
    (c : FtpConfig.t) (fuel : nat) :
  (forall l rest, FtpConfig.plain_line l ->
     readLine (l ++ String FtpConfig.LF rest) = (l, rest)) ->
  (forall l, FtpConfig.plain_line l -> readLine l = (l, "")) ->
  readLine "" = ("", "") ->
  FtpConfig.user c = "" \/ FtpConfig.storable (FtpConfig.user c) = true ->
  FtpConfig.pass c = "" \/ FtpConfig.storable (FtpConfig.pass c) = true ->
  0 <= FtpConfig.port c <= FtpConfig.UINT16_MAX ->
  fst (fst (FtpConfig.setPort NDS false c (FtpConfig.port c))) = true ->
  0 <= FtpConfig.deflateLevel c <= 9 ->
  (4 < fuel)%nat ->
  exists c',
    FtpConfig.load NDS false getMTime_init readLine fuel
      (snd (FtpConfig.save false true true c)) = Some c' /\
    FtpConfig.user c' = FtpConfig.user c /\
    FtpConfig.pass c' = FtpConfig.pass c /\
    FtpConfig.port c' = FtpConfig.port c /\
    FtpConfig.deflateLevel c' = FtpConfig.deflateLevel c.
Proof.
  unfold FtpConfig.user, FtpConfig.pass, FtpConfig.port, FtpConfig.deflateLevel.
  intros R1 R2 R3 Hu Hp Hr Ha Hl Hf.
  cbn [FtpConfig.save negb snd]. rewrite save_text_save_lines.
  unfold FtpConfig.load. rewrite load_loop_fold.
  assert (Plain : Forall FtpConfig.plain_line (SaveFile.save_lines c)).
  { unfold SaveFile.save_lines. cbv zeta. rewrite Z.mod_small by lia.
    rewrite (c_str_storable _ Hu), (c_str_storable _ Hp).
    apply Forall_app. split.
    - destruct Hu as [-> | Hu]; [apply Forall_nil|].
      pose proof (storable_spec _ Hu) as (N & L & C & _).
      apply is_empty_false in N. rewrite N.
      apply Forall_cons; [now apply plain_key_value | apply Forall_nil].
    - apply Forall_app. split.
      + destruct Hp as [-> | Hp]; [apply Forall_nil|].
        pose proof (storable_spec _ Hp) as (N & L & C & _).
        apply is_empty_false in N. rewrite N.
        apply Forall_cons; [now apply plain_key_value | apply Forall_nil].
      + apply Forall_cons;
          [apply plain_key_number; [reflexivity | reflexivity | lia]|].
        apply Forall_cons;
          [apply plain_key_number; [reflexivity | reflexivity | lia]|].
        apply Forall_nil. }
  assert (Len : (List.length (SaveFile.save_lines c) <= 4)%nat).
  { unfold SaveFile.save_lines. cbv zeta.
    destruct (Str.is_empty (FtpConfig.m_user c));
      destruct (Str.is_empty (FtpConfig.m_pass c)); simpl; lia. }
  rewrite (read_lines_join readLine R1 R2 R3 _ fuel Plain) by lia.
  cbn [option_map]. unfold SaveFile.save_lines. cbv zeta.
  rewrite Z.mod_small by lia.
  rewrite (c_str_storable _ Hu), (c_str_storable _ Hp).
  rewrite !fold_left_app. cbn [fold_left].
  rewrite line_level by (unfold FtpConfig.INT_MAX; lia).
  rewrite line_port by lia.
  cbn [FtpConfig.l_config FtpConfig.l_port FtpConfig.l_deflateLevel].
  rewrite (setPort_accepts NDS false _ _ (setPort_true_allowed _ _ _ _ Ha)).
  unfold FtpConfig.setDeflateLevel, FtpConfig.Z_NO_COMPRESSION,
    FtpConfig.Z_BEST_COMPRESSION.
  destruct (Z.ltb_spec (FtpConfig.m_deflateLevel c) 0); [lia|].
  destruct (Z.ltb_spec 9 (FtpConfig.m_deflateLevel c)); [lia|].
  cbn [orb]. eexists. split; [reflexivity|].
  cbn [FtpConfig.with_deflateLevel FtpConfig.with_port FtpConfig.m_user
       FtpConfig.m_pass FtpConfig.m_port FtpConfig.m_deflateLevel].
  split; [|split; [|now split]].
  - destruct Hp as [Ep | Hp]; destruct Hu as [Eu | Hu];
      rewrite ?Ep, ?Eu; cbn [Str.is_empty fold_left];
      try (pose proof (storable_spec _ Hu) as (Nu & _);
           apply is_empty_false in Nu; rewrite Nu; cbn [fold_left]);
      try (pose proof (storable_spec _ Hp) as (Np & _);
           apply is_empty_false in Np; rewrite Np; cbn [fold_left]);
      rewrite ?line_pass, ?line_user by assumption; reflexivity.
  - destruct Hp as [Ep | Hp]; destruct Hu as [Eu | Hu];
      rewrite ?Ep, ?Eu; cbn [Str.is_empty fold_left];
      try (pose proof (storable_spec _ Hu) as (Nu & _);
           apply is_empty_false in Nu; rewrite Nu; cbn [fold_left]);
      try (pose proof (storable_spec _ Hp) as (Np & _);
           apply is_empty_false in Np; rewrite Np; cbn [fold_left]);
      rewrite ?line_pass, ?line_user by assumption; reflexivity.
Qed.

Lemma save_load_roundtrip_with_empty_credentials_witness :
  let c := FtpConfig.mk "" "s3cret" 2121 0 true in
  exists c',
    FtpConfig.load false false true Lines.readLine 5
      (snd (FtpConfig.save false true true c)) = Some c' /\
    FtpConfig.user c' = FtpConfig.user c /\
    FtpConfig.pass c' = FtpConfig.pass c /\
    FtpConfig.port c' = FtpConfig.port c /\
    FtpConfig.deflateLevel c' = FtpConfig.deflateLevel c.
Proof.
  intro c.
  apply (save_load_roundtrip_with_empty_credentials false true Lines.readLine
           c 5 Lines_readLine_line Lines_readLine_last eq_refl).
  - now left.
  - now right.
  - unfold FtpConfig.UINT16_MAX. simpl. lia.
  - reflexivity.
  - simpl. lia.
  - lia.
Defined.

(** ** [mkdirParent] *)

Lemma get_lt (s : string) (q : nat) (c : ascii) :
  String.get q s = Some c -> (q < String.length s)%nat.
Proof.
  revert q; induction s as [|d r IH]; intros q H; [discriminate|].
  destruct q as [|q]; simpl in *; [lia|]. specialize (IH _ H). lia.
Qed.

Lemma get_drop (s : string) (p q : nat) :
  String.get q (Str.drop p s) = String.get (p + q) s.
Proof.
  revert s; induction p as [|p IH]; intro s; [now rewrite drop_0|].
  destruct s as [|d r]; [now destruct q|]. simpl. apply IH.
Qed.

Lemma find_first_of_get (s : string) (c : ascii) :
  match Str.find_first_of s c with
  | Some i => String.get i s = Some c /\
              forall q, (q < i)%nat -> String.get q s <> Some c
  | None => forall q, String.get q s <> Some c
  end.
Proof.
  induction s as [|d r IH]; [intros q; now destruct q|].
  cbn [Str.find_first_of]. destruct (Ascii.eqb_spec d c) as [->|N].
  - split; [reflexivity | intros q H; lia].
  - destruct (Str.find_first_of r c) as [i|].
    + destruct IH as [G B]. split; [exact G|].
      intros [|q] H; simpl; [congruence | apply B; lia].
    + intros [|q]; simpl; [congruence | apply IH].
Qed.

Lemma find_from_get (s : string) (c : ascii) (p : nat) :
  match Text.find_first_of_from s c p with
  | Some i => (p <= i)%nat /\ String.get i s = Some c /\
              forall q, (p <= q < i)%nat -> String.get q s <> Some c
  | None => forall q, (p <= q)%nat -> String.get q s <> Some c
  end.
Proof.
  unfold Text.find_first_of_from.
  pose proof (find_first_of_get (Str.drop p s) c) as H.
  destruct (Str.find_first_of (Str.drop p s) c) as [i|].
  - destruct H as [G B]. rewrite get_drop in G.
    split; [lia|]. split; [exact G|].
    intros q Hq. specialize (B (q - p)%nat ltac:(lia)).
    rewrite get_drop in B. now replace (p + (q - p))%nat with q in B by lia.
  - intros q Hq. specialize (H (q - p)%nat).
    rewrite get_drop in H. now replace (p + (q - p))%nat with q in H by lia.
Qed.

Lemma get_app_length (a b : string) (c : ascii) :
  String.get (String.length a) (a ++ String c b) = Some c.
Proof. induction a as [|d a IH]; [reflexivity | exact IH]. Qed.

Lemma get_app_lt (a b : string) (q : nat) :
  (q < String.length a)%nat -> String.get q (a ++ b) = String.get q a.
Proof.
  revert q; induction a as [|d a IH]; intros q H; [simpl in H; lia|].
  destruct q as [|q]; [reflexivity|]. simpl in *. apply IH. lia.
Qed.

Lemma take_app_le (a b : string) (q : nat) :
  (q <= String.length a)%nat -> Str.take q (a ++ b) = Str.take q a.
Proof.
  revert q; induction a as [|d a IH]; intros q H.
  - simpl in H. assert (q = O) by lia. subst. now destruct b.
  - destruct q as [|q]; [reflexivity|]. simpl in *. f_equal. apply IH. lia.
Qed.

Lemma split_at_get (s : string) (p : nat) (c : ascii) :
  String.get p s = Some c ->
  s = Str.take p s ++ String c (Str.drop (S p) s).
Proof.
  revert p; induction s as [|d r IH]; intros p H; [discriminate|].
  destruct p as [|p]; simpl in *.
  - injection H as ->. now destruct r.
  - f_equal. exact (IH _ H).
Qed.

Section MkdirParent.

Variable OS : Type.
Variable stat : OS -> string -> Mkdir.stat_result.
Variable mkdir : OS -> string -> bool * OS.
Variable path_ : string.

Local Abbreviation loop := (Mkdir.mkdirParent_loop OS stat mkdir).
Local Abbreviation slash q := (String.get q path_ = Some "/"%char).
Local Abbreviation next p := (Text.find_first_of_from path_ "/" (S p)).

Lemma dir_at (p : nat) : Str.substr path_ 0 (Some p) = Str.take p path_.
Proof. unfold Str.substr. now rewrite drop_0. Qed.

(** The loop returns: every pass moves [pos] to the right. *)
Lemma mkdirParent_loop_total (fuel : nat) (os : OS) (pos : option nat) :
  match pos with
  | Some p => slash p /\ (String.length path_ - p < fuel)%nat
  | None => (0 < fuel)%nat
  end ->
  exists r, loop fuel os path_ pos = Some r.
Proof.
  revert os pos; induction fuel as [|k IH]; intros os pos H.
  { destruct pos as [p|]; [destruct H |]; lia. }
  destruct pos as [p|]; [|now eexists].
  destruct H as [Sp Hf]. pose proof (get_lt _ _ _ Sp) as Lp.
  assert (N : match next p with
              | Some p' => slash p' /\ (String.length path_ - p' < k)%nat
              | None => (0 < k)%nat
              end).
  { pose proof (find_from_get path_ "/" (S p)) as F.
    destruct (next p) as [p'|]; [|lia].
    destruct F as (A & B & _). pose proof (get_lt _ _ _ B). split; [exact B | lia]. }
  cbn [Mkdir.mkdirParent_loop].
  destruct (stat os _); [now apply IH | | now eexists].
  destruct (mkdir os _) as [[|] os']; [now apply IH | now eexists].
Qed.

(** While [stat] finds every parent the loop changes nothing. *)
Lemma mkdirParent_loop_all_found (fuel : nat) (os : OS) (pos : option nat) :
  (forall q, slash q -> stat os (Str.take q path_) = Mkdir.StatOk) ->
  match pos with
  | Some p => slash p /\ (String.length path_ - p < fuel)%nat
  | None => (0 < fuel)%nat
  end ->
  loop fuel os path_ pos = Some (true, os).
Proof.
  intro Ok. revert pos; induction fuel as [|k IH]; intros pos H.
  { destruct pos as [p|]; [destruct H |]; lia. }
  destruct pos as [p|]; [|reflexivity].
  destruct H as [Sp Hf]. pose proof (get_lt _ _ _ Sp) as Lp.
  cbn [Mkdir.mkdirParent_loop]. rewrite dir_at, (Ok _ Sp).
  apply IH.
  pose proof (find_from_get path_ "/" (S p)) as F.
  destruct (next p) as [p'|]; [|lia].
  destruct F as (A & B & _). pose proof (get_lt _ _ _ B). split; [exact B | lia].
Qed.

(** The loop gives up at the first parent it can neither find nor make. *)
Lemma mkdirParent_loop_stops (P : nat) (os : OS) (fuel : nat) (p : nat) :
  slash P ->
  (stat os (Str.take P path_) = Mkdir.StatError \/
   (stat os (Str.take P path_) = Mkdir.StatENOENT /\
    fst (mkdir os (Str.take P path_)) = false)) ->
  (forall q, (q < P)%nat -> slash q ->
     stat os (Str.take q path_) = Mkdir.StatOk) ->
  slash p -> (p <= P)%nat -> (String.length path_ - p < fuel)%nat ->
  exists os', loop fuel os path_ (Some p) = Some (false, os').
Proof.
  intros SP Fail Ok. revert p; induction fuel as [|k IH]; intros p Sp Hp Hf;
    [lia|].
  pose proof (get_lt _ _ _ Sp) as Lp.
  cbn [Mkdir.mkdirParent_loop]. rewrite dir_at.
  destruct (Nat.eq_dec p P) as [->|N].
  - destruct Fail as [-> | [-> F]]; [now eexists|].
    destruct (mkdir os _) as [ok os']. simpl in F. subst ok. now eexists.
  - rewrite (Ok p ltac:(lia) Sp).
    pose proof (find_from_get path_ "/" (S p)) as F.
    destruct (next p) as [p'|].
    + destruct F as (A & B & C). pose proof (get_lt _ _ _ B).
      apply IH; [exact B | | lia].
      destruct (Nat.le_gt_cases p' P) as [H'|H']; [exact H'|].
      exfalso. apply (C P); [lia | exact SP].
    + exfalso. apply (F P); [lia | exact SP].
Qed.

(** What exists in a file system, as far as [stat] and [mkdir] tell. *)
Variable present : OS -> string -> Prop.

Hypothesis stat_found :
  forall os d, stat os d = Mkdir.StatOk -> present os d.
Hypothesis mkdir_made :
  forall os d os', mkdir os d = (true, os') -> present os' d.
Hypothesis mkdir_keeps :
  forall os d ok os' d', mkdir os d = (ok, os') ->
    present os d' -> present os' d'.

Lemma mkdirParent_loop_parents (fuel : nat) (os os' : OS) (pos : option nat) :
  match pos with
  | Some p => slash p /\
              forall q, (q < p)%nat -> slash q -> present os (Str.take q path_)
  | None => forall q, slash q -> present os (Str.take q path_)
  end ->
  loop fuel os path_ pos = Some (true, os') ->
  forall q, slash q -> present os' (Str.take q path_).
Proof.
  revert os pos; induction fuel as [|k IH]; intros os pos I; [discriminate|].
  destruct pos as [p|]; cbn [Mkdir.mkdirParent_loop].
  2:{ intro H. injection H as <-. exact I. }
  destruct I as [Sp I]. rewrite dir_at.
  assert (Step : forall os1,
    present os1 (Str.take p path_) ->
    (forall q, (q < p)%nat -> slash q -> present os1 (Str.take q path_)) ->
    match next p with
    | Some p' => slash p' /\
        forall q, (q < p')%nat -> slash q -> present os1 (Str.take q path_)
    | None => forall q, slash q -> present os1 (Str.take q path_)
    end).
  { intros os1 Hp Hq. pose proof (find_from_get path_ "/" (S p)) as F.
    destruct (next p) as [p'|].
    - destruct F as (A & B & C). split; [exact B|].
      intros q Lq Sq. destruct (Nat.lt_trichotomy q p) as [L | [-> | G]];
        [now apply Hq | exact Hp | exfalso; apply (C q); [lia | exact Sq]].
    - intros q Sq. destruct (Nat.lt_trichotomy q p) as [L | [-> | G]];
        [now apply Hq | exact Hp | exfalso; apply (F q); [lia | exact Sq]]. }
  destruct (stat os (Str.take p path_)) eqn:St.
  - apply IH. apply Step; [now apply stat_found | exact I].
  - destruct (mkdir os (Str.take p path_)) as [[|] os1] eqn:Mk; [|discriminate].
    apply IH. apply Step; [now apply (mkdir_made _ _ _ Mk)|].
    intros q Lq Sq. apply (mkdir_keeps _ _ _ _ _ Mk). now apply I.
  - discriminate.
Qed.

End MkdirParent.

Lemma mkdirParent_start (path_ : string) :
  match Str.find_first_of path_ "/" with
  | Some p => String.get p path_ = Some "/"%char /\
              (String.length path_ - p < S (String.length path_))%nat /\
              forall q, (q < p)%nat -> String.get q path_ <> Some "/"%char
  | None => forall q, String.get q path_ <> Some "/"%char
  end.
Proof.
  pose proof (find_first_of_get path_ "/") as F.
  destruct (Str.find_first_of path_ "/") as [p|]; [|exact F].
  destruct F as [G B]. split; [exact G|]. split; [lia | exact B].
Qed.

(** X13.  [mkdirParent] returns for every path, and when it returns true
    every parent of the path (what precedes one of its ['/']) exists in the
    file system it leaves, found by [stat] or made by [mkdir]. *)
Theorem mkdirParent_success_leaves_every_parent
    (OS : Type) (stat : OS -> string -> Mkdir.stat_result)
    (mkdir : OS -> string -> bool * OS) (present : OS -> string -> Prop) :
  (forall os d, stat os d = Mkdir.StatOk -> present os d) ->
  (forall os d os', mkdir os d = (true, os') -> present os' d) ->
  (forall os d ok os' d', mkdir os d = (ok, os') ->
     present os d' -> present os' d') ->
  forall (os : OS) (path_ : string),
    (exists r, Mkdir.mkdirParent OS stat mkdir (S (String.length path_)) os path_
               = Some r) /\
    (forall fuel os',
       Mkdir.mkdirParent OS stat mkdir fuel os path_ = Some (true, os') ->
       forall a b, path_ = a ++ String "/" b -> present os' a).
Proof.
  intros H1 H2 H3 os path_. pose proof (mkdirParent_start path_) as St.
  unfold Mkdir.mkdirParent. split.
  - apply mkdirParent_loop_total.
    destruct (Str.find_first_of path_ "/") as [p|]; [|lia].
    destruct St as (A & B & _). now split.
  - intros fuel os' R a b E.
    rewrite <- (take_app a (String "/" b)), <- E.
    apply (mkdirParent_loop_parents OS stat mkdir path_ present H1 H2 H3
             fuel os os' (Str.find_first_of path_ "/"));
      [|exact R|].
    + destruct (Str.find_first_of path_ "/") as [p|].
      * destruct St as (A & _ & B). split; [exact A|].
        intros q Lq Sq. now elim (B q Lq).
      * intros q Sq. now elim (St q).
    + rewrite E. apply get_app_length.
Qed.

Lemma ListFs_mkdir_keeps (os : ListFs.OS) (d : string) (ok : bool)
    (os' : ListFs.OS) (d' : string) :
  ListFs.mkdir os d = (ok, os') ->
  ListFs.exists_in os d' = true -> ListFs.exists_in os' d' = true.
Proof.
  unfold ListFs.mkdir. destruct (Str.is_empty d || ListFs.exists_in os d).
  - intro H. now injection H as <- <-.
  - intro H. injection H as <- <-. intro E. unfold ListFs.exists_in in *.
    cbn [existsb]. rewrite E. apply orb_true_r.
Qed.

Lemma mkdirParent_success_leaves_every_parent_witness :
  exists os',
    Mkdir.mkdirParent ListFs.OS ListFs.stat ListFs.mkdir 20 ["data"]
      "data/ftp/ftpd.cfg" = Some (true, os') /\
    ListFs.exists_in os' "data/ftp" = true.
Proof.
  exists ["data/ftp"; "data"]. split; [reflexivity|].
  refine (proj2 (mkdirParent_success_leaves_every_parent
                   ListFs.OS ListFs.stat ListFs.mkdir
                   (fun os d => ListFs.exists_in os d = true) _ _ _
                   ["data"] "data/ftp/ftpd.cfg")
            20%nat _ eq_refl "data/ftp" "ftpd.cfg" eq_refl).
  - intros os d. unfold ListFs.stat.
    destruct (ListFs.exists_in os d); [reflexivity | discriminate].
  - intros os d os'. unfold ListFs.mkdir.
    destruct (Str.is_empty d || ListFs.exists_in os d); [discriminate|].
    intro H. injection H as <-. unfold ListFs.exists_in. cbn [existsb].
    now rewrite String.eqb_refl.
  - exact ListFs_mkdir_keeps.
Defined.

(** X14.  When [stat] finds every parent of the path, [mkdirParent] returns
    true and leaves the file system as it was; so it does for a path
    without ['/']. *)
Theorem mkdirParent_changes_nothing_when_parents_exist
    (OS : Type) (stat : OS -> string -> Mkdir.stat_result)
    (mkdir : OS -> string -> bool * OS) (os : OS) (path_ : string) :
  (forall a b, path_ = a ++ String "/" b -> stat os a = Mkdir.StatOk) ->
  Mkdir.mkdirParent OS stat mkdir (S (String.length path_)) os path_
    = Some (true, os).
Proof.
  intro Ok. pose proof (mkdirParent_start path_) as St.
  unfold Mkdir.mkdirParent. apply mkdirParent_loop_all_found.
  - intros q Sq. apply (Ok _ (Str.drop (S q) path_)).
    now apply split_at_get.
  - destruct (Str.find_first_of path_ "/") as [p|]; [|lia].
    destruct St as (A & B & _). now split.
Qed.

Lemma mkdirParent_changes_nothing_when_parents_exist_witness :
  Mkdir.mkdirParent ListFs.OS ListFs.stat ListFs.mkdir 9 ["sd"] "sd/f.cfg"
    = Some (true, ["sd"]).
Proof.
  apply (mkdirParent_changes_nothing_when_parents_exist
           ListFs.OS ListFs.stat ListFs.mkdir ["sd"] "sd/f.cfg").
  intros a b E.
  destruct a as [|x [|y [|z a]]]; simpl in E; try discriminate E.
  - injection E as <- <- _. reflexivity.
  - injection E as _ _ _ E. exfalso.
    apply (f_equal (Str.mem "/")) in E. rewrite mem_app in E.
    cbn [Str.mem] in E. rewrite Ascii.eqb_refl, orb_true_r in E.
    vm_compute in E. discriminate E.
Defined.

Lemma find_from_unique (s : string) (c : ascii) (p i : nat) :
  (p <= i)%nat -> String.get i s = Some c ->
  (forall q, (p <= q < i)%nat -> String.get q s <> Some c) ->
  Text.find_first_of_from s c p = Some i.
Proof.
  intros Hp G B. pose proof (find_from_get s c p) as F.
  destruct (Text.find_first_of_from s c p) as [j|]; [|now elim (F i Hp)].
  destruct F as (Hj & Gj & Bj).
  destruct (Nat.lt_trichotomy i j) as [L | [-> | L]]; [|reflexivity|].
  - now elim (Bj i (conj Hp L)).
  - now elim (B j (conj Hj L)).
Qed.

(** The ['/'] of [a ++ "/" ++ b] up to the one after [a] are those of [a],
    then that one. *)
Lemma find_from_prefix (a b : string) (p : nat) :
  (p <= String.length a)%nat ->
  Text.find_first_of_from (a ++ String "/" b) "/" p =
  Some (match Text.find_first_of_from a "/" p with
        | Some p' => p'
        | None => String.length a
        end).
Proof.
  intro Hp. pose proof (find_from_get a "/" p) as F.
  destruct (Text.find_first_of_from a "/" p) as [p'|].
  - destruct F as (H1 & G & B). pose proof (get_lt _ _ _ G) as L.
    apply find_from_unique; [exact H1 | now rewrite get_app_lt |].
    intros q Hq. rewrite get_app_lt by lia. now apply B.
  - apply find_from_unique; [exact Hp | apply get_app_length |].
    intros q Hq. rewrite get_app_lt by lia. apply F. lia.
Qed.

Lemma find_first_of_from_0 (s : string) (c : ascii) :
  Text.find_first_of_from s c 0 = Str.find_first_of s c.
Proof.
  unfold Text.find_first_of_from. rewrite drop_0.
  now destruct (Str.find_first_of s c).
Qed.

(** The run on [a ++ "/" ++ b] starts as the run on [a] does; if that one
    fails, or leaves a file system in which [a] itself cannot be examined or
    made, the run fails with the file system as the failing step left it. *)
Lemma mkdirParent_loop_prefix (OS : Type)
    (stat : OS -> string -> Mkdir.stat_result)
    (mkdir : OS -> string -> bool * OS) (a b : string) (fuel_a : nat) :
  forall (os : OS) (pos : option nat) (ok1 : bool) (os1 : OS) (fuel : nat),
    match pos with
    | Some p => String.get p a = Some "/"%char
    | None => True
    end ->
    Mkdir.mkdirParent_loop OS stat mkdir fuel_a os a pos = Some (ok1, os1) ->
    (ok1 = true ->
     stat os1 a = Mkdir.StatError \/
     (stat os1 a = Mkdir.StatENOENT /\ fst (mkdir os1 a) = false)) ->
    (String.length (a ++ String "/" b)
     - match pos with Some p => p | None => String.length a end < fuel)%nat ->
    Mkdir.mkdirParent_loop OS stat mkdir fuel os (a ++ String "/" b)
      (Some match pos with Some p => p | None => String.length a end)
    = Some (false,
            if ok1
            then match stat os1 a with
                 | Mkdir.StatError => os1
                 | _ => snd (mkdir os1 a)
                 end
            else os1).
Proof.
  induction fuel_a as [|k IH]; intros os pos ok1 os1 fuel Sp R Bad Hf;
    [discriminate R|].
  destruct fuel as [|f]; [lia|].
  cbn [Mkdir.mkdirParent_loop] in R. cbn [Mkdir.mkdirParent_loop].
  rewrite dir_at.
  destruct pos as [p|].
  - pose proof (get_lt _ _ _ Sp) as Lp. rewrite dir_at in R.
    rewrite take_app_le by lia.
    rewrite find_from_prefix by lia.
    assert (N : match Text.find_first_of_from a "/" (S p) with
                | Some p' => String.get p' a = Some "/"%char
                | None => True
                end).
    { pose proof (find_from_get a "/" (S p)) as F.
      destruct (Text.find_first_of_from a "/" (S p)); [apply F | exact I]. }
    assert (Nf : (String.length (a ++ String "/" b)
                  - match Text.find_first_of_from a "/" (S p) with
                    | Some p' => p'
                    | None => String.length a
                    end < f)%nat).
    { assert (Lq : (p < String.length (a ++ String "/" b))%nat).
      { apply (get_lt _ _ "/"%char). now rewrite get_app_lt. }
      pose proof (find_from_get a "/" (S p)) as F.
      destruct (Text.find_first_of_from a "/" (S p)); [destruct F|]; lia. }
    destruct (stat os (Str.take p a)).
    + exact (IH os _ ok1 os1 f N R Bad Nf).
    + destruct (mkdir os (Str.take p a)) as [[|] os'].
      * exact (IH os' _ ok1 os1 f N R Bad Nf).
      * now injection R as <- <-.
    + now injection R as <- <-.
  - injection R as <- <-. rewrite take_app.
    destruct (Bad eq_refl) as [-> | [-> Mk]]; [reflexivity|].
    destruct (mkdir os a) as [ok os']. cbn [fst snd] in *. now subst ok.
Qed.

(** X15.  [mkdirParent] gives up at the first parent that [stat] cannot
    examine, or that is missing and that [mkdir] cannot make, the parents
    before it having been found or made: it returns false whatever follows
    in the path, and leaves the file system as that step left it.  The
    parents before [a] are what [mkdirParent] walks on [a] itself; when that
    walk fails, the walk on a longer path fails the same way.  For a path
    that starts with ['/'] the first parent is the empty name. *)
Theorem mkdirParent_fails_at_first_unusable_parent
    (OS : Type) (stat : OS -> string -> Mkdir.stat_result)
    (mkdir : OS -> string -> bool * OS) (os : OS) (a b : string) :
  (forall fuel ok1 os1,
     Mkdir.mkdirParent OS stat mkdir fuel os a = Some (ok1, os1) ->
     (ok1 = true ->
      stat os1 a = Mkdir.StatError \/
      (stat os1 a = Mkdir.StatENOENT /\ fst (mkdir os1 a) = false)) ->
     Mkdir.mkdirParent OS stat mkdir
       (S (String.length (a ++ String "/" b))) os (a ++ String "/" b)
     = Some (false,
             if ok1
             then match stat os1 a with
                  | Mkdir.StatError => os1
                  | _ => snd (mkdir os1 a)
                  end
             else os1)) /\
  (stat os "" = Mkdir.StatError \/
   (stat os "" = Mkdir.StatENOENT /\ fst (mkdir os "") = false) ->
   Mkdir.mkdirParent OS stat mkdir (S (String.length (String "/" b))) os
     (String "/" b)
   = Some (false,
           match stat os "" with
           | Mkdir.StatError => os
           | _ => snd (mkdir os "")
           end)).
Proof.
  assert (Main : forall a' fuel ok1 os1,
     Mkdir.mkdirParent OS stat mkdir fuel os a' = Some (ok1, os1) ->
     (ok1 = true ->
      stat os1 a' = Mkdir.StatError \/
      (stat os1 a' = Mkdir.StatENOENT /\ fst (mkdir os1 a') = false)) ->
     Mkdir.mkdirParent OS stat mkdir
       (S (String.length (a' ++ String "/" b))) os (a' ++ String "/" b)
     = Some (false,
             if ok1
             then match stat os1 a' with
                  | Mkdir.StatError => os1
                  | _ => snd (mkdir os1 a')
                  end
             else os1)).
  { intros a' fuel ok1 os1 R Bad. unfold Mkdir.mkdirParent in *.
    rewrite <- (find_first_of_from_0 (a' ++ String "/" b)).
    rewrite find_from_prefix by lia. rewrite find_first_of_from_0.
    apply (mkdirParent_loop_prefix OS stat mkdir a' b fuel os
             (Str.find_first_of a' "/") ok1 os1); [| exact R | exact Bad |].
    - pose proof (find_first_of_get a' "/") as F.
      destruct (Str.find_first_of a' "/"); [apply F | exact I].
    - destruct (Str.find_first_of a' "/"); lia. }
  split.
  - apply Main.
  - intro Bad.
    exact (Main "" 1%nat true os eq_refl (fun _ => Bad)).
Qed.

Lemma mkdirParent_fails_at_first_unusable_parent_witness :
  Mkdir.mkdirParent ListFs.OS (ListFs.stat_but "a/b") ListFs.mkdir
    (S (String.length ("a/b" ++ String "/" "c"))) [] ("a/b" ++ String "/" "c")
  = Some (false, ["a"]) /\
  Mkdir.mkdirParent ListFs.OS ListFs.stat ListFs.mkdir
    (S (String.length (String "/" "etc/ftpd.cfg"))) ["etc"]
    (String "/" "etc/ftpd.cfg")
  = Some (false, ["etc"]).
Proof.
  split.
  - apply (proj1 (mkdirParent_fails_at_first_unusable_parent
                    ListFs.OS (ListFs.stat_but "a/b") ListFs.mkdir
                    [] "a/b" "c") 4%nat true ["a"] eq_refl).
    intros _. left. reflexivity.
  - apply (proj2 (mkdirParent_fails_at_first_unusable_parent
                    ListFs.OS ListFs.stat ListFs.mkdir
                    ["etc"] "" "etc/ftpd.cfg")).
    right. split; reflexivity.
Defined.

(** ** More on [fs::printSize] *)

Lemma length_append (a b : string) :
  String.length (a ++ b) = (String.length a + String.length b)%nat.
Proof. induction a as [|c a IH]; simpl; [reflexivity | now rewrite IH]. Qed.

Lemma dec_loop_length (fuel k : nat) (n : Z) :
  (1 <= k)%nat -> 0 <= n < 10 ^ Z.of_nat k ->
  (String.length (Printf.dec_loop fuel n "") <= k)%nat.
Proof.
  revert k n; induction fuel as [|f IH]; intros k n Hk Hn; [simpl; lia|].
  cbn [Printf.dec_loop]. destruct (Z.ltb_spec n 10) as [L|L]; [simpl; lia|].
  rewrite dec_loop_app, length_append. cbn [String.length].
  destruct k as [|[|k]]; [lia | simpl in Hn; lia |].
  rewrite Nat2Z.inj_succ, Z.pow_succ_r in Hn by lia.
  specialize (IH (S k) (n / 10) ltac:(lia)).
  assert (0 <= n / 10 < 10 ^ Z.of_nat (S k))
    by (split; [apply Z.div_pos; lia | apply Z.div_lt_upper_bound; lia]).
  specialize (IH H). lia.
Qed.

Lemma dec_length (k : nat) (n : Z) :
  (1 <= k)%nat -> 0 <= n < 10 ^ Z.of_nat k ->
  (String.length (Printf.dec n) <= k)%nat.
Proof. intros. unfold Printf.dec. now apply dec_loop_length. Qed.

Lemma dec02_value (x : Z) : 0 <= x -> Str.decimal_value (Printf.dec02 x) = x.
Proof.
  intro H. unfold Printf.dec02. destruct (x <? 10); [|now apply dec_value].
  change (Str.decimal_value (String "0" (Printf.dec x)))
    with (Str.decimal_from 0 (Printf.dec x)).
  now apply dec_value.
Qed.

(** The units that come before the one chosen let the size through. *)
Lemma printSize_loop_skip (pre rest : list (string * Z)) (size_ : Z) :
  Forall (fun u => size_ < fs.u64 (100 * snd u) /\
                   size_ < fs.u64 (10 * snd u) /\
                   size_ < fs.u64 (1000 * (snd u / fs.KiB))) pre ->
  fs.printSize_loop (pre ++ rest) size_ = fs.printSize_loop rest size_.
Proof.
  induction 1 as [|[name bin] us (A & B & C) _ IH]; [reflexivity|].
  cbn [List.app fs.printSize_loop snd] in *.
  destruct (Z.leb_spec (fs.u64 (100 * bin)) size_); [lia|].
  destruct (Z.leb_spec (fs.u64 (10 * bin)) size_); [lia|].
  destruct (Z.leb_spec (fs.u64 (1000 * (bin / fs.KiB))) size_); [lia | exact IH].
Qed.

(** The pass of the loop for the unit the size belongs to. *)
Lemma printSize_loop_hit (name : string) (bin : Z)
    (rest : list (string * Z)) (size_ : Z) :
  0 < bin -> 100 * bin < 2 ^ 64 -> String.length name = 3%nat ->
  0 <= size_ < 1000 * bin -> size_ < 2 ^ 64 ->
  fs.u64 (1000 * (bin / fs.KiB)) <= size_ ->
  exists s,
    fs.printSize_loop ((name, bin) :: rest) size_ = Some s /\
    Str.ends_with s name /\ (String.length s <= 7)%nat /\
    Shown.truncated name bin size_ s.
Proof.
  intros Hb Hw Hn R R64 T. cbn [fs.printSize_loop].
  pose proof (Z.div_mod size_ bin ltac:(lia)) as Hdm.
  pose proof (Z.mod_pos_bound size_ bin Hb) as Hm.
  assert (Hq : 0 <= size_ / bin < 1000)
    by (split; [apply Z.div_pos; lia | apply Z.div_lt_upper_bound; lia]).
  unfold Shown.truncated.
  set (q := size_ / bin) in *. set (r := size_ mod bin) in *.
  assert (Hqb : q * bin <= size_) by nia.
  assert (Efrac : fs.u64 (size_ - fs.u64 (q * bin)) = r).
  { unfold fs.u64. rewrite (Z.mod_small (q * bin)) by nia.
    rewrite Z.mod_small by nia. nia. }
  unfold fs.u64 at 1. rewrite (Z.mod_small (100 * bin)) by lia.
  destruct (Z.leb_spec (100 * bin) size_) as [H100|H100].
  { eexists. split; [reflexivity|]. split; [now eexists|].
    destruct (Z.leb_spec 100 q); [|nia].
    split; [|reflexivity].
    rewrite length_append, Hn.
    pose proof (dec_length 3 q ltac:(lia) ltac:(simpl; lia)). lia. }
  unfold fs.u64 at 1. rewrite (Z.mod_small (10 * bin)) by lia.
  destruct (Z.leb_spec 100 q); [nia|].
  destruct (Z.leb_spec (10 * bin) size_) as [H10|H10].
  { rewrite Efrac. unfold fs.u64. rewrite (Z.mod_small (r * 10)) by nia.
    assert (0 <= r * 10 / bin <= 9).
    { split; [apply Z.div_pos; lia|].
      apply Z.lt_succ_r. apply Z.div_lt_upper_bound; lia. }
    destruct (dec_small (r * 10 / bin)) as [D L]; [assumption|].
    destruct (Z.leb_spec 10 q); [|nia].
    eexists. split; [reflexivity|]. split; [exact (ends_with_app3 _ _ _ "."%char)|].
    split.
    - rewrite length_append. cbn [append String.length].
      rewrite length_append, L, Hn.
      pose proof (dec_length 2 q ltac:(lia) ltac:(simpl; nia)). lia.
    - exists (Printf.dec (r * 10 / bin)), 1%nat.
      split; [reflexivity|]. split; [exact L|]. split; [exact D|].
      split; [|reflexivity]. rewrite dec_value by lia.
      now rewrite Z.pow_1_r. }
  destruct (Z.leb_spec (fs.u64 (1000 * (bin / fs.KiB))) size_); [|lia].
  rewrite Efrac. unfold fs.u64 at 1. rewrite (Z.mod_small (r * 100)) by nia.
  assert (0 <= r * 100 / bin <= 99).
  { split; [apply Z.div_pos; lia|].
    apply Z.lt_succ_r. apply Z.div_lt_upper_bound; lia. }
  destruct (dec02_small (r * 100 / bin)) as [D L]; [assumption|].
  destruct (Z.leb_spec 10 q); [nia|].
  eexists. split; [reflexivity|]. split; [exact (ends_with_app3 _ _ _ "."%char)|].
  split.
  - rewrite length_append. cbn [append String.length].
      rewrite length_append, L, Hn.
    pose proof (dec_length 1 q ltac:(lia) ltac:(simpl; nia)). lia.
  - exists (Printf.dec02 (r * 100 / bin)), 2%nat.
    split; [reflexivity|]. split; [exact L|]. split; [exact D|].
    split; [|reflexivity]. rewrite dec02_value by lia. reflexivity.
Qed.

(** The pass for EiB, where [100 * bin] has wrapped to [4 * bin]. *)
Lemma printSize_loop_hit_EiB (rest : list (string * Z)) (size_ : Z) :
  1000 * 2 ^ 50 <= size_ < 2 ^ 64 ->
  exists s,
    fs.printSize_loop (("EiB", fs.EiB) :: rest) size_ = Some s /\
    Str.ends_with s "EiB" /\ (String.length s <= 7)%nat.
Proof.
  intro R. cbn [fs.printSize_loop].
  change (fs.u64 (100 * fs.EiB)) with (4 * 2 ^ 60).
  change (fs.u64 (10 * fs.EiB)) with (10 * 2 ^ 60).
  change (fs.u64 (1000 * (fs.EiB / fs.KiB))) with (1000 * 2 ^ 50).
  change fs.EiB with (2 ^ 60).
  assert (Hq : 0 <= size_ / 2 ^ 60 < 16)
    by (split; [apply Z.div_pos; lia | apply Z.div_lt_upper_bound; lia]).
  destruct (Z.leb_spec (4 * 2 ^ 60) size_).
  { eexists. split; [reflexivity|]. split; [now eexists|].
    rewrite length_append.
    pose proof (dec_length 2 (size_ / 2 ^ 60) ltac:(lia) ltac:(simpl; lia)).
    simpl String.length. lia. }
  destruct (Z.leb_spec (10 * 2 ^ 60) size_); [lia|].
  destruct (Z.leb_spec (1000 * 2 ^ 50) size_); [|lia].
  assert (Hq' : 0 <= size_ / 2 ^ 60 < 4)
    by (split; [apply Z.div_pos; lia | apply Z.div_lt_upper_bound; lia]).
  match goal with
  | |- context [Printf.dec02 (fs.u64 ?y / ?b)] =>
      assert (HB : 0 <= fs.u64 y < 2 ^ 64) by (apply Z.mod_pos_bound; lia);
      destruct (dec02_small (fs.u64 y / b)) as [D E]
  end.
  { split; [apply Z.div_pos; lia|].
    apply Z.lt_succ_r. apply Z.div_lt_upper_bound; lia. }
  eexists. split; [reflexivity|]. split; [exact (ends_with_app3 _ _ _ "."%char)|].
  rewrite length_append. cbn [append String.length].
  rewrite length_append, E.
  pose proof (dec_length 1 (size_ / 2 ^ 60) ltac:(lia) ltac:(simpl; lia)).
  simpl String.length. lia.
Qed.

(** [printSize] on a size that belongs to the unit [name]: the units before
    it in the list all let the size through. *)
Lemma printSize_at (pre rest : list (string * Z)) (name : string) (bin : Z)
    (size_ : Z) :
  fs.units = (pre ++ (name, bin) :: rest)%list ->
  forallb (fun u => (1000 * bin <=? fs.u64 (100 * snd u))
                    && (1000 * bin <=? fs.u64 (10 * snd u))
                    && (1000 * bin <=? fs.u64 (1000 * (snd u / fs.KiB)))) pre
    = true ->
  0 < bin -> 100 * bin < 2 ^ 64 -> String.length name = 3%nat ->
  fs.u64 (1000 * (bin / fs.KiB)) = 1000 * (bin / 1024) ->
  1000 * (bin / 1024) <= size_ < 1000 * bin -> size_ < 2 ^ 64 ->
  Str.ends_with (fs.printSize size_) name /\
  (String.length (fs.printSize size_) <= 7)%nat /\
  Shown.truncated name bin size_ (fs.printSize size_).
Proof.
  intros U Pre Hb Hw Hn Ht R R64. unfold fs.printSize. rewrite U.
  rewrite printSize_loop_skip.
  - assert (T' : fs.u64 (1000 * (bin / fs.KiB)) <= size_) by (rewrite Ht; lia).
    assert (N : 0 <= bin / 1024) by (apply Z.div_pos; lia).
    assert (R' : 0 <= size_ < 1000 * bin) by lia.
    destruct (printSize_loop_hit name bin rest size_ Hb Hw Hn R' R64 T')
      as (s & -> & H).
    exact H.
  - rewrite forallb_forall in Pre. apply Forall_forall. intros u I.
    specialize (Pre u I).
    apply andb_prop in Pre as [Pre C]. apply andb_prop in Pre as [A B].
    apply Z.leb_le in A, B, C. lia.
Qed.

Lemma printSize_at_EiB (size_ : Z) :
  1000 * 2 ^ 50 <= size_ < 2 ^ 64 ->
  Str.ends_with (fs.printSize size_) "EiB" /\
  (String.length (fs.printSize size_) <= 7)%nat.
Proof.
  intro R. unfold fs.printSize, fs.units.
  destruct (printSize_loop_hit_EiB
              [("PiB", fs.PiB); ("TiB", fs.TiB); ("GiB", fs.GiB);
               ("MiB", fs.MiB); ("KiB", fs.KiB)] size_ R) as (s & -> & H).
  exact H.
Qed.

Lemma unit_values :
  (fs.KiB = 2 ^ 10 /\ fs.KiB / 1024 = 1) /\
  (fs.MiB = 2 ^ 20 /\ fs.MiB / 1024 = 2 ^ 10) /\
  (fs.GiB = 2 ^ 30 /\ fs.GiB / 1024 = 2 ^ 20) /\
  (fs.TiB = 2 ^ 40 /\ fs.TiB / 1024 = 2 ^ 30) /\
  (fs.PiB = 2 ^ 50 /\ fs.PiB / 1024 = 2 ^ 40) /\
  (fs.EiB = 2 ^ 60 /\ fs.EiB / 1024 = 2 ^ 50).
Proof. now vm_compute. Qed.

Ltac unit_arith :=
  destruct unit_values as ((?K & ?K') & (?M & ?M') & (?G & ?G') & (?T & ?T')
                           & (?P & ?P') & (?E & ?E'));
  rewrite ?K', ?M', ?G', ?T', ?P', ?E', ?K, ?M, ?G, ?T, ?P, ?E; lia.

(** Every size from 1000 on belongs to one unit. *)
Lemma printSize_unit (size_ : Z) :
  1000 <= size_ < 2 ^ 64 ->
  exists name bin,
    In (name, bin) fs.units /\
    1000 * (bin / 1024) <= size_ /\ (size_ < 1000 * bin \/ name = "EiB") /\
    Str.ends_with (fs.printSize size_) name /\
    (String.length (fs.printSize size_) <= 7)%nat /\
    (name <> "EiB" -> Shown.truncated name bin size_ (fs.printSize size_)).
Proof.
  intro R.
  destruct (Z.lt_ge_cases size_ (1000 * 2 ^ 10)) as [H1|H1].
  { exists "KiB", fs.KiB.
    destruct (printSize_at
                [("EiB", fs.EiB); ("PiB", fs.PiB); ("TiB", fs.TiB);
                 ("GiB", fs.GiB); ("MiB", fs.MiB)] [] "KiB" fs.KiB size_)
      as (A & B & C); try reflexivity; try unit_arith.
    split; [unfold fs.units; simpl; tauto|].
    split; [unit_arith|]. split; [left; unit_arith|]. now repeat split. }
  destruct (Z.lt_ge_cases size_ (1000 * 2 ^ 20)) as [H2|H2].
  { exists "MiB", fs.MiB.
    destruct (printSize_at
                [("EiB", fs.EiB); ("PiB", fs.PiB); ("TiB", fs.TiB);
                 ("GiB", fs.GiB)] [("KiB", fs.KiB)] "MiB" fs.MiB size_)
      as (A & B & C); try reflexivity; try unit_arith.
    split; [unfold fs.units; simpl; tauto|].
    split; [unit_arith|]. split; [left; unit_arith|]. now repeat split. }
  destruct (Z.lt_ge_cases size_ (1000 * 2 ^ 30)) as [H3|H3].
  { exists "GiB", fs.GiB.
    destruct (printSize_at
                [("EiB", fs.EiB); ("PiB", fs.PiB); ("TiB", fs.TiB)]
                [("MiB", fs.MiB); ("KiB", fs.KiB)] "GiB" fs.GiB size_)
      as (A & B & C); try reflexivity; try unit_arith.
    split; [unfold fs.units; simpl; tauto|].
    split; [unit_arith|]. split; [left; unit_arith|]. now repeat split. }
  destruct (Z.lt_ge_cases size_ (1000 * 2 ^ 40)) as [H4|H4].
  { exists "TiB", fs.TiB.
    destruct (printSize_at
                [("EiB", fs.EiB); ("PiB", fs.PiB)]
                [("GiB", fs.GiB); ("MiB", fs.MiB); ("KiB", fs.KiB)]
                "TiB" fs.TiB size_)
      as (A & B & C); try reflexivity; try unit_arith.
    split; [unfold fs.units; simpl; tauto|].
    split; [unit_arith|]. split; [left; unit_arith|]. now repeat split. }
  destruct (Z.lt_ge_cases size_ (1000 * 2 ^ 50)) as [H5|H5].
  { exists "PiB", fs.PiB.
    destruct (printSize_at
                [("EiB", fs.EiB)]
                [("TiB", fs.TiB); ("GiB", fs.GiB); ("MiB", fs.MiB);
                 ("KiB", fs.KiB)] "PiB" fs.PiB size_)
      as (A & B & C); try reflexivity; try unit_arith.
    split; [unfold fs.units; simpl; tauto|].
    split; [unit_arith|]. split; [left; unit_arith|]. now repeat split. }
  exists "EiB", fs.EiB.
  destruct (printSize_at_EiB size_ ltac:(lia)) as (A & B).
  split; [unfold fs.units; simpl; tauto|].
  split; [unit_arith|]. split; [now right|].
  split; [exact A|]. split; [exact B|]. intro N. now elim N.
Qed.

Lemma printSize_small (size_ : Z) :
  0 <= size_ < 1000 -> fs.printSize size_ = Printf.dec size_.
Proof.
  intro R. unfold fs.printSize.
  rewrite <- (app_nil_r fs.units), printSize_loop_skip; [reflexivity|].
  unfold fs.units.
  repeat (apply Forall_cons;
          [let v := fresh in
           repeat split; simpl snd;
           match goal with
           | |- _ < ?t => set (v := t); vm_compute in v; subst v; lia
           end|]).
  apply Forall_nil.
Qed.

(** X16.  What [printSize] returns has at most seven characters for every
    64-bit size, so [sprintf] stays far inside the 64-byte buffer. *)
Theorem printSize_at_most_seven_characters (size_ : Z) :
  0 <= size_ < 2 ^ 64 -> (String.length (fs.printSize size_) <= 7)%nat.
Proof.
  intro R. destruct (Z.lt_ge_cases size_ 1000) as [H|H].
  - rewrite printSize_small by lia.
    pose proof (dec_length 3 size_ ltac:(lia) ltac:(simpl; lia)). lia.
  - destruct (printSize_unit size_ ltac:(lia)) as (n & b & _ & _ & _ & _ & L & _).
    exact L.
Qed.

Lemma printSize_at_most_seven_characters_witness :
  (String.length (fs.printSize (2 ^ 64 - 1)) <= 7)%nat.
Proof.
  apply printSize_at_most_seven_characters. lia.
Defined.

(** X17.  The unit [printSize] prints is fixed by the range of the size: a
    unit is used from 1000 of the next smaller unit (1000 bytes for KiB) up
    to, but not including, 1000 of its own; EiB is used from 1000 PiB on.
    So 1000 KiB is printed in MiB. *)
Theorem printSize_unit_by_range (size_ : Z) (name : string) (bin : Z) :
  0 <= size_ < 2 ^ 64 ->
  In (name, bin) fs.units ->
  1000 * (bin / 1024) <= size_ ->
  size_ < 1000 * bin \/ name = "EiB" ->
  Str.ends_with (fs.printSize size_) name.
Proof.
  intros R I Lo Hi.
  assert (R' : 1000 <= size_ < 2 ^ 64).
  { split; [|lia]. unfold fs.units in I. simpl in I.
    repeat (destruct I as [I | I];
            [injection I as <- <-; revert Lo; unit_arith|]).
    now elim I. }
  destruct (printSize_unit size_ R') as (n' & b' & I' & Lo' & Hi' & E & _).
  assert (n' = name); [|now subst n'].
  unfold fs.units in I, I'. simpl in I, I'.
  repeat (destruct I as [I | I]; [injection I as <- <-|]); [..|now elim I];
    repeat (destruct I' as [I' | I']; [injection I' as <- <-|]);
    try reflexivity; try (now elim I');
    exfalso; revert Lo Lo';
    destruct Hi as [Hi | Hi]; try discriminate Hi;
    destruct Hi' as [Hi' | Hi']; try discriminate Hi';
    try revert Hi; try revert Hi'; unit_arith.
Qed.

Lemma printSize_unit_by_range_witness :
  Str.ends_with (fs.printSize (1000 * 1024)) "MiB".
Proof.
  apply (printSize_unit_by_range (1000 * 1024) "MiB" fs.MiB).
  - lia.
  - unfold fs.units. simpl. tauto.
  - vm_compute. discriminate.
  - left. reflexivity.
Defined.

(** X18.  Below 1000 PiB the number [printSize] prints is the size in the
    printed unit cut off after the digits shown, never rounded up: the
    whole part is the quotient by the unit, and the fractional digits are
    those of the remainder. *)
Theorem printSize_truncates_below_1000_PiB (size_ : Z) :
  1000 <= size_ < 1000 * 2 ^ 50 ->
  exists name bin,
    In (name, bin) fs.units /\
    Shown.truncated name bin size_ (fs.printSize size_).
Proof.
  intro R.
  destruct (printSize_unit size_ ltac:(lia)) as (n & b & I & Lo & _ & _ & _ & T).
  exists n, b. split; [exact I|]. apply T. intros ->.
  unfold fs.units in I. simpl in I.
  repeat (destruct I as [I | I];
          [first [discriminate I | injection I as <-; revert Lo; unit_arith]|]).
  now elim I.
Qed.

Lemma printSize_truncates_below_1000_PiB_witness :
  exists name bin,
    In (name, bin) fs.units /\
    Shown.truncated name bin 1999 (fs.printSize 1999).
Proof.
  apply printSize_truncates_below_1000_PiB. lia.
Defined.

Example printSize_1999 : fs.printSize 1999 = "1.95KiB".
Proof. vm_compute. reflexivity. Qed.

Example printSize_1000_PiB_fraction_wrapped :
  fs.printSize (1000 * 2 ^ 50) = "0.01EiB".
Proof. vm_compute. reflexivity. Qed.

(** ** More on [readAll] and [writeAll] *)

Lemma readAll_loop_exact (size_bits : positive) (FILE : Type)
    (fread : FILE -> Z -> Z -> Z * FILE) (size_ : Z) :
  (forall fp p n, 0 <= n < 2 ^ Z.pos size_bits ->
     fst (fs.read size_bits FILE fread fp p n) <= n) ->
  size_ < 2 ^ Z.pos size_bits ->
  forall fuel fp p bytes ok fp' cs,
    0 <= bytes <= size_ ->
    fs.readAll_loop size_bits FILE fread fuel fp p bytes size_
      = Some (ok, fp', cs) ->
    (ok = true -> bytes + fs.transferred cs = size_) /\
    (ok = false -> bytes + fs.accumulated cs < size_) /\
    Z.of_nat (List.length cs) <= size_ - bytes.
Proof.
  intros Hio Hs. induction fuel as [|k IH]; intros fp p bytes ok fp' cs Hb;
    [discriminate|].
  cbn [fs.readAll_loop].
  destruct (Z.ltb_spec bytes size_) as [Hlt|Hge].
  - rewrite (size_t_small size_bits (size_ - bytes)) by lia.
    pose proof (Hio fp p (size_ - bytes) ltac:(lia)) as Hle.
    destruct (fs.read size_bits FILE fread fp p (size_ - bytes)) as [rc fp1].
    cbn [fst] in Hle.
    destruct (Z.leb_spec rc 0) as [Hrc|Hrc].
    + intro H; injection H as <- <- <-.
      split; [discriminate|]. split.
      * intros _. rewrite accumulated_cons. cbn [fs.got].
        destruct (Z.ltb_spec 0 rc); [lia|]. unfold fs.accumulated; simpl. lia.
      * simpl. lia.
    + rewrite (size_t_small size_bits (bytes + rc)) by lia.
      destruct (fs.readAll_loop size_bits FILE fread k fp1 (p + rc)
                  (bytes + rc) size_) as [[[ok1 fp2] cs1]|] eqn:L;
        [|discriminate].
      intro H; injection H as <- <- <-.
      destruct (IH fp1 (p + rc) (bytes + rc) ok1 fp2 cs1 ltac:(lia) L)
        as (A & B & C).
      rewrite transferred_cons, accumulated_cons. cbn [fs.got].
      destruct (Z.ltb_spec 0 rc); [|lia].
      split; [intro E; specialize (A E); lia|].
      split; [intro E; specialize (B E); lia|].
      cbn [List.length]. lia.
  - intro H; injection H as <- <- <-.
    split; [intros _; unfold fs.transferred; simpl; lia|].
    split; [discriminate | simpl; lia].
Qed.

(** X19.  When no call returns more than it was asked for, the counts that
    [read] (or [write]) returned to a run of [readAll] (of [writeAll]) add
    up to exactly [size_] when the run returns true and to less when it
    returns false, which it does only after a call that returned zero or
    less; the run makes no more than [size_] calls. *)
Theorem readAll_writeAll_transfer_exactly
    (size_bits : positive) (FILE : Type)
    (fread fwrite : FILE -> Z -> Z -> Z * FILE)
    (fuel : nat) (fp : FILE) (size_ : Z)
    (ok : bool) (fp' : FILE) (cs : list fs.call) :
  (forall fp p n, 0 <= n < 2 ^ Z.pos size_bits ->
     fst (fs.read size_bits FILE fread fp p n) <= n) ->
  (forall fp p n, 0 <= n < 2 ^ Z.pos size_bits ->
     fst (fs.write size_bits FILE fwrite fp p n) <= n) ->
  0 <= size_ < 2 ^ Z.pos size_bits ->
  (fs.readAll size_bits FILE fread fuel fp size_ = Some (ok, fp', cs) ->
   fs.made_on (fs.read size_bits FILE fread) fp cs fp' /\
   (ok = true -> fs.transferred cs = size_) /\
   (ok = false ->
    fs.accumulated cs < size_ /\
    exists c, nth_error cs (pred (List.length cs)) = Some c /\ fs.got c <= 0) /\
   Z.of_nat (List.length cs) <= size_) /\
  (fs.writeAll size_bits FILE fwrite fuel fp size_ = Some (ok, fp', cs) ->
   fs.made_on (fs.write size_bits FILE fwrite) fp cs fp' /\
   (ok = true -> fs.transferred cs = size_) /\
   (ok = false ->
    fs.accumulated cs < size_ /\
    exists c, nth_error cs (pred (List.length cs)) = Some c /\ fs.got c <= 0) /\
   Z.of_nat (List.length cs) <= size_).
Proof.
  intros Hr Hw Hs.
  assert (run : forall f,
    (forall fp p n, 0 <= n < 2 ^ Z.pos size_bits ->
       fst (fs.read size_bits FILE f fp p n) <= n) ->
    fs.readAll_loop size_bits FILE f fuel fp 0 0 size_ = Some (ok, fp', cs) ->
    fs.made_on (fs.read size_bits FILE f) fp cs fp' /\
    (ok = true -> fs.transferred cs = size_) /\
    (ok = false ->
     fs.accumulated cs < size_ /\
     exists c, nth_error cs (pred (List.length cs)) = Some c /\ fs.got c <= 0) /\
    Z.of_nat (List.length cs) <= size_).
  { intros f Hf R.
    pose proof (readAll_loop_exact size_bits FILE f size_ Hf ltac:(lia)
                  fuel fp 0 0 ok fp' cs ltac:(lia) R) as (A & B & C).
    apply (readAll_loop_run size_bits FILE f) in R; [|lia | reflexivity].
    destruct R as (Mo & _ & _ & _ & D).
    split; [exact Mo|]. split; [exact A|]. split; [|lia].
    intro E. split; [exact (B E) | exact (proj1 D E)]. }
  split.
  - exact (run fread Hr).
  - unfold fs.writeAll. rewrite writeAll_loop_readAll_loop. exact (run fwrite Hw).
Qed.

Lemma readAll_writeAll_transfer_exactly_witness :
  let cs := [fs.Call 0 7 3; fs.Call 3 4 3; fs.Call 6 1 1] in
  fs.made_on (fs.read 64 Chunked.FILE Chunked.fread) O cs 3%nat /\
  fs.transferred cs = 7 /\ Z.of_nat (List.length cs) <= 7.
Proof.
  intro cs.
  destruct (proj1 (readAll_writeAll_transfer_exactly 64 Chunked.FILE
                     Chunked.fread Chunked.fwrite 8 O 7 true 3%nat cs
                     chunked_bounded chunked_bounded ltac:(lia)) eq_refl)
    as (Mo & A & _ & C).
  split; [exact Mo|]. split; [exact (A eq_refl) | exact C].
Defined.

(** X20.  [fs::File::read] returns the count of [fread] as an [ssize_t].
    A single call that delivers half the range of [std::size_t] or more
    comes back negative, and [readAll] then returns false after that one
    call although everything was read; likewise [writeAll]. *)
Theorem readAll_writeAll_refuse_counts_above_ssize_max
    (size_bits : positive) (FILE : Type)
    (fread fwrite : FILE -> Z -> Z -> Z * FILE)
    (fuel : nat) (fp fp' : FILE) (size_ : Z) :
  2 ^ (Z.pos size_bits - 1) <= size_ < 2 ^ Z.pos size_bits ->
  (fread fp 0 size_ = (size_, fp') ->
   fs.readAll size_bits FILE fread (S fuel) fp size_ =
     Some (false, fp', [fs.Call 0 size_ (size_ - 2 ^ Z.pos size_bits)])) /\
  (fwrite fp 0 size_ = (size_, fp') ->
   fs.writeAll size_bits FILE fwrite (S fuel) fp size_ =
     Some (false, fp', [fs.Call 0 size_ (size_ - 2 ^ Z.pos size_bits)])).
Proof.
  intro R.
  assert (Hp : 0 < 2 ^ (Z.pos size_bits - 1)) by (apply Z.pow_pos_nonneg; lia).
  assert (run : forall f, f fp 0 size_ = (size_, fp') ->
    fs.readAll_loop size_bits FILE f (S fuel) fp 0 0 size_ =
      Some (false, fp', [fs.Call 0 size_ (size_ - 2 ^ Z.pos size_bits)])).
  { intros f E. cbn [fs.readAll_loop].
    destruct (Z.ltb_spec 0 size_); [|lia].
    rewrite Z.sub_0_r, (size_t_small size_bits size_) by lia.
    unfold fs.read. rewrite E. unfold fs.ssize_t.
    rewrite (size_t_small size_bits size_) by lia.
    destruct (Z.ltb_spec size_ (2 ^ (Z.pos size_bits - 1))); [lia|].
    destruct (Z.leb_spec (size_ - 2 ^ Z.pos size_bits) 0); [reflexivity | lia]. }
  split; intro E.
  - now apply run.
  - unfold fs.writeAll. rewrite writeAll_loop_readAll_loop. now apply run.
Qed.

Lemma readAll_writeAll_refuse_counts_above_ssize_max_witness :
  fs.readAll 32 unit (fun fp _ n => (n, fp)) 1 tt (2 ^ 31) =
    Some (false, tt, [fs.Call 0 (2 ^ 31) (2 ^ 31 - 2 ^ 32)]).
Proof.
  apply (proj1 (readAll_writeAll_refuse_counts_above_ssize_max
                  32 unit (fun fp _ n => (n, fp)) (fun fp _ n => (n, fp))
                  0 tt tt (2 ^ 31) ltac:(lia))).
  reflexivity.
Defined.

Lemma strip_removes_surrounding_blanks_witness :
  FtpConfig.strip (String " " (String FtpConfig.TAB " ")) = "".
Proof.
  apply (proj1 (proj2 (proj2 (strip_removes_surrounding_blanks
                                (String " " (String FtpConfig.TAB " ")))))).
  reflexivity.
Defined.
